(** * POET benchmark: scoring aggregation, efficiency state machine and
      knowledge base

    A shallow embedding of the scoring core of the repository:

    - [poet_benchmark.py]: [POETBenchmark.__init__], [_load_config],
      [_deep_update], the four score methods, and the ranking and the domain
      table of [generate_poet_report];
    - [utils/efficiency_evaluator_clean.py]: [EfficiencyEvaluator];
    - [utils/strategic_evaluator.py]: [KnowledgeBase] and the sub-scoring,
      the consistency score and [evaluate_strategic_value] of
      [StrategicEvaluator].

    Conventions of the embedding.  Python [float] values are rationals [Q]
    (exact arithmetic, no rounding; the sum and the quotient behind the means
    of the report are parameters instead), Python [int] values are [Z].  A
    call that can raise returns an [outcome]: [Ok v] or [Raise name] with the
    name of the Python exception class.  A [dict] read from JSON is an
    association list in insertion order; the stores of the knowledge base are
    [gmap]s; a Python [set] of ids is a [gset]. *)

From Stdlib Require Import QArith Lqa Ascii.
From stdpp Require Import gmap strings list fin_maps sorting.

Open Scope string_scope.
Open Scope list_scope.
Set Warnings "-register-all,-clear-no-such-hyp".
Set Default Proof Using "Type".

(** Drops what the goal does not mention (section variables included), so
    that the solvers do not pick it up. *)
Ltac forget_unused := repeat match goal with x : _ |- _ => clear x end.

(** ** Outcomes of calls that may raise *)

Module Py.

Inductive outcome (A : Type) : Type :=
| Ok (a : A)
| Raise (exn : string).
Arguments Ok {A} a.
Arguments Raise {A} exn.

#[global] Instance outcome_bind : MBind outcome :=
  fun A B (k : A -> outcome B) (m : outcome A) =>
    match m with
    | Ok a => k a
    | Raise e => Raise e
    end.

Definition raises {A : Type} (m : outcome A) : Prop :=
  exists e, m = Raise e.

(** [max(a, b)] and [min(a, b)] of Python on two arguments: the first
    argument is kept unless the second is strictly better. *)
Definition py_max (a b : Q) : Q := if Qlt_le_dec a b then b else a.
Definition py_min (a b : Q) : Q := if Qlt_le_dec b a then b else a.

(** JSON values as [json.load] builds them. *)
Inductive json : Type :=
| JNull
| JBool (b : bool)
| JInt (z : Z)
| JFloat (q : Q)
| JStr (s : string)
| JList (l : list json)
| JDict (d : list (string * json)).

Definition dict : Type := list (string * json).

Fixpoint dict_get (key : string) (d : dict) : option json :=
  match d with
  | [] => None
  | (k, v) :: d' => if String.eqb k key then Some v else dict_get key d'
  end.

(** [d[key] = value]: an existing key keeps its position, a new key goes
    last. *)
Fixpoint dict_set (key : string) (value : json) (d : dict) : dict :=
  match d with
  | [] => [(key, value)]
  | (k, v) :: d' =>
      if String.eqb k key then (k, value) :: d' else (k, v) :: dict_set key value d'
  end.

(** [obj[key]] with a string key. *)
Definition getitem (obj : json) (key : string) : outcome json :=
  match obj with
  | JDict d =>
      match dict_get key d with
      | Some v => Ok v
      | None => Raise "KeyError"
      end
  | _ => Raise "TypeError"
  end.

(** The value of [x] in [float * x]: numbers and booleans multiply, anything
    else raises [TypeError]. *)
Definition as_number (x : json) : outcome Q :=
  match x with
  | JInt z => Ok (inject_Z z)
  | JFloat q => Ok q
  | JBool b => Ok (if b then 1 else 0)%Q
  | _ => Raise "TypeError"
  end.

Definition times (a : Q) (x : json) : outcome Q :=
  w ← as_number x; Ok (a * w)%Q.

Lemma py_max_ge_l a b : (a <= py_max a b)%Q.
Proof. unfold py_max. destruct (Qlt_le_dec a b); lra. Qed.

Lemma py_max_ge_r a b : (b <= py_max a b)%Q.
Proof. unfold py_max. destruct (Qlt_le_dec a b); lra. Qed.

Lemma py_max_lub a b c : (a <= c)%Q -> (b <= c)%Q -> (py_max a b <= c)%Q.
Proof. unfold py_max. destruct (Qlt_le_dec a b); lra. Qed.

Lemma py_min_le_l a b : (py_min a b <= a)%Q.
Proof. unfold py_min. destruct (Qlt_le_dec b a); lra. Qed.

Lemma py_min_glb a b c : (c <= a)%Q -> (c <= b)%Q -> (c <= py_min a b)%Q.
Proof. unfold py_min. destruct (Qlt_le_dec b a); lra. Qed.

Lemma dict_get_set_eq key value d : dict_get key (dict_set key value d) = Some value.
Proof.
  induction d as [| [k v] d IH]; simpl.
  - by rewrite String.eqb_refl.
  - destruct (String.eqb k key) eqn:E; simpl; rewrite E; [done | exact IH].
Qed.

Lemma dict_get_set_ne key key' value d :
  key <> key' -> dict_get key' (dict_set key value d) = dict_get key' d.
Proof.
  intros Hne. induction d as [| [k v] d IH]; simpl.
  - destruct (String.eqb_spec key key'); [done | reflexivity].
  - destruct (String.eqb_spec k key) as [-> | Hk]; simpl.
    + destruct (String.eqb_spec key key'); [done | reflexivity].
    + destruct (String.eqb_spec k key'); [reflexivity | exact IH].
Qed.

Lemma dict_get_None key d : dict_get key d = None <-> key ∉ d.*1.
Proof.
  induction d as [| [k v] d IH]; simpl.
  - split; [intros _ H; by apply elem_of_nil in H | done].
  - rewrite not_elem_of_cons. destruct (String.eqb_spec k key) as [-> | Hk]; simpl.
    + split; [done | by intros [? _]].
    + rewrite IH. split; [intros ?; split; [done | done] | by intros [_ ?]].
Qed.

Lemma py_max_mono a b a' b' :
  (a <= a')%Q -> (b <= b')%Q -> (py_max a b <= py_max a' b')%Q.
Proof. unfold py_max. destruct (Qlt_le_dec a b), (Qlt_le_dec a' b'); lra. Qed.

Lemma py_min_mono a b a' b' :
  (a <= a')%Q -> (b <= b')%Q -> (py_min a b <= py_min a' b')%Q.
Proof. unfold py_min. destruct (Qlt_le_dec b a), (Qlt_le_dec b' a'); lra. Qed.

Lemma py_min_le_r a b : (py_min a b <= b)%Q.
Proof. unfold py_min. destruct (Qlt_le_dec b a); lra. Qed.

Lemma bind_Ok_inv {A B : Type} (m : outcome A) (k : A -> outcome B) (b : B) :
  m ≫= k = Ok b -> exists a, m = Ok a /\ k a = Ok b.
Proof. destruct m as [a|e]; simpl; [eauto | discriminate]. Qed.

Ltac bind_inv H :=
  repeat match type of H with
         | _ ≫= _ = Ok _ =>
             let a := fresh "v" in
             let Ha := fresh "Hv" in
             apply bind_Ok_inv in H; destruct H as (a & Ha & H)
         end.

End Py.

(** ** [poet_benchmark.py]: configuration and score aggregation

    The embedding follows the bodies of the methods.  (The return annotation
    of [calculate_poet_score] names [Tuple], which the module does not import
    from [typing], and the module imports [utils.efficiency_evaluator] where
    the file is [efficiency_evaluator_clean.py].) *)

Module POETBenchmark.
Import Py.

(** [default_config] of [_load_config]. *)
Definition default_config : dict :=
  [ ("poet_weights",
      JDict [ ("efficiency_value", JFloat (30 # 100));
              ("quality_value", JFloat (50 # 100));
              ("strategic_value", JFloat (20 # 100)) ]);
    ("quality_value_weights",
      JDict [ ("race_score", JFloat (70 # 100));
              ("fact_score", JFloat (30 # 100)) ]);
    ("efficiency_weights",
      JDict [ ("time_weight", JFloat (40 # 100));
              ("cost_weight", JFloat (30 # 100));
              ("automation_weight", JFloat (30 # 100)) ]);
    ("strategic_weights",
      JDict [ ("task_capability", JFloat (60 # 100));
              ("knowledge_capability", JFloat (40 # 100)) ]);
    ("task_complexity_mapping",
      JDict [ ("simple", JInt 1); ("moderate", JInt 2); ("complex", JInt 3);
              ("advanced", JInt 4); ("expert", JInt 5) ]);
    ("domain_expert_rates",
      JDict [ ("finance", JFloat 150); ("legal", JFloat 200);
              ("medical", JFloat 180); ("technology", JFloat 120);
              ("marketing", JFloat 100); ("general", JFloat 100) ]);
    ("domain_expert_times",
      JDict [ ("finance", JFloat 3); ("legal", JFloat 4); ("medical", JFloat 5);
              ("technology", JFloat 2); ("marketing", JFloat 2);
              ("general", JFloat 2) ]);
    ("default_expert_time", JFloat 2);
    ("default_expert_rate", JFloat 100);
    ("knowledge_base_path", JStr "poet_knowledge_base.json") ].

(** One iteration of the loop of [_deep_update], as the value [base_dict[key]]
    holds afterwards: a dict met by a dict is updated recursively, anything
    else is replaced by [value]. *)
Fixpoint updated_value (old : option json) (value : json) {struct value} : json :=
  match old, value with
  | Some (JDict base_dict), JDict update_dict =>
      JDict
        ((fix items (u : list (string * json)) (b : dict) {struct u} : dict :=
            match u with
            | [] => b
            | (key, v) :: u' => items u' (dict_set key (updated_value (dict_get key b) v) b)
            end) update_dict base_dict)
  | _, _ => value
  end.

(** [_deep_update(base_dict, update_dict)], returning the updated [base_dict]. *)
Fixpoint _deep_update (base_dict : dict) (update_dict : list (string * json)) : dict :=
  match update_dict with
  | [] => base_dict
  | (key, value) :: rest =>
      _deep_update (dict_set key (updated_value (dict_get key base_dict) value) base_dict) rest
  end.

(** What [_load_config] finds at [config_path]: [None] when the path is empty
    or names no file, [Some (Raise e)] when opening or [json.load] raises,
    [Some (Ok v)] when the file parses to [v]. *)
Definition config_file : Type := option (outcome json).

(** [_load_config].  A parsed value that is no dict has no [items()]: the
    [AttributeError] is caught with every other exception and the defaults are
    returned untouched. *)
Definition _load_config (file : config_file) : dict :=
  match file with
  | Some (Ok (JDict user_config)) => _deep_update default_config user_config
  | Some (Ok _) => default_config
  | Some (Raise _) => default_config
  | None => default_config
  end.

(** [AIClient.__init__]: the key comes from the environment; an empty key
    raises. *)
Record AIClient : Type := { api_key : string }.

Definition AIClient_init (env_api_key : string) : outcome AIClient :=
  if String.eqb env_api_key "" then Raise "ValueError"
  else Ok {| api_key := env_api_key |}.

(** The benchmark object: [self.config] and [self.ai_client].  The other
    attributes that [__init__] sets, [efficiency_evaluator], [knowledge_base],
    [strategic_evaluator] and [results], are built from the entries
    [default_expert_time], [default_expert_rate] and [knowledge_base_path] of
    the configuration, from the client and from the disk; their classes are
    modelled in the modules below. *)
Record POETBenchmark : Type := {
  config : dict;
  ai_client : AIClient
}.

(** [self.config.get("knowledge_base_path", "poet_knowledge_base.json")]. *)
Definition knowledge_base_path (config : dict) : json :=
  default (JStr "poet_knowledge_base.json") (dict_get "knowledge_base_path" config).

(** [os.path.exists(path)], as far as raising goes.  [KnowledgeBase.__init__]
    calls it on its [kb_path] outside any [try].  [os.stat] takes a string or
    an integer file descriptor ([bool] is an [int]) and every [OSError] or
    [ValueError] becomes [False]; a [TypeError] on any other value and the
    [OverflowError] on an integer that does not fit a C [int] are not
    caught. *)
Definition os_path_exists (path : json) : outcome unit :=
  match path with
  | JStr _ => Ok tt
  | JBool _ => Ok tt
  | JInt fd =>
      if bool_decide (-2147483648 <= fd <= 2147483647)%Z then Ok tt
      else Raise "OverflowError"
  | _ => Raise "TypeError"
  end.

(** [__init__].  After the configuration and the client, the constructor
    builds [EfficiencyEvaluator(...)], which stores its arguments,
    [KnowledgeBase(kb_path=...)], which calls [os.path.exists] on the
    configured path and loads the file inside a [try] that catches every
    exception, and [StrategicEvaluator(...)], which stores the two objects it
    is given. *)
Definition __init__ (file : config_file) (env_api_key : string) : outcome POETBenchmark :=
  let config := _load_config file in
  client ← AIClient_init env_api_key;
  checked ← os_path_exists (knowledge_base_path config);
  Ok {| config := config; ai_client := client |}.

(** [calculate_quality_score(race_score, fact_accuracy, fact_citations)]. *)
Definition calculate_quality_score (self : POETBenchmark)
    (race_score fact_accuracy : Q) (fact_citations : Z) : outcome Q :=
  weights ← getitem (JDict (config self)) "quality_value_weights";
  let normalized_race := py_min 1 (py_max 0 (race_score / 5)) in
  let normalized_fact := py_min 1 (py_max 0 fact_accuracy) in
  w_race ← getitem weights "race_score";
  race_part ← times normalized_race w_race;
  w_fact ← getitem weights "fact_score";
  fact_part ← times normalized_fact w_fact;
  Ok (race_part + fact_part)%Q.

(** [calculate_poet_score]: the score and the [breakdown] dict. *)
Definition calculate_poet_score (self : POETBenchmark)
    (efficiency_score quality_score strategic_score : Q)
    : outcome (Q * list (string * Q)) :=
  weights ← getitem (JDict (config self)) "poet_weights";
  w_e ← getitem weights "efficiency_value";
  e_part ← times efficiency_score w_e;
  w_q ← getitem weights "quality_value";
  q_part ← times quality_score w_q;
  w_s ← getitem weights "strategic_value";
  s_part ← times strategic_score w_s;
  let poet_score := (e_part + q_part + s_part)%Q in
  let breakdown :=
    [ ("efficiency_value", efficiency_score);
      ("quality_value", quality_score);
      ("strategic_value", strategic_score) ] in
  Ok (poet_score, breakdown).

(** *** Reading the weights of a configuration (for the statements below) *)

(** The three top-level weights as numbers, read the way
    [calculate_poet_score] reads them. *)
Definition poet_weights (cfg : dict) : outcome (Q * Q * Q) :=
  weights ← getitem (JDict cfg) "poet_weights";
  w_e ← getitem weights "efficiency_value";
  e ← as_number w_e;
  w_q ← getitem weights "quality_value";
  q ← as_number w_q;
  w_s ← getitem weights "strategic_value";
  s ← as_number w_s;
  Ok (e, q, s).

(** The two quality sub-weights, read the way [calculate_quality_score] reads
    them. *)
Definition quality_value_weights (cfg : dict) : outcome (Q * Q) :=
  weights ← getitem (JDict cfg) "quality_value_weights";
  w_race ← getitem weights "race_score";
  r ← as_number w_race;
  w_fact ← getitem weights "fact_score";
  f ← as_number w_fact;
  Ok (r, f).

(** A user configuration file that sets the three top-level weights. *)
Definition user_weights (w_e w_q w_s : Q) : json :=
  JDict [ ("poet_weights",
            JDict [ ("efficiency_value", JFloat w_e);
                    ("quality_value", JFloat w_q);
                    ("strategic_value", JFloat w_s) ]) ].

(** The benchmark object that a successful [__init__] returns. *)
Definition constructed (file : config_file) (key : string) : POETBenchmark :=
  {| config := _load_config file; ai_client := {| api_key := key |} |}.


(** *** Lemmas on the aggregation *)

(** The recursive call of [_deep_update] on a nested dict. *)
Lemma updated_value_nested base_dict update_dict :
  updated_value (Some (JDict base_dict)) (JDict update_dict)
  = JDict (_deep_update base_dict update_dict).
Proof.
  simpl. f_equal. revert base_dict.
  induction update_dict as [| [key value] rest IH]; intros base_dict; [reflexivity |].
  simpl. apply IH.
Qed.

(** Overriding one weight keeps the other two defaults: the weights are
    then 0.2, 0.5 and 0.2. *)
Example load_config_partial_override :
  poet_weights
    (_load_config
       (Some (Ok (JDict [ ("poet_weights", JDict [ ("efficiency_value", JFloat (2 # 10)) ]) ]))))
  = Ok (2 # 10, 50 # 100, 20 # 100).
Proof. reflexivity. Qed.

(** A file that does not parse, or parses to a list, leaves the defaults. *)
Example load_config_unreadable :
  _load_config (Some (Raise "JSONDecodeError")) = default_config
  /\ _load_config (Some (Ok (JList []))) = default_config
  /\ _load_config None = default_config.
Proof. repeat split. Qed.

Lemma calculate_poet_score_weighted_sum self w_e w_q w_s e q s :
  poet_weights (config self) = Ok (w_e, w_q, w_s) ->
  calculate_poet_score self e q s =
    Ok ((e * w_e + q * w_q + s * w_s)%Q,
        [ ("efficiency_value", e); ("quality_value", q); ("strategic_value", s) ]).
Proof.
  unfold poet_weights, calculate_poet_score, times. intros H.
  bind_inv H. injection H as -> -> ->.
  rewrite Hv. simpl. rewrite Hv0. simpl. rewrite Hv1. simpl.
  rewrite Hv2. simpl. rewrite Hv3. simpl. rewrite Hv4. simpl. rewrite Hv5.
  reflexivity.
Qed.

Lemma calculate_quality_score_formula self w_r w_f race acc citations :
  quality_value_weights (config self) = Ok (w_r, w_f) ->
  calculate_quality_score self race acc citations =
    Ok (py_min 1 (py_max 0 (race / 5)) * w_r + py_min 1 (py_max 0 acc) * w_f)%Q.
Proof.
  unfold quality_value_weights, calculate_quality_score, times. intros H.
  bind_inv H. injection H as -> ->.
  rewrite Hv. simpl. rewrite Hv0. simpl. rewrite Hv1. simpl.
  rewrite Hv2. simpl. rewrite Hv3. reflexivity.
Qed.

Lemma normalized_in_unit_interval x : (0 <= py_min 1 (py_max 0 x) <= 1)%Q.
Proof.
  split.
  - apply py_min_glb; [lra | apply py_max_ge_l].
  - apply py_min_le_l.
Qed.

(** *** Top-level weights are not validated (C1) *)

(** C1, counterexample.  A configuration file whose three top-level weights
    are 0.3, 0.4 and 0.2 (sum 0.9) is accepted: construction returns a
    benchmark whose configuration holds exactly these weights. *)
Lemma init_accepts_weights_summing_to_09 :
  exists self,
    __init__ (Some (Ok (user_weights (3 # 10) (4 # 10) (2 # 10)))) "sk-test" = Ok self
    /\ poet_weights (config self) = Ok (3 # 10, 4 # 10, 2 # 10)
    /\ ((3 # 10) + (4 # 10) + (2 # 10) == 9 # 10)%Q
    /\ ~ ((3 # 10) + (4 # 10) + (2 # 10) == 1)%Q.
Proof.
  eexists. split; [reflexivity |]. split; [reflexivity |].
  split; [reflexivity | discriminate].
Qed.

(** A configuration file that sets the path of the knowledge base to [null]
    makes construction raise, whatever the weights; an integer path is taken
    for a file descriptor. *)
Example init_rejects_null_knowledge_base_path :
  __init__ (Some (Ok (JDict [ ("knowledge_base_path", JNull) ]))) "sk-test"
  = Raise "TypeError"
  /\ __init__ (Some (Ok (JDict [ ("knowledge_base_path", JInt 7) ]))) "sk-test"
     = Ok (constructed (Some (Ok (JDict [ ("knowledge_base_path", JInt 7) ]))) "sk-test")
  /\ __init__ None "" = Raise "ValueError".
Proof. repeat split. Qed.

(** The value that a run of [_deep_update] leaves under [key] depends on the
    value under [key] before the run only. *)
Lemma deep_update_same_key update base base' key :
  dict_get key base = dict_get key base' ->
  dict_get key (_deep_update base update) = dict_get key (_deep_update base' update).
Proof.
  revert base base'.
  induction update as [| [k value] update IH]; intros base base' Hsame; [exact Hsame |].
  simpl. apply IH.
  destruct (decide (k = key)) as [-> | Hne].
  - by rewrite !dict_get_set_eq, Hsame.
  - by rewrite !dict_get_set_ne.
Qed.

(** Setting one key of the update leaves what the run does to another key. *)
Lemma deep_update_other_key update base key other value :
  other <> key ->
  dict_get key (_deep_update base (dict_set other value update))
  = dict_get key (_deep_update base update).
Proof.
  intros Hne. revert base.
  induction update as [| [k v] update IH]; intros base.
  - simpl. by rewrite dict_get_set_ne.
  - simpl. destruct (String.eqb_spec k other) as [-> | Hk]; simpl.
    + apply deep_update_same_key. by rewrite !dict_get_set_ne.
    + apply IH.
Qed.

Lemma init_raises file key :
  raises (__init__ file key)
  <-> key = "" \/ raises (os_path_exists (knowledge_base_path (_load_config file))).
Proof.
  unfold __init__, AIClient_init.
  destruct (String.eqb_spec key "") as [-> | Hkey]; simpl.
  - split; [by left | intros _; by eexists].
  - destruct (os_path_exists (knowledge_base_path (_load_config file))) as [[] | e]; simpl.
    + split; [by intros [e He] | intros [? | [e He]]; done].
    + split; [intros _; right; by eexists | intros _; by eexists].
Qed.

(** C1, as amended.  The defaults sum to 1; weights given in the
    configuration file replace the defaults verbatim, whatever their sum
    (they are neither rejected nor renormalized), and a file that sets the
    weights only is accepted with any API key that is not empty.  Whether
    construction fails never depends on the weights: setting the entry
    [poet_weights] of a configuration file to any value changes nothing to
    it.  Construction fails exactly when the API key is missing or
    [os.path.exists] raises on the configured path of the knowledge base. *)
Theorem load_config_keeps_user_weights :
  (exists w_e w_q w_s,
      poet_weights (_load_config None) = Ok (w_e, w_q, w_s)
      /\ (w_e + w_q + w_s == 1)%Q)
  /\ (forall w_e w_q w_s : Q,
        poet_weights (_load_config (Some (Ok (user_weights w_e w_q w_s))))
        = Ok (w_e, w_q, w_s))
  /\ (forall (w_e w_q w_s : Q) (key : string),
        key <> "" ->
        __init__ (Some (Ok (user_weights w_e w_q w_s))) key
        = Ok (constructed (Some (Ok (user_weights w_e w_q w_s))) key))
  /\ (forall (user_config : dict) (weights : json) (key : string),
        raises (__init__ (Some (Ok (JDict (dict_set "poet_weights" weights user_config))))
                  key)
        <-> raises (__init__ (Some (Ok (JDict user_config))) key))
  /\ (forall (file : config_file) (key : string),
        raises (__init__ file key)
        <-> key = ""
            \/ raises (os_path_exists (knowledge_base_path (_load_config file)))).
Proof.
  split; [| split; [| split; [| split]]].
  - exists (30 # 100), (50 # 100), (20 # 100). split; reflexivity.
  - intros w_e w_q w_s. reflexivity.
  - intros w_e w_q w_s key Hkey. unfold __init__, AIClient_init.
    destruct (String.eqb_spec key ""); [done | reflexivity].
  - intros user_config weights key. rewrite !init_raises.
    unfold knowledge_base_path, _load_config.
    by rewrite deep_update_other_key.
  - apply init_raises.
Qed.

(** *** The composite score (C2) *)

(** C2, counterexample.  The weights 1.5, -0.5 and 0 sum to 1, the dimension
    scores 1, 0, 0 lie in [0,1], and the composite score is 1.5. *)
Lemma poet_score_above_one_with_negative_weight :
  exists self p breakdown,
    __init__ (Some (Ok (user_weights (3 # 2) (- 1 # 2) 0))) "sk-test" = Ok self
    /\ poet_weights (config self) = Ok (3 # 2, - 1 # 2, 0)%Q
    /\ ((3 # 2) + (- 1 # 2) + 0 == 1)%Q
    /\ calculate_poet_score self 1 0 0 = Ok (p, breakdown)
    /\ ~ (p <= 1)%Q.
Proof.
  eexists. eexists. eexists.
  split; [reflexivity |]. split; [reflexivity |]. split; [reflexivity |].
  split; [reflexivity |]. vm_compute. intros H. apply H. reflexivity.
Qed.

(** C2, as amended.  With three non-negative weights that sum to 1 and
    dimension scores in [0,1], [calculate_poet_score] returns the weighted sum
    of the scores, which lies in [0,1]; all-zero scores give 0 and all-one
    scores give 1. *)
Theorem calculate_poet_score_unit_interval self (w_e w_q w_s e q s : Q) :
  poet_weights (config self) = Ok (w_e, w_q, w_s) ->
  (w_e + w_q + w_s == 1)%Q ->
  (0 <= w_e)%Q -> (0 <= w_q)%Q -> (0 <= w_s)%Q ->
  (0 <= e <= 1)%Q -> (0 <= q <= 1)%Q -> (0 <= s <= 1)%Q ->
  (exists p breakdown,
      calculate_poet_score self e q s = Ok (p, breakdown)
      /\ (p == e * w_e + q * w_q + s * w_s)%Q
      /\ (0 <= p <= 1)%Q)
  /\ (exists p breakdown,
        calculate_poet_score self 0 0 0 = Ok (p, breakdown) /\ (p == 0)%Q)
  /\ (exists p breakdown,
        calculate_poet_score self 1 1 1 = Ok (p, breakdown) /\ (p == 1)%Q).
Proof.
  intros Hw Hsum He Hq Hs [He0 He1] [Hq0 Hq1] [Hs0 Hs1].
  split; [| split].
  - eexists. eexists. split.
    + apply (calculate_poet_score_weighted_sum _ _ _ _ _ _ _ Hw).
    + split; [reflexivity |]. split; nra.
  - eexists. eexists. split.
    + apply (calculate_poet_score_weighted_sum _ _ _ _ _ _ _ Hw).
    + lra.
  - eexists. eexists. split.
    + apply (calculate_poet_score_weighted_sum _ _ _ _ _ _ _ Hw).
    + lra.
Qed.

Lemma calculate_poet_score_unit_interval_default :
  __init__ None "sk-test" = Ok (constructed None "sk-test")
  /\ exists p breakdown,
      calculate_poet_score (constructed None "sk-test") (1 # 2) (1 # 4) 1 = Ok (p, breakdown)
      /\ (p == (1 # 2) * (30 # 100) + (1 # 4) * (50 # 100) + 1 * (20 # 100))%Q
      /\ (0 <= p <= 1)%Q.
Proof.
  split; [reflexivity |].
  refine (proj1 (calculate_poet_score_unit_interval (constructed None "sk-test")
           (30 # 100) (50 # 100) (20 # 100) (1 # 2) (1 # 4) 1 _ _ _ _ _ _ _ _)).
  - reflexivity.
  - reflexivity.
  - discriminate.
  - discriminate.
  - discriminate.
  - split; discriminate.
  - split; discriminate.
  - split; discriminate.
Defined.

(** *** The quality score does not read the citation count (C10) *)

(** C10.  [calculate_quality_score] returns the same outcome for any two
    values of the effective-citations count; with numeric sub-weights it is
    the race score divided by 5 and the citation accuracy, each clamped to
    [0,1], under the two configured sub-weights. *)
Theorem calculate_quality_score_ignores_citations self (race acc : Q) :
  (forall c1 c2 : Z,
      calculate_quality_score self race acc c1 = calculate_quality_score self race acc c2)
  /\ (forall w_r w_f : Q,
        quality_value_weights (config self) = Ok (w_r, w_f) ->
        forall c : Z,
          calculate_quality_score self race acc c =
            Ok (py_min 1 (py_max 0 (race / 5)) * w_r + py_min 1 (py_max 0 acc) * w_f)%Q
          /\ (0 <= py_min 1 (py_max 0 (race / 5)) <= 1)%Q
          /\ (0 <= py_min 1 (py_max 0 acc) <= 1)%Q).
Proof.
  split.
  - intros c1 c2. reflexivity.
  - intros w_r w_f Hw c. split; [| split].
    + apply calculate_quality_score_formula, Hw.
    + apply normalized_in_unit_interval.
    + apply normalized_in_unit_interval.
Qed.

Lemma calculate_quality_score_ignores_citations_default :
  __init__ None "sk-test" = Ok (constructed None "sk-test")
  /\ calculate_quality_score (constructed None "sk-test") 4 (1 # 2) 0
     = calculate_quality_score (constructed None "sk-test") 4 (1 # 2) 17
  /\ calculate_quality_score (constructed None "sk-test") 4 (1 # 2) 17 =
       Ok (py_min 1 (py_max 0 (4 / 5)) * (70 # 100)
           + py_min 1 (py_max 0 (1 # 2)) * (30 # 100))%Q.
Proof.
  split; [reflexivity |]. split.
  - exact (proj1 (calculate_quality_score_ignores_citations
                    (constructed None "sk-test") 4 (1 # 2)) 0%Z 17%Z).
  - exact (proj1 (proj2 (calculate_quality_score_ignores_citations
                           (constructed None "sk-test") 4 (1 # 2))
                    (70 # 100) (30 # 100) eq_refl 17%Z)).
Defined.

(** *** What [_deep_update] keeps and what it replaces *)

Lemma deep_update_unmentioned update base key :
  dict_get key update = None ->
  dict_get key (_deep_update base update) = dict_get key base.
Proof.
  revert base. induction update as [| [k v] rest IH]; intros base H; simpl in *; [done |].
  destruct (String.eqb_spec k key) as [-> | Hne]; [discriminate |].
  rewrite IH by done. by apply dict_get_set_ne.
Qed.

Lemma deep_update_mentioned update base key value :
  NoDup update.*1 ->
  dict_get key update = Some value ->
  dict_get key (_deep_update base update)
  = Some (updated_value (dict_get key base) value).
Proof.
  revert base. induction update as [| [k v] rest IH]; intros base Hnodup H; simpl in *.
  - discriminate.
  - apply NoDup_cons in Hnodup as [Hk Hnodup].
    destruct (String.eqb_spec k key) as [-> | Hne].
    + injection H as ->. rewrite deep_update_unmentioned.
      * apply dict_get_set_eq.
      * by apply dict_get_None.
    + rewrite IH by done. by rewrite dict_get_set_ne.
Qed.

Lemma deep_update_keeps_keys update base key :
  is_Some (dict_get key base) -> is_Some (dict_get key (_deep_update base update)).
Proof.
  revert base. induction update as [| [k v] rest IH]; intros base H; simpl; [done |].
  apply IH. destruct (decide (k = key)) as [-> | Hne].
  - rewrite dict_get_set_eq. eauto.
  - by rewrite dict_get_set_ne.
Qed.

(** Whatever the configuration file holds, the loaded configuration has every
    key of [default_config]: a subscript [self.config[key]] with one of
    these keys does not raise [KeyError]. *)
Theorem load_config_keeps_default_keys (file : config_file) :
  Forall (fun key => is_Some (dict_get key (_load_config file))) default_config.*1.
Proof.
  assert (Hdefault : Forall (fun key => is_Some (dict_get key default_config))
                       default_config.*1).
  { apply Forall_forall. intros key Hin.
    destruct (dict_get key default_config) eqn:E; [eauto |].
    by apply dict_get_None in E. }
  destruct file as [[value | e] |]; simpl; try exact Hdefault.
  destruct value; try exact Hdefault.
  eapply Forall_impl; [exact Hdefault |]. intros key. apply deep_update_keeps_keys.
Qed.

(** [_deep_update] with an update that names each key once, as a parsed JSON
    object does: a key the update does not name keeps its value; a key it
    names with a value that is no dict, or where the old value is no dict,
    takes the new value; a dict met by a dict is merged recursively. *)
Theorem deep_update_merges (base_dict update_dict : dict) :
  NoDup update_dict.*1 ->
  (forall key,
      dict_get key update_dict = None ->
      dict_get key (_deep_update base_dict update_dict) = dict_get key base_dict)
  /\ (forall key value,
        dict_get key update_dict = Some value ->
        (forall nested, value <> JDict nested) ->
        dict_get key (_deep_update base_dict update_dict) = Some value)
  /\ (forall key nested,
        dict_get key update_dict = Some (JDict nested) ->
        (forall old, dict_get key base_dict <> Some (JDict old)) ->
        dict_get key (_deep_update base_dict update_dict) = Some (JDict nested))
  /\ (forall key nested old,
        dict_get key update_dict = Some (JDict nested) ->
        dict_get key base_dict = Some (JDict old) ->
        dict_get key (_deep_update base_dict update_dict)
        = Some (JDict (_deep_update old nested))).
Proof.
  intros Hnodup. split; [| split; [| split]].
  - intros key. apply deep_update_unmentioned.
  - intros key value Hkey Hscalar.
    rewrite (deep_update_mentioned _ _ _ _ Hnodup Hkey). f_equal.
    destruct (dict_get key base_dict) as [[] |], value; try reflexivity.
    by destruct (Hscalar d0).
  - intros key nested Hkey Hold.
    rewrite (deep_update_mentioned _ _ _ _ Hnodup Hkey). f_equal.
    destruct (dict_get key base_dict) as [[] |]; try reflexivity.
    by destruct (Hold d).
  - intros key nested old Hkey Hold.
    rewrite (deep_update_mentioned _ _ _ _ Hnodup Hkey), Hold.
    f_equal. apply updated_value_nested.
Qed.

Lemma deep_update_merges_partial_weights :
  dict_get "quality_value_weights"
    (_deep_update default_config
       [ ("poet_weights", JDict [ ("quality_value", JFloat (6 # 10)) ]);
         ("default_expert_time", JInt 3) ])
  = dict_get "quality_value_weights" default_config
  /\ dict_get "default_expert_time"
       (_deep_update default_config
          [ ("poet_weights", JDict [ ("quality_value", JFloat (6 # 10)) ]);
            ("default_expert_time", JInt 3) ])
     = Some (JInt 3)
  /\ dict_get "poet_weights"
       (_deep_update default_config
          [ ("poet_weights", JDict [ ("quality_value", JFloat (6 # 10)) ]);
            ("default_expert_time", JInt 3) ])
     = Some (JDict (_deep_update
                      [ ("efficiency_value", JFloat (30 # 100));
                        ("quality_value", JFloat (50 # 100));
                        ("strategic_value", JFloat (20 # 100)) ]
                      [ ("quality_value", JFloat (6 # 10)) ])).
Proof.
  assert (Hnodup : NoDup [ ("poet_weights", JDict [ ("quality_value", JFloat (6 # 10)) ]);
                           ("default_expert_time", JInt 3) ].*1).
  { simpl. apply NoDup_cons. split; [set_solver |]. apply NoDup_singleton. }
  destruct (deep_update_merges default_config _ Hnodup)
    as (Hkept & Hscalar & _ & Hnested).
  split; [| split].
  - apply Hkept. reflexivity.
  - apply Hscalar; [reflexivity | discriminate].
  - apply Hnested; reflexivity.
Defined.

(** *** Bounds and monotonicity of the quality and composite scores *)

Lemma normalized_low x : (x <= 0)%Q -> (py_min 1 (py_max 0 x) == 0)%Q.
Proof.
  intros H. unfold py_min, py_max.
  destruct (Qlt_le_dec 0 x); [lra |]. destruct (Qlt_le_dec 0 1); lra.
Qed.

Lemma normalized_high x : (1 <= x)%Q -> (py_min 1 (py_max 0 x) == 1)%Q.
Proof.
  intros H. unfold py_min, py_max.
  destruct (Qlt_le_dec 0 x); [| lra]. destruct (Qlt_le_dec x 1); lra.
Qed.

Lemma normalized_mono x y :
  (x <= y)%Q -> (py_min 1 (py_max 0 x) <= py_min 1 (py_max 0 y))%Q.
Proof. intros H. apply py_min_mono; [lra |]. apply py_max_mono; lra. Qed.

(** With non-negative sub-weights, [calculate_quality_score] returns a value
    between 0 and the sum of the two sub-weights for any race score and
    citation accuracy, in range or not: it is 0 when neither is positive and
    the sum of the sub-weights when the race score is at least 5 and the
    accuracy at least 1. *)
Theorem calculate_quality_score_saturates self (w_r w_f race acc : Q) (citations : Z) :
  quality_value_weights (config self) = Ok (w_r, w_f) ->
  (0 <= w_r)%Q -> (0 <= w_f)%Q ->
  exists quality,
    calculate_quality_score self race acc citations = Ok quality
    /\ (0 <= quality <= w_r + w_f)%Q
    /\ ((race <= 0)%Q -> (acc <= 0)%Q -> (quality == 0)%Q)
    /\ ((5 <= race)%Q -> (1 <= acc)%Q -> (quality == w_r + w_f)%Q).
Proof.
  intros Hw Hr Hf. eexists. split.
  { apply (calculate_quality_score_formula _ _ _ _ _ _ Hw). }
  pose proof (normalized_in_unit_interval (race / 5)) as [Hr0 Hr1].
  pose proof (normalized_in_unit_interval acc) as [Ha0 Ha1].
  split; [split; nra |]. split.
  - intros Hrace Hacc.
    assert (Hlow : (race / 5 <= 0)%Q) by (apply Qle_shift_div_r; lra).
    pose proof (normalized_low (race / 5) Hlow) as Hn1.
    pose proof (normalized_low acc Hacc) as Hn2. nra.
  - intros Hrace Hacc.
    assert (Hhigh : (1 <= race / 5)%Q) by (apply Qle_shift_div_l; lra).
    pose proof (normalized_high (race / 5) Hhigh) as Hn1.
    pose proof (normalized_high acc Hacc) as Hn2. nra.
Qed.

Lemma calculate_quality_score_saturates_default :
  exists quality,
    calculate_quality_score (constructed None "sk-test") 7 (- (1)) 3 = Ok quality
    /\ (0 <= quality <= (70 # 100) + (30 # 100))%Q.
Proof.
  destruct (calculate_quality_score_saturates (constructed None "sk-test")
              (70 # 100) (30 # 100) 7 (- (1)) 3 eq_refl)
    as (quality & Hq & Hbounds & _); [discriminate | discriminate |].
  exists quality. split; [exact Hq | exact Hbounds].
Defined.

(** With non-negative sub-weights, [calculate_quality_score] does not
    decrease when the race score and the citation accuracy do not. *)
Theorem calculate_quality_score_monotone self (w_r w_f race acc race' acc' : Q)
    (citations citations' : Z) :
  quality_value_weights (config self) = Ok (w_r, w_f) ->
  (0 <= w_r)%Q -> (0 <= w_f)%Q ->
  (race <= race')%Q -> (acc <= acc')%Q ->
  exists quality quality',
    calculate_quality_score self race acc citations = Ok quality
    /\ calculate_quality_score self race' acc' citations' = Ok quality'
    /\ (quality <= quality')%Q.
Proof.
  intros Hw Hr Hf Hrace Hacc. eexists. eexists.
  split; [apply (calculate_quality_score_formula _ _ _ _ _ _ Hw) |].
  split; [apply (calculate_quality_score_formula _ _ _ _ _ _ Hw) |].
  pose proof (normalized_mono (race / 5) (race' / 5)) as Hn1.
  pose proof (normalized_mono acc acc' Hacc) as Hn2.
  assert (Hdiv : (race / 5 <= race' / 5)%Q).
  { apply Qmult_le_compat_r; [exact Hrace | discriminate]. }
  specialize (Hn1 Hdiv). nra.
Qed.

Lemma calculate_quality_score_monotone_default :
  exists quality quality',
    calculate_quality_score (constructed None "sk-test") 2 (1 # 4) 0 = Ok quality
    /\ calculate_quality_score (constructed None "sk-test") 4 (1 # 2) 9 = Ok quality'
    /\ (quality <= quality')%Q.
Proof.
  apply (calculate_quality_score_monotone (constructed None "sk-test")
           (70 # 100) (30 # 100) 2 (1 # 4) 4 (1 # 2) 0 9 eq_refl);
    discriminate.
Defined.

(** With non-negative top-level weights, [calculate_poet_score] does not
    decrease when no dimension score does, and its breakdown returns the
    three dimension scores as given. *)
Theorem calculate_poet_score_monotone self (w_e w_q w_s e q s e' q' s' : Q) :
  poet_weights (config self) = Ok (w_e, w_q, w_s) ->
  (0 <= w_e)%Q -> (0 <= w_q)%Q -> (0 <= w_s)%Q ->
  (e <= e')%Q -> (q <= q')%Q -> (s <= s')%Q ->
  exists p p',
    calculate_poet_score self e q s
    = Ok (p, [ ("efficiency_value", e); ("quality_value", q); ("strategic_value", s) ])
    /\ calculate_poet_score self e' q' s'
       = Ok (p', [ ("efficiency_value", e'); ("quality_value", q');
                   ("strategic_value", s') ])
    /\ (p <= p')%Q.
Proof.
  intros Hw He Hq Hs Hee Hqq Hss. eexists. eexists.
  split; [apply (calculate_poet_score_weighted_sum _ _ _ _ _ _ _ Hw) |].
  split; [apply (calculate_poet_score_weighted_sum _ _ _ _ _ _ _ Hw) |]. nra.
Qed.

Lemma calculate_poet_score_monotone_default :
  exists p p',
    calculate_poet_score (constructed None "sk-test") (1 # 2) (1 # 4) 0
    = Ok (p, [ ("efficiency_value", 1 # 2); ("quality_value", 1 # 4);
               ("strategic_value", 0%Q) ])
    /\ calculate_poet_score (constructed None "sk-test") (1 # 2) (3 # 4) 1
       = Ok (p', [ ("efficiency_value", 1 # 2); ("quality_value", 3 # 4);
                   ("strategic_value", 1%Q) ])
    /\ (p <= p')%Q.
Proof.
  apply (calculate_poet_score_monotone (constructed None "sk-test")
           (30 # 100) (50 # 100) (20 # 100) (1 # 2) (1 # 4) 0 (1 # 2) (3 # 4) 1 eq_refl);
    discriminate.
Defined.

End POETBenchmark.

(** ** [utils/efficiency_evaluator_clean.py]: the efficiency evaluator *)

Module EfficiencyEvaluator.
Import Py.
Local Open Scope Q_scope.

(** The dataclass [EfficiencyMetrics]. *)
Record EfficiencyMetrics : Type := {
  task_id : string;
  task_title : string;
  m_start_time : Q;
  end_time : Q;
  completion_time_seconds : Q;
  input_tokens : Z;
  output_tokens : Z;
  total_tokens : Z;
  estimated_cost_usd : Q;
  m_expert_time_hours : option Q;
  m_expert_hourly_rate_usd : option Q;
  automation_rate : option Q;
  cost_saving_usd : option Q;
  task_success : bool;
  m_error_count : Z
}.

(** The attributes of an [EfficiencyEvaluator].  [current_task_title] exists
    only once [start_task] has run. *)
Record EfficiencyEvaluator : Type := {
  expert_time_hours : Q;
  expert_hourly_rate_usd : Q;
  token_cost_per_1k_input : Q;
  token_cost_per_1k_output : Q;
  current_task_id : option string;
  current_task_title : option string;
  start_time : option Q;
  token_usage_input : Z;
  token_usage_output : Z;
  error_count : Z
}.

(** [__init__]; the defaults of the signature are left to the caller. *)
Definition __init__ (expert_time_hours expert_hourly_rate_usd
                     token_cost_per_1k_input token_cost_per_1k_output : Q)
    : EfficiencyEvaluator :=
  {| expert_time_hours := expert_time_hours;
     expert_hourly_rate_usd := expert_hourly_rate_usd;
     token_cost_per_1k_input := token_cost_per_1k_input;
     token_cost_per_1k_output := token_cost_per_1k_output;
     current_task_id := None;
     current_task_title := None;
     start_time := None;
     token_usage_input := 0%Z;
     token_usage_output := 0%Z;
     error_count := 0%Z |}.

(** A task is running from [start_task] to [end_task]. *)
Definition running (self : EfficiencyEvaluator) : Prop :=
  current_task_id self <> None.

(** [start_task(task_id, task_title)] at clock reading [now] ([time.time()]).
    The body holds five assignments and a log line and no [raise]. *)
Definition start_task (self : EfficiencyEvaluator) (task_id task_title : string) (now : Q)
    : outcome EfficiencyEvaluator :=
  Ok {| expert_time_hours := expert_time_hours self;
        expert_hourly_rate_usd := expert_hourly_rate_usd self;
        token_cost_per_1k_input := token_cost_per_1k_input self;
        token_cost_per_1k_output := token_cost_per_1k_output self;
        current_task_id := Some task_id;
        current_task_title := Some task_title;
        start_time := Some now;
        token_usage_input := 0%Z;
        token_usage_output := 0%Z;
        error_count := 0%Z |}.

Definition add_token_usage (self : EfficiencyEvaluator) (input_tokens output_tokens : Z)
    : EfficiencyEvaluator :=
  {| expert_time_hours := expert_time_hours self;
     expert_hourly_rate_usd := expert_hourly_rate_usd self;
     token_cost_per_1k_input := token_cost_per_1k_input self;
     token_cost_per_1k_output := token_cost_per_1k_output self;
     current_task_id := current_task_id self;
     current_task_title := current_task_title self;
     start_time := start_time self;
     token_usage_input := (token_usage_input self + input_tokens)%Z;
     token_usage_output := (token_usage_output self + output_tokens)%Z;
     error_count := error_count self |}.

Definition add_error (self : EfficiencyEvaluator) : EfficiencyEvaluator :=
  {| expert_time_hours := expert_time_hours self;
     expert_hourly_rate_usd := expert_hourly_rate_usd self;
     token_cost_per_1k_input := token_cost_per_1k_input self;
     token_cost_per_1k_output := token_cost_per_1k_output self;
     current_task_id := current_task_id self;
     current_task_title := current_task_title self;
     start_time := start_time self;
     token_usage_input := token_usage_input self;
     token_usage_output := token_usage_output self;
     error_count := (error_count self + 1)%Z |}.

Definition _calculate_cost (self : EfficiencyEvaluator) (input_tokens output_tokens : Z) : Q :=
  let input_cost := (inject_Z input_tokens / 1000) * token_cost_per_1k_input self in
  let output_cost := (inject_Z output_tokens / 1000) * token_cost_per_1k_output self in
  input_cost + output_cost.

Definition _calculate_automation_rate (self : EfficiencyEvaluator)
    (completion_time_seconds : Q) : Q :=
  let ai_time_hours := completion_time_seconds / 3600 in
  if Qle_bool (expert_time_hours self) 0 then 1
  else
    let automation_rate := 1 - (ai_time_hours / expert_time_hours self) in
    py_max 0 (py_min 1 automation_rate).

Definition _calculate_cost_saving (self : EfficiencyEvaluator)
    (completion_time_seconds : Q) : Q :=
  let expert_cost := expert_time_hours self * expert_hourly_rate_usd self in
  let ai_cost := _calculate_cost self (token_usage_input self) (token_usage_output self) in
  py_max 0 (expert_cost - ai_cost).

(** [end_task(success)] at clock reading [now]: the metrics and the evaluator
    with its task reset.  Subtracting a missing start time is a [TypeError];
    no state reached through [start_task] has one. *)
Definition end_task (self : EfficiencyEvaluator) (success : bool) (now : Q)
    : outcome (EfficiencyMetrics * EfficiencyEvaluator) :=
  match current_task_id self with
  | None => Raise "ValueError"
  | Some id =>
      match start_time self, current_task_title self with
      | Some started, Some title =>
          let end_time := now in
          let completion_time_seconds := end_time - started in
          let estimated_cost :=
            _calculate_cost self (token_usage_input self) (token_usage_output self) in
          let automation_rate := _calculate_automation_rate self completion_time_seconds in
          let cost_saving := _calculate_cost_saving self completion_time_seconds in
          Ok ({| task_id := id;
                 task_title := title;
                 m_start_time := started;
                 end_time := end_time;
                 completion_time_seconds := completion_time_seconds;
                 input_tokens := token_usage_input self;
                 output_tokens := token_usage_output self;
                 total_tokens := (token_usage_input self + token_usage_output self)%Z;
                 estimated_cost_usd := estimated_cost;
                 m_expert_time_hours := Some (expert_time_hours self);
                 m_expert_hourly_rate_usd := Some (expert_hourly_rate_usd self);
                 automation_rate := Some automation_rate;
                 cost_saving_usd := Some cost_saving;
                 task_success := success;
                 m_error_count := error_count self |},
              {| expert_time_hours := expert_time_hours self;
                 expert_hourly_rate_usd := expert_hourly_rate_usd self;
                 token_cost_per_1k_input := token_cost_per_1k_input self;
                 token_cost_per_1k_output := token_cost_per_1k_output self;
                 current_task_id := None;
                 current_task_title := current_task_title self;
                 start_time := None;
                 token_usage_input := token_usage_input self;
                 token_usage_output := token_usage_output self;
                 error_count := error_count self |})
      | None, _ => Raise "TypeError"
      | Some _, None => Raise "AttributeError"
      end
  end.

(** [clamp(x, lo, hi)] as the specification writes it. *)
Definition clamp (x lo hi : Q) : Q :=
  if Qlt_le_dec x lo then lo else if Qlt_le_dec hi x then hi else x.

(** *** Lemmas on the automation rate *)

Lemma clamp_unit_interval x : 0 <= clamp x 0 1 <= 1.
Proof.
  unfold clamp. destruct (Qlt_le_dec x 0); [split; discriminate |].
  destruct (Qlt_le_dec 1 x); [split; discriminate |]. lra.
Qed.

Lemma py_max_min_is_clamp x : py_max 0 (py_min 1 x) == clamp x 0 1.
Proof.
  unfold py_max, py_min, clamp.
  destruct (Qlt_le_dec x 1), (Qlt_le_dec x 0), (Qlt_le_dec 1 x);
    try destruct (Qlt_le_dec 0 x); try destruct (Qlt_le_dec 0 1); lra.
Qed.

Lemma automation_rate_nonpositive_baseline self seconds :
  expert_time_hours self <= 0 -> _calculate_automation_rate self seconds = 1.
Proof.
  intros H. unfold _calculate_automation_rate.
  apply Qle_bool_iff in H. rewrite H. reflexivity.
Qed.

Lemma automation_rate_positive_baseline self seconds :
  0 < expert_time_hours self ->
  _calculate_automation_rate self seconds
  == clamp (1 - (seconds / 3600) / expert_time_hours self) 0 1.
Proof.
  intros H. unfold _calculate_automation_rate.
  destruct (Qle_bool (expert_time_hours self) 0) eqn:E.
  - apply Qle_bool_iff in E. lra.
  - apply py_max_min_is_clamp.
Qed.

Lemma automation_rate_unit_interval self seconds :
  0 <= _calculate_automation_rate self seconds <= 1.
Proof.
  destruct (Qlt_le_dec 0 (expert_time_hours self)) as [H | H].
  - rewrite (automation_rate_positive_baseline _ _ H). apply clamp_unit_interval.
  - rewrite (automation_rate_nonpositive_baseline _ _ H). split; discriminate.
Qed.

(** *** [start_task] on a running evaluator (C4) *)

(** C4, counterexample.  An evaluator that is running task [t1] with 100 input
    tokens, 50 output tokens and one error accepts [start_task] for [t2]: the
    call returns normally, and the counters and the start time of [t1] are
    gone. *)
Lemma start_task_while_running_resets :
  exists s0 s2,
    start_task (__init__ 2 100 (15 # 10000) (6 # 1000)) "t1" "first" 10 = Ok s0
    /\ running (add_error (add_token_usage s0 100 50))
    /\ token_usage_input (add_error (add_token_usage s0 100 50)) = 100%Z
    /\ start_task (add_error (add_token_usage s0 100 50)) "t2" "second" 20 = Ok s2
    /\ start_task (add_error (add_token_usage s0 100 50)) "t2" "second" 20
       <> Raise "InvalidStateError"
    /\ current_task_id s2 = Some "t2"
    /\ start_time s2 = Some 20
    /\ token_usage_input s2 = 0%Z
    /\ token_usage_output s2 = 0%Z
    /\ error_count s2 = 0%Z.
Proof.
  eexists. eexists. split; [reflexivity |].
  split; [discriminate |]. split; [reflexivity |]. split; [reflexivity |].
  split; [discriminate |]. repeat split; reflexivity.
Qed.

(** C4, as amended.  In every evaluator state, running or idle, [start_task]
    returns normally: it installs the new task id and title, takes the current
    clock reading as start time, sets both token counters and the error
    counter to zero, and keeps the expert baseline and the token prices. *)
Theorem start_task_always_resets self (task_id task_title : string) (now : Q) :
  exists self',
    start_task self task_id task_title now = Ok self'
    /\ ~ raises (start_task self task_id task_title now)
    /\ running self'
    /\ current_task_id self' = Some task_id
    /\ current_task_title self' = Some task_title
    /\ start_time self' = Some now
    /\ token_usage_input self' = 0%Z
    /\ token_usage_output self' = 0%Z
    /\ error_count self' = 0%Z
    /\ expert_time_hours self' = expert_time_hours self
    /\ expert_hourly_rate_usd self' = expert_hourly_rate_usd self
    /\ token_cost_per_1k_input self' = token_cost_per_1k_input self
    /\ token_cost_per_1k_output self' = token_cost_per_1k_output self.
Proof.
  eexists. split; [reflexivity |]. split.
  - intros [e He]. discriminate He.
  - split; [discriminate |]. repeat split; reflexivity.
Qed.

(** *** The automation rate of a finished task (C9) *)

(** C9.  [end_task] on a running evaluator returns metrics whose automation
    rate lies in [0,1], is exactly 1 when the expert baseline is zero or
    negative, and otherwise equals [clamp(1 - elapsed_hours / expert_hours,
    0, 1)] with [elapsed_hours] the time since [start_task], in hours. *)
Theorem end_task_automation_rate self (success : bool) (now started : Q)
    (id title : string) :
  current_task_id self = Some id ->
  current_task_title self = Some title ->
  start_time self = Some started ->
  exists metrics self' rate,
    end_task self success now = Ok (metrics, self')
    /\ automation_rate metrics = Some rate
    /\ rate = _calculate_automation_rate self (now - started)
    /\ 0 <= rate <= 1
    /\ (expert_time_hours self <= 0 -> rate = 1)
    /\ (0 < expert_time_hours self ->
        rate == clamp (1 - ((now - started) / 3600) / expert_time_hours self) 0 1).
Proof.
  intros Hid Htitle Hstart. unfold end_task. rewrite Hid, Hstart, Htitle.
  eexists. eexists. eexists. split; [reflexivity |]. split; [reflexivity |].
  split; [reflexivity |]. split; [apply automation_rate_unit_interval |]. split.
  - apply automation_rate_nonpositive_baseline.
  - apply automation_rate_positive_baseline.
Qed.

Lemma end_task_automation_rate_half_baseline :
  exists metrics self' rate,
    end_task
      {| expert_time_hours := 2; expert_hourly_rate_usd := 100;
         token_cost_per_1k_input := 15 # 10000; token_cost_per_1k_output := 6 # 1000;
         current_task_id := Some "t1"; current_task_title := Some "first";
         start_time := Some 10; token_usage_input := 1000; token_usage_output := 500;
         error_count := 0 |} true 3610 = Ok (metrics, self')
    /\ automation_rate metrics = Some rate
    /\ 0 <= rate <= 1
    /\ rate == 1 # 2.
Proof.
  destruct (end_task_automation_rate
              {| expert_time_hours := 2; expert_hourly_rate_usd := 100;
                 token_cost_per_1k_input := 15 # 10000;
                 token_cost_per_1k_output := 6 # 1000;
                 current_task_id := Some "t1"; current_task_title := Some "first";
                 start_time := Some 10; token_usage_input := 1000;
                 token_usage_output := 500; error_count := 0 |}
              true 3610 10 "t1" "first" eq_refl eq_refl eq_refl)
    as (metrics & self' & rate & Hend & Hrate & _ & Hbounds & _ & Hpos).
  exists metrics, self', rate.
  split; [exact Hend |]. split; [exact Hrate |]. split; [exact Hbounds |].
  rewrite Hpos; [reflexivity | reflexivity].
Defined.

(** *** The life cycle of a task *)

Lemma add_token_usage_all usages self :
  let self' := foldl (fun s usage => add_token_usage s usage.1 usage.2) self usages in
  token_usage_input self' = (token_usage_input self + foldr Z.add 0 usages.*1)%Z
  /\ token_usage_output self' = (token_usage_output self + foldr Z.add 0 usages.*2)%Z
  /\ error_count self' = error_count self
  /\ current_task_id self' = current_task_id self
  /\ current_task_title self' = current_task_title self
  /\ start_time self' = start_time self
  /\ expert_time_hours self' = expert_time_hours self
  /\ expert_hourly_rate_usd self' = expert_hourly_rate_usd self
  /\ token_cost_per_1k_input self' = token_cost_per_1k_input self
  /\ token_cost_per_1k_output self' = token_cost_per_1k_output self.
Proof.
  cbn zeta. revert self. induction usages as [| [i o] usages IH]; intros self.
  - simpl. repeat split; lia.
  - simpl foldl. destruct (IH (add_token_usage self i o))
      as (Hi & Ho & He & Hid & Htitle & Hstart & Ht & Hr & Hpi & Hpo).
    rewrite Hi, Ho, He, Hid, Htitle, Hstart, Ht, Hr, Hpi, Hpo.
    rewrite !fmap_cons. simpl.
    repeat split; try reflexivity; lia.
Qed.

Lemma add_error_all n self :
  let self' := Nat.iter n add_error self in
  error_count self' = (error_count self + Z.of_nat n)%Z
  /\ token_usage_input self' = token_usage_input self
  /\ token_usage_output self' = token_usage_output self
  /\ current_task_id self' = current_task_id self
  /\ current_task_title self' = current_task_title self
  /\ start_time self' = start_time self
  /\ expert_time_hours self' = expert_time_hours self
  /\ expert_hourly_rate_usd self' = expert_hourly_rate_usd self
  /\ token_cost_per_1k_input self' = token_cost_per_1k_input self
  /\ token_cost_per_1k_output self' = token_cost_per_1k_output self.
Proof.
  cbn zeta. induction n as [| n IH].
  - simpl. repeat split; lia.
  - destruct IH as (He & Hi & Ho & Hid & Htitle & Hstart & Ht & Hr & Hpi & Hpo).
    change (Nat.iter (S n) add_error self) with (add_error (Nat.iter n add_error self)).
    simpl. rewrite He, Hi, Ho, Hid, Htitle, Hstart, Ht, Hr, Hpi, Hpo.
    repeat split; try reflexivity; lia.
Qed.

(** [end_task] raises [ValueError] when no task is running; when it returns,
    a task was running and none is afterwards, so ending the same task a
    second time raises [ValueError]. *)
Theorem end_task_needs_running_task self (success : bool) (now : Q) :
  (current_task_id self = None -> end_task self success now = Raise "ValueError")
  /\ (forall metrics self',
        end_task self success now = Ok (metrics, self') ->
        running self
        /\ ~ running self'
        /\ forall (success' : bool) (now' : Q),
            end_task self' success' now' = Raise "ValueError").
Proof.
  split.
  - intros Hidle. unfold end_task. by rewrite Hidle.
  - intros metrics self' Hend. unfold end_task in Hend.
    destruct (current_task_id self) as [id |] eqn:Hid; [| discriminate].
    destruct (start_time self) as [started |]; [| discriminate].
    destruct (current_task_title self) as [title |]; [| discriminate].
    injection Hend as <- <-. split; [unfold running; by rewrite Hid |].
    split; [unfold running; simpl; by intros [] |].
    intros success' now'. reflexivity.
Qed.

Lemma end_task_needs_running_task_fresh :
  end_task (__init__ 2 100 (15 # 10000) (6 # 1000)) true 5 = Raise "ValueError"
  /\ exists s1 metrics s2,
      start_task (__init__ 2 100 (15 # 10000) (6 # 1000)) "t1" "first" 10 = Ok s1
      /\ end_task s1 true 70 = Ok (metrics, s2)
      /\ end_task s2 true 80 = Raise "ValueError".
Proof.
  split.
  - apply (proj1 (end_task_needs_running_task
                    (__init__ 2 100 (15 # 10000) (6 # 1000)) true 5)). reflexivity.
  - destruct (start_task (__init__ 2 100 (15 # 10000) (6 # 1000)) "t1" "first" 10)
      as [s1 | e] eqn:Hstart; [| discriminate Hstart].
    destruct (end_task s1 true 70) as [[metrics s2] | e] eqn:Hend.
    + exists s1, metrics, s2. split; [reflexivity |]. split; [exact Hend |].
      exact (proj2 (proj2 (proj2 (end_task_needs_running_task s1 true 70)
                             metrics s2 Hend)) true 80).
    + injection Hstart as <-. discriminate Hend.
Defined.

(** A full cycle.  Whatever the evaluator held before, [start_task], any
    number of [add_token_usage] and [add_error] calls and [end_task] return
    metrics for the task started: the elapsed time between the two clock
    readings, the sums of the tokens added since the start, their total, and
    the number of errors added; the evaluator is idle afterwards and keeps
    its baseline and prices. *)
Theorem task_cycle_metrics self (id title : string) (started ended : Q)
    (usages : list (Z * Z)) (errors : nat) (success : bool) :
  exists s1 metrics s3,
    start_task self id title started = Ok s1
    /\ end_task
         (Nat.iter errors add_error
            (foldl (fun s usage => add_token_usage s usage.1 usage.2) s1 usages))
         success ended = Ok (metrics, s3)
    /\ task_id metrics = id
    /\ task_title metrics = title
    /\ completion_time_seconds metrics = ended - started
    /\ input_tokens metrics = foldr Z.add 0%Z usages.*1
    /\ output_tokens metrics = foldr Z.add 0%Z usages.*2
    /\ total_tokens metrics = (foldr Z.add 0 usages.*1 + foldr Z.add 0 usages.*2)%Z
    /\ m_error_count metrics = Z.of_nat errors
    /\ task_success metrics = success
    /\ ~ running s3
    /\ expert_time_hours s3 = expert_time_hours self
    /\ expert_hourly_rate_usd s3 = expert_hourly_rate_usd self
    /\ token_cost_per_1k_input s3 = token_cost_per_1k_input self
    /\ token_cost_per_1k_output s3 = token_cost_per_1k_output self.
Proof.
  eexists. eexists. eexists. split; [reflexivity |].
  set (s1 := {| expert_time_hours := expert_time_hours self;
                expert_hourly_rate_usd := expert_hourly_rate_usd self;
                token_cost_per_1k_input := token_cost_per_1k_input self;
                token_cost_per_1k_output := token_cost_per_1k_output self;
                current_task_id := Some id; current_task_title := Some title;
                start_time := Some started; token_usage_input := 0;
                token_usage_output := 0; error_count := 0 |}).
  set (s2 := foldl (fun s usage => add_token_usage s usage.1 usage.2) s1 usages).
  destruct (add_token_usage_all usages s1)
    as (Hi & Ho & He & Hid & Htitle & Hstart & Ht & Hr & Hpi & Hpo).
  fold s2 in Hi, Ho, He, Hid, Htitle, Hstart, Ht, Hr, Hpi, Hpo.
  destruct (add_error_all errors s2)
    as (He' & Hi' & Ho' & Hid' & Htitle' & Hstart' & Ht' & Hr' & Hpi' & Hpo').
  cbn zeta in *. set (s := Nat.iter errors add_error s2) in *.
  rewrite Hi in Hi'. rewrite Ho in Ho'. rewrite He in He'. rewrite Hid in Hid'.
  rewrite Htitle in Htitle'. rewrite Hstart in Hstart'. rewrite Ht in Ht'.
  rewrite Hr in Hr'. rewrite Hpi in Hpi'. rewrite Hpo in Hpo'.
  clear Hi Ho He Hid Htitle Hstart Ht Hr Hpi Hpo. clearbody s. clear s2.
  subst s1. simpl in *. destruct s. simpl in *. subst.
  unfold end_task. simpl.
  split; [reflexivity |]. simpl.
  repeat split; try reflexivity; try lia. unfold running. simpl. by intros [].
Qed.

(** *** Cost and cost saving *)

(** The metrics of [end_task] carry the token cost at the two prices and a
    cost saving that is never negative: saving and cost add up to the expert
    cost when the tokens cost no more than the expert, and the saving is 0
    when they cost as much or more.  The cost is not negative when neither
    the token counts nor the prices are. *)
Theorem end_task_cost_saving self (success : bool) (now : Q) metrics self' :
  end_task self success now = Ok (metrics, self') ->
  let expert_cost := expert_time_hours self * expert_hourly_rate_usd self in
  exists saving,
    cost_saving_usd metrics = Some saving
    /\ estimated_cost_usd metrics
       = inject_Z (token_usage_input self) / 1000 * token_cost_per_1k_input self
         + inject_Z (token_usage_output self) / 1000 * token_cost_per_1k_output self
    /\ 0 <= saving
    /\ (estimated_cost_usd metrics <= expert_cost ->
        saving + estimated_cost_usd metrics == expert_cost)
    /\ (expert_cost <= estimated_cost_usd metrics -> saving == 0)
    /\ ((0 <= token_usage_input self)%Z -> (0 <= token_usage_output self)%Z ->
        0 <= token_cost_per_1k_input self -> 0 <= token_cost_per_1k_output self ->
        0 <= estimated_cost_usd metrics).
Proof.
  intros Hend. cbn zeta. unfold end_task in Hend.
  destruct (current_task_id self) as [id |]; [| discriminate].
  destruct (start_time self) as [started |]; [| discriminate].
  destruct (current_task_title self) as [title |]; [| discriminate].
  injection Hend as <- <-. simpl.
  eexists. split; [reflexivity |]. split; [reflexivity |].
  unfold _calculate_cost_saving, _calculate_cost.
  set (cost := inject_Z (token_usage_input self) / 1000 * token_cost_per_1k_input self
               + inject_Z (token_usage_output self) / 1000 * token_cost_per_1k_output self).
  split; [apply py_max_ge_l |].
  split; [| split].
  - intros Hle. unfold py_max. destruct (Qlt_le_dec 0 _); lra.
  - intros Hle. unfold py_max. destruct (Qlt_le_dec 0 _); lra.
  - intros Hi Ho Hpi Hpo. unfold cost.
    assert (Hin : 0 <= inject_Z (token_usage_input self) / 1000).
    { apply Qle_shift_div_l; [reflexivity |]. rewrite Qmult_0_l.
      by rewrite <- (Zle_Qle 0). }
    assert (Hout : 0 <= inject_Z (token_usage_output self) / 1000).
    { apply Qle_shift_div_l; [reflexivity |]. rewrite Qmult_0_l.
      by rewrite <- (Zle_Qle 0). }
    nra.
Qed.

Lemma end_task_cost_saving_sample :
  exists metrics self' saving,
    end_task
      {| expert_time_hours := 2; expert_hourly_rate_usd := 100;
         token_cost_per_1k_input := 15 # 10000; token_cost_per_1k_output := 6 # 1000;
         current_task_id := Some "t1"; current_task_title := Some "first";
         start_time := Some 10; token_usage_input := 1000; token_usage_output := 500;
         error_count := 0 |} true 3610 = Ok (metrics, self')
    /\ cost_saving_usd metrics = Some saving
    /\ 0 <= saving
    /\ saving + estimated_cost_usd metrics == 200.
Proof.
  eexists. eexists.
  destruct (end_task_cost_saving
              {| expert_time_hours := 2; expert_hourly_rate_usd := 100;
                 token_cost_per_1k_input := 15 # 10000;
                 token_cost_per_1k_output := 6 # 1000;
                 current_task_id := Some "t1"; current_task_title := Some "first";
                 start_time := Some 10; token_usage_input := 1000;
                 token_usage_output := 500; error_count := 0 |}
              true 3610 _ _ eq_refl)
    as (saving & Hsaving & _ & Hnonneg & Hsum & _).
  exists saving. split; [reflexivity |]. split; [exact Hsaving |].
  split; [exact Hnonneg |]. rewrite Hsum; [reflexivity | discriminate].
Defined.

(** *** The automation rate as a function of the completion time *)

(** A longer completion time never gives a higher automation rate.  With a
    positive baseline the rate is 0 once the completion time reaches the
    baseline, and the rate is 1 when no time has passed. *)
Theorem automation_rate_antitone self :
  (forall seconds seconds',
      seconds <= seconds' ->
      _calculate_automation_rate self seconds'
      <= _calculate_automation_rate self seconds)
  /\ (forall seconds,
        0 < expert_time_hours self ->
        3600 * expert_time_hours self <= seconds ->
        _calculate_automation_rate self seconds == 0)
  /\ (forall seconds, seconds <= 0 -> _calculate_automation_rate self seconds == 1).
Proof.
  assert (Hratio : forall seconds seconds',
             0 < expert_time_hours self -> seconds <= seconds' ->
             seconds / 3600 / expert_time_hours self
             <= seconds' / 3600 / expert_time_hours self).
  { intros seconds seconds' Hpos Hle.
    apply Qmult_le_compat_r; [| apply Qlt_le_weak, Qinv_lt_0_compat, Hpos].
    apply Qmult_le_compat_r; [exact Hle | discriminate]. }
  split; [| split].
  - intros seconds seconds' Hle. unfold _calculate_automation_rate.
    destruct (Qle_bool (expert_time_hours self) 0) eqn:E; [lra |].
    assert (Hpos : 0 < expert_time_hours self).
    { destruct (Qlt_le_dec 0 (expert_time_hours self)) as [H | H]; [exact H |].
      apply Qle_bool_iff in H. congruence. }
    pose proof (Hratio _ _ Hpos Hle).
    apply py_max_mono; [lra |]. apply py_min_mono; lra.
  - intros seconds Hpos Hlate.
    rewrite (automation_rate_positive_baseline _ _ Hpos).
    assert (Hone : 1 <= seconds / 3600 / expert_time_hours self).
    { apply Qle_shift_div_l; [exact Hpos |].
      apply Qle_shift_div_l; [reflexivity |]. lra. }
    unfold clamp. destruct (Qlt_le_dec _ 0); [reflexivity |].
    destruct (Qlt_le_dec 1 _); lra.
  - intros seconds Hearly.
    destruct (Qlt_le_dec 0 (expert_time_hours self)) as [Hpos | Hneg].
    + rewrite (automation_rate_positive_baseline _ _ Hpos).
      pose proof (Hratio _ 0 Hpos Hearly) as Hle.
      assert (Hzero : 0 / 3600 / expert_time_hours self == 0).
      { unfold Qdiv. rewrite !Qmult_0_l. reflexivity. }
      unfold clamp. destruct (Qlt_le_dec _ 0); [lra |].
      destruct (Qlt_le_dec 1 _); lra.
    + rewrite (automation_rate_nonpositive_baseline _ _ Hneg). reflexivity.
Qed.

Lemma automation_rate_antitone_sample :
  _calculate_automation_rate (__init__ 2 100 (15 # 10000) (6 # 1000)) 5400
  <= _calculate_automation_rate (__init__ 2 100 (15 # 10000) (6 # 1000)) 1800
  /\ _calculate_automation_rate (__init__ 2 100 (15 # 10000) (6 # 1000)) 7200 == 0.
Proof.
  destruct (automation_rate_antitone (__init__ 2 100 (15 # 10000) (6 # 1000)))
    as (Hmono & Hzero & _).
  split.
  - apply Hmono. discriminate.
  - apply Hzero; [reflexivity | discriminate].
Defined.

End EfficiencyEvaluator.

(** ** [utils/strategic_evaluator.py]: the knowledge base *)

Module KnowledgeBase.
Import Py.

(** [keyword in content] on strings. *)
Fixpoint contains (content keyword : string) : bool :=
  String.prefix keyword content
  || match content with
     | EmptyString => false
     | String _ rest => contains rest keyword
     end.

(** The files on disk, as the JSON value each holds. *)
Abbreviation disk := (gmap string json).

Section Store.

(** [datetime] values are opaque to the repository: they are produced by
    [datetime.now()], written with [isoformat()] and read back with
    [datetime.fromisoformat].  [lower] is [str.lower]. *)
Variable datetime : Type.
Variable isoformat : datetime -> string.
Variable fromisoformat : string -> outcome datetime.
Variable lower : string -> string.

(** The dataclass [KnowledgeUnit]; [tags] is a list after [__post_init__]. *)
Record KnowledgeUnit : Type := {
  id : string;
  content : string;
  domain : string;
  source_task_id : string;
  creation_time : datetime;
  usage_count : Z;
  quality_score : Q;
  tags : list string
}.

(** The attributes of a [KnowledgeBase].  The two indexes are
    [defaultdict(list)]: a missing key reads as the empty list. *)
Record KnowledgeBase : Type := {
  kb_path : string;
  knowledge_units : gmap string KnowledgeUnit;
  domain_index : gmap string (list string);
  tag_index : gmap string (list string)
}.

(** [index.get(key, [])]. *)
Definition index_get (index : gmap string (list string)) (key : string) : list string :=
  default [] (index !! key).

(** [index[key].append(unit_id)]. *)
Definition index_append (index : gmap string (list string)) (key unit_id : string)
    : gmap string (list string) :=
  <[key := index_get index key ++ [unit_id]]> index.

(** The in-memory part of [add_knowledge_unit]. *)
Definition insert_unit (self : KnowledgeBase) (unit : KnowledgeUnit) : KnowledgeBase :=
  {| kb_path := kb_path self;
     knowledge_units := <[id unit := unit]> (knowledge_units self);
     domain_index := index_append (domain_index self) (domain unit) (id unit);
     tag_index :=
       foldl (fun index tag => index_append index tag (id unit)) (tag_index self) (tags unit) |}.

(** One entry of the list [knowledge_units] of a snapshot. *)
Definition unit_data (unit : KnowledgeUnit) : json :=
  JDict [ ("id", JStr (id unit));
          ("content", JStr (content unit));
          ("domain", JStr (domain unit));
          ("source_task_id", JStr (source_task_id unit));
          ("creation_time", JStr (isoformat (creation_time unit)));
          ("usage_count", JInt (usage_count unit));
          ("quality_score", JFloat (quality_score unit));
          ("tags", JList (JStr <$> tags unit)) ].

(** The value [data] that [save_knowledge_base] dumps; [now] is
    [datetime.now()].  The units are listed in the iteration order of the
    primary map. *)
Definition snapshot (self : KnowledgeBase) (now : datetime) : json :=
  JDict [ ("knowledge_units",
            JList (unit_data <$> (map_to_list (knowledge_units self)).*2));
          ("metadata",
            JDict [ ("total_units", JInt (Z.of_nat (size (knowledge_units self))));
                    ("last_updated", JStr (isoformat now)) ]) ].

(** [save_knowledge_base]: the snapshot replaces the file at [kb_path].  A
    write that raises is caught by the method and leaves the file as it was;
    the model covers the writes that succeed. *)
Definition save_knowledge_base (self : KnowledgeBase) (now : datetime) (files : disk) : disk :=
  <[kb_path self := snapshot self now]> files.

(** [add_knowledge_unit(unit, save)]. *)
Definition add_knowledge_unit (self : KnowledgeBase) (unit : KnowledgeUnit) (save : bool)
    (now : datetime) (files : disk) : KnowledgeBase * disk :=
  let self' := insert_unit self unit in
  (self', if save then save_knowledge_base self' now files else files).

(** Field readers of [load_knowledge_base].  The records of the embedding
    are typed, the dataclass is not: [KnowledgeUnit(...)] keeps a field of
    any JSON type as it is, and such an entry is loaded, or raises later, in
    the loops of [add_knowledge_unit].  The readers stand for the source on
    the entries whose fields have the types that [save_knowledge_base]
    writes; on a field of another type they raise [TypeError], which the
    source does not, and the statements on loading are about the other
    entries only: those that are read into a unit, and those on which the
    constructor call itself raises ([construction_raises] below). *)
Definition as_str (x : json) : outcome string :=
  match x with
  | JStr s => Ok s
  | _ => Raise "TypeError"
  end.

Definition as_int (x : json) : outcome Z :=
  match x with
  | JInt z => Ok z
  | JBool b => Ok (if b then 1 else 0)%Z
  | _ => Raise "TypeError"
  end.

Fixpoint as_str_list (l : list json) : outcome (list string) :=
  match l with
  | [] => Ok []
  | x :: l' => s ← as_str x; rest ← as_str_list l'; Ok (s :: rest)
  end.

Definition as_tags (x : json) : outcome (list string) :=
  match x with
  | JList l => as_str_list l
  | JNull => Ok []
  | _ => Raise "TypeError"
  end.

(** [dict.get(key, default)] on a value that must be a dict for the
    subscripts before it to have succeeded. *)
Definition get_default (obj : json) (key : string) (dflt : json) : json :=
  match obj with
  | JDict d => default dflt (dict_get key d)
  | _ => dflt
  end.

(** The [KnowledgeUnit(...)] call in the loop of [load_knowledge_base]. *)
Definition parse_unit (data : json) : outcome KnowledgeUnit :=
  raw_id ← getitem data "id";
  unit_id ← as_str raw_id;
  raw_content ← getitem data "content";
  unit_content ← as_str raw_content;
  raw_domain ← getitem data "domain";
  unit_domain ← as_str raw_domain;
  raw_source ← getitem data "source_task_id";
  unit_source ← as_str raw_source;
  raw_time ← getitem data "creation_time";
  time_text ← as_str raw_time;
  unit_time ← fromisoformat time_text;
  unit_usage ← as_int (get_default data "usage_count" (JInt 0));
  unit_quality ← as_number (get_default data "quality_score" (JFloat 0));
  unit_tags ← as_tags (get_default data "tags" (JList []));
  Ok {| id := unit_id; content := unit_content; domain := unit_domain;
        source_task_id := unit_source; creation_time := unit_time;
        usage_count := unit_usage; quality_score := unit_quality;
        tags := unit_tags |}.

(** The entries on which the [KnowledgeUnit(...)] call of
    [load_knowledge_base] raises in the source, before anything is added: an
    entry that is no object (the subscript raises [TypeError]), an object
    that lacks one of the five keys that are subscripted ([KeyError]), and a
    [creation_time] that is no string ([TypeError]) or that
    [datetime.fromisoformat] rejects. *)
Definition construction_raises (data : json) : Prop :=
  match data with
  | JDict fields =>
      (exists key,
          key ∈ ["id"; "content"; "domain"; "source_task_id"; "creation_time"]
          /\ dict_get key fields = None)
      \/ (exists value,
            dict_get "creation_time" fields = Some value
            /\ match value with
               | JStr text => raises (fromisoformat text)
               | _ => True
               end)
  | _ => True
  end.

(** The loop of [load_knowledge_base]: the first entry that raises ends the
    loop (the exception is caught outside it) and the units added before it
    stay. *)
Fixpoint load_units (self : KnowledgeBase) (entries : list json) : KnowledgeBase :=
  match entries with
  | [] => self
  | data :: rest =>
      match parse_unit data with
      | Ok unit => load_units (insert_unit self unit) rest
      | Raise _ => self
      end
  end.

(** [load_knowledge_base]: a missing file, a value that is no dict, or a
    [knowledge_units] entry that is no list leaves the store as it is. *)
Definition load_knowledge_base (self : KnowledgeBase) (files : disk) : KnowledgeBase :=
  match files !! kb_path self with
  | Some (JDict data) =>
      match default (JList []) (dict_get "knowledge_units" data) with
      | JList entries => load_units self entries
      | _ => self
      end
  | Some _ => self
  | None => self
  end.

(** [KnowledgeBase.__init__(kb_path)]. *)
Definition __init__ (kb_path : string) (files : disk) : KnowledgeBase :=
  load_knowledge_base
    {| kb_path := kb_path; knowledge_units := ∅; domain_index := ∅; tag_index := ∅ |}
    files.

(** [relevant_units.sort(key=lambda x: x.quality_score, reverse=True)]: a
    stable sort, best first. *)
Fixpoint insert_by_quality (unit : KnowledgeUnit) (sorted : list KnowledgeUnit)
    : list KnowledgeUnit :=
  match sorted with
  | [] => [unit]
  | other :: sorted' =>
      if Qlt_le_dec (quality_score unit) (quality_score other)
      then other :: insert_by_quality unit sorted'
      else unit :: other :: sorted'
  end.

Definition sort_by_quality (units : list KnowledgeUnit) : list KnowledgeUnit :=
  foldr insert_by_quality [] units.

(** Truth value of an optional list argument ([if tags:]). *)
Definition truthy {A : Type} (arg : option (list A)) : list A :=
  default [] arg.

(** The ids under the requested domain. *)
Definition ids_by_domain (self : KnowledgeBase) (domain : string) : gset string :=
  list_to_set (index_get (domain_index self) domain).

(** [tag_ids]: the ids under any of the tags. *)
Definition ids_by_tags (self : KnowledgeBase) (tags : list string) : gset string :=
  foldl (fun tag_ids tag => tag_ids ∪ list_to_set (index_get (tag_index self) tag)) ∅ tags.

(** [keyword_ids]: the ids of the units whose content holds a keyword. *)
Definition matches_keyword (keywords : list string) (unit : KnowledgeUnit) : bool :=
  existsb (fun keyword => contains (lower (content unit)) (lower keyword)) keywords.

Definition ids_by_keywords (self : KnowledgeBase) (keywords : list string) : gset string :=
  dom (filter (fun entry => matches_keyword keywords entry.2 = true) (knowledge_units self)).

(** [a.intersection(b) if a else b]. *)
Definition narrow (candidate_ids filter_ids : gset string) : gset string :=
  if decide (candidate_ids = ∅) then filter_ids else candidate_ids ∩ filter_ids.

Definition candidates_after_tags (self : KnowledgeBase) (domain : string)
    (tags : option (list string)) : gset string :=
  match truthy tags with
  | [] => ids_by_domain self domain
  | tag :: more => narrow (ids_by_domain self domain) (ids_by_tags self (tag :: more))
  end.

Definition candidates (self : KnowledgeBase) (domain : string)
    (tags content_keywords : option (list string)) : gset string :=
  match truthy content_keywords with
  | [] => candidates_after_tags self domain tags
  | keyword :: more =>
      narrow (candidates_after_tags self domain tags)
             (ids_by_keywords self (keyword :: more))
  end.

(** [find_relevant_knowledge(domain, tags, content_keywords)].  The loop over
    the candidate set visits it in the order of [elements]; the order in
    which Python visits a set is unspecified as well. *)
Definition find_relevant_knowledge (self : KnowledgeBase) (domain : string)
    (tags content_keywords : option (list string)) : list KnowledgeUnit :=
  let candidate_ids := candidates self domain tags content_keywords in
  let relevant_units :=
    omap (fun unit_id => knowledge_units self !! unit_id) (elements candidate_ids) in
  sort_by_quality relevant_units.

(** [update_knowledge_usage(unit_id)]. *)
Definition update_knowledge_usage (self : KnowledgeBase) (unit_id : string)
    (now : datetime) (files : disk) : KnowledgeBase * disk :=
  match knowledge_units self !! unit_id with
  | Some unit =>
      let unit' :=
        {| id := id unit; content := content unit; domain := domain unit;
           source_task_id := source_task_id unit; creation_time := creation_time unit;
           usage_count := usage_count unit + 1; quality_score := quality_score unit;
           tags := tags unit |} in
      let self' :=
        {| kb_path := kb_path self;
           knowledge_units := <[unit_id := unit']> (knowledge_units self);
           domain_index := domain_index self;
           tag_index := tag_index self |} in
      (self', save_knowledge_base self' now files)
  | None => (self, files)
  end.

(** *** Well-formed stores (for the statements below) *)

(** Every unit is filed under its own id. *)
Definition keys_ok (self : KnowledgeBase) : Prop :=
  forall key unit, knowledge_units self !! key = Some unit -> id unit = key.

(** The indexes hold exactly what the primary map tells: an id is under a
    domain (a tag) exactly when the unit filed under it has that domain
    (that tag). *)
Definition indexes_exact (self : KnowledgeBase) : Prop :=
  (forall key x,
      x ∈ index_get (domain_index self) key
      <-> exists unit, knowledge_units self !! x = Some unit /\ domain unit = key)
  /\ (forall key x,
        x ∈ index_get (tag_index self) key
        <-> exists unit, knowledge_units self !! x = Some unit /\ key ∈ tags unit).

(** The store with no unit and no index entry. *)
Definition empty_store (path : string) : KnowledgeBase :=
  {| kb_path := path; knowledge_units := ∅; domain_index := ∅; tag_index := ∅ |}.

(** The stores the methods produce: the empty store of [__init__], and what
    [add_knowledge_unit] and [update_knowledge_usage] make of such a store. *)
Inductive built : KnowledgeBase -> Prop :=
| built_empty (path : string) : built (empty_store path)
| built_insert (self : KnowledgeBase) (unit : KnowledgeUnit) :
    built self -> built (insert_unit self unit)
| built_usage (self : KnowledgeBase) (unit_id : string) (now : datetime) (files : disk) :
    built self -> built (update_knowledge_usage self unit_id now files).1.

(** The order of [sort(key=lambda x: x.quality_score, reverse=True)]. *)
Definition better_first (first second : KnowledgeUnit) : Prop :=
  (quality_score second <= quality_score first)%Q.

(** *** Index membership *)

Lemma elem_of_index_append index key unit_id key' x :
  x ∈ index_get (index_append index key unit_id) key'
  <-> x ∈ index_get index key' \/ (key' = key /\ x = unit_id).
Proof. forget_unused.
  unfold index_append, index_get at 1.
  destruct (decide (key = key')) as [-> | Hne].
  - rewrite lookup_insert_eq. simpl. rewrite elem_of_app, list_elem_of_singleton.
    naive_solver.
  - rewrite lookup_insert_ne by done. fold (index_get index key'). naive_solver.
Qed.

Lemma elem_of_index_append_tags tag_list index unit_id key' x :
  x ∈ index_get (foldl (fun index tag => index_append index tag unit_id) index tag_list) key'
  <-> x ∈ index_get index key' \/ (key' ∈ tag_list /\ x = unit_id).
Proof. forget_unused.
  revert index. induction tag_list as [| tag tag_list IH]; intros index; simpl.
  - rewrite elem_of_nil. naive_solver.
  - rewrite IH, elem_of_index_append, elem_of_cons. naive_solver.
Qed.

Lemma elem_of_domain_index_insert self unit key x :
  x ∈ index_get (domain_index (insert_unit self unit)) key
  <-> x ∈ index_get (domain_index self) key \/ (key = domain unit /\ x = id unit).
Proof. apply elem_of_index_append. Qed.

Lemma elem_of_tag_index_insert self unit key x :
  x ∈ index_get (tag_index (insert_unit self unit)) key
  <-> x ∈ index_get (tag_index self) key \/ (key ∈ tags unit /\ x = id unit).
Proof. apply elem_of_index_append_tags. Qed.

Lemma lookup_insert_unit self unit key :
  knowledge_units (insert_unit self unit) !! key
  = if decide (id unit = key) then Some unit else knowledge_units self !! key.
Proof. simpl. apply lookup_insert. Qed.

(** A unit that takes the place of one with the same id, domain and tags
    leaves the size of the primary map and the membership of both indexes as
    they were. *)
Lemma insert_unit_again self unit unit' :
  id unit' = id unit ->
  domain unit' = domain unit ->
  (forall tag, tag ∈ tags unit' <-> tag ∈ tags unit) ->
  size (knowledge_units (insert_unit (insert_unit self unit) unit'))
  = size (knowledge_units (insert_unit self unit))
  /\ (forall key x,
        x ∈ index_get (domain_index (insert_unit (insert_unit self unit) unit')) key
        <-> x ∈ index_get (domain_index (insert_unit self unit)) key)
  /\ (forall key x,
        x ∈ index_get (tag_index (insert_unit (insert_unit self unit) unit')) key
        <-> x ∈ index_get (tag_index (insert_unit self unit)) key).
Proof. forget_unused.
  intros Hid Hdomain Htags. split; [| split].
  - cbn [knowledge_units insert_unit]. rewrite Hid.
    rewrite map_size_insert_Some; [done |]. rewrite lookup_insert_eq. eauto.
  - intros key x. rewrite !elem_of_domain_index_insert. naive_solver.
  - intros key x. rewrite !elem_of_tag_index_insert. naive_solver.
Qed.

(** The index lists themselves grow: the id is appended once more. *)
Lemma domain_index_list_grows self unit :
  index_get (domain_index (insert_unit (insert_unit self unit) unit)) (domain unit)
  = index_get (domain_index (insert_unit self unit)) (domain unit) ++ [id unit].
Proof.
  cbn [domain_index insert_unit]. unfold index_append at 1, index_get at 1.
  rewrite lookup_insert_eq. reflexivity.
Qed.

(** *** Adding the same id twice (C5) *)

(** C5, as amended.  A unit added under an id that has just been added takes
    the place of the first unit: the number of units stays the same.  The
    indexes only grow: afterwards the id is indexed under the domain and
    under every tag of the second unit as well, and nothing is taken out.
    So the membership of the domain index is unchanged exactly when the id
    was already indexed under the domain of the second unit, that of the tag
    index exactly when it was already indexed under each of its tags; both
    hold when the same unit is added twice. *)
Theorem add_knowledge_unit_twice self unit other (save1 save2 : bool)
    (now1 now2 : datetime) (files : disk) :
  id other = id unit ->
  let first := add_knowledge_unit self unit save1 now1 files in
  let second := add_knowledge_unit first.1 other save2 now2 first.2 in
  size (knowledge_units second.1) = size (knowledge_units first.1)
  /\ knowledge_units second.1 = <[id unit := other]> (knowledge_units first.1)
  /\ (forall key x,
        x ∈ index_get (domain_index second.1) key
        <-> x ∈ index_get (domain_index first.1) key
            \/ (key = domain other /\ x = id unit))
  /\ (forall key x,
        x ∈ index_get (tag_index second.1) key
        <-> x ∈ index_get (tag_index first.1) key
            \/ (key ∈ tags other /\ x = id unit))
  /\ ((forall key x,
         x ∈ index_get (domain_index second.1) key
         <-> x ∈ index_get (domain_index first.1) key)
      <-> id unit ∈ index_get (domain_index first.1) (domain other))
  /\ ((forall key x,
         x ∈ index_get (tag_index second.1) key
         <-> x ∈ index_get (tag_index first.1) key)
      <-> forall tag, tag ∈ tags other -> id unit ∈ index_get (tag_index first.1) tag)
  /\ (other = unit ->
      knowledge_units second.1 = knowledge_units first.1
      /\ (forall key x,
            x ∈ index_get (domain_index second.1) key
            <-> x ∈ index_get (domain_index first.1) key)
      /\ (forall key x,
            x ∈ index_get (tag_index second.1) key
            <-> x ∈ index_get (tag_index first.1) key)).
Proof. forget_unused.
  intros Hid. cbn zeta. unfold add_knowledge_unit. cbn [fst snd].
  set (first := insert_unit self unit).
  assert (Hdomain : forall key x,
             x ∈ index_get (domain_index (insert_unit first other)) key
             <-> x ∈ index_get (domain_index first) key
                 \/ (key = domain other /\ x = id unit)).
  { intros key x. rewrite elem_of_domain_index_insert, Hid. done. }
  assert (Htag : forall key x,
             x ∈ index_get (tag_index (insert_unit first other)) key
             <-> x ∈ index_get (tag_index first) key
                 \/ (key ∈ tags other /\ x = id unit)).
  { intros key x. rewrite elem_of_tag_index_insert, Hid. done. }
  assert (Hunits : knowledge_units (insert_unit first other)
                   = <[id unit := other]> (knowledge_units first)).
  { cbn [knowledge_units insert_unit]. by rewrite Hid. }
  split; [| split; [exact Hunits | split; [exact Hdomain | split; [exact Htag |]]]].
  { rewrite Hunits. apply map_size_insert_Some.
    unfold first. cbn [knowledge_units insert_unit]. rewrite lookup_insert_eq. eauto. }
  split; [| split].
  - split.
    + intros Hsame. apply Hsame, Hdomain. by right.
    + intros Hin key x. rewrite Hdomain. split; [| by left].
      intros [? | [-> ->]]; done.
  - split.
    + intros Hsame tag Hin. apply Hsame, Htag. by right.
    + intros Hin key x. rewrite Htag. split; [| by left].
      intros [? | [Hkey ->]]; [done | by apply Hin].
  - intros ->. split; [| split].
    + rewrite Hunits. unfold first. cbn [knowledge_units insert_unit].
      apply insert_insert_eq.
    + intros key x. rewrite Hdomain. unfold first.
      rewrite elem_of_domain_index_insert. naive_solver.
    + intros key x. rewrite Htag. unfold first.
      rewrite elem_of_tag_index_insert. naive_solver.
Qed.

(** *** Well-formed stores *)

Lemma keys_ok_empty path : keys_ok (empty_store path).
Proof. intros key unit H. simpl in H. by rewrite lookup_empty in H. Qed.

Lemma keys_ok_insert self unit : keys_ok self -> keys_ok (insert_unit self unit).
Proof. forget_unused.
  intros Hok key unit'. rewrite lookup_insert_unit.
  case_decide; [naive_solver | apply Hok].
Qed.

Lemma indexes_exact_empty path : indexes_exact (empty_store path).
Proof.
  split; intros key x; unfold index_get; simpl; rewrite lookup_empty; simpl;
    rewrite elem_of_nil; (split; [done |]);
    intros (unit & H & _); by rewrite lookup_empty in H.
Qed.

(** Adding a unit under an id that is not in use keeps the indexes exact. *)
Lemma indexes_exact_insert_fresh self unit :
  knowledge_units self !! id unit = None ->
  indexes_exact self -> indexes_exact (insert_unit self unit).
Proof. forget_unused.
  intros Hfresh [Hdomain Htag]. split; intros key x.
  - rewrite elem_of_domain_index_insert, Hdomain. setoid_rewrite lookup_insert_unit.
    split.
    + intros [(unit' & Hsome & Hd) | [-> ->]].
      * exists unit'. case_decide; [congruence | done].
      * exists unit. by rewrite decide_True.
    + intros (unit' & Hsome & Hd). case_decide; [naive_solver | eauto].
  - rewrite elem_of_tag_index_insert, Htag. setoid_rewrite lookup_insert_unit.
    split.
    + intros [(unit' & Hsome & Hd) | [Hin ->]].
      * exists unit'. case_decide; [congruence | done].
      * exists unit. by rewrite decide_True.
    + intros (unit' & Hsome & Hd). case_decide; [naive_solver | eauto].
Qed.

(** A usage update keeps every unit under its own id and touches no index. *)
Lemma keys_ok_update_usage self unit_id now files :
  keys_ok self -> keys_ok (update_knowledge_usage self unit_id now files).1.
Proof.
  intros Hok. unfold update_knowledge_usage.
  destruct (knowledge_units self !! unit_id) as [unit |] eqn:Hunit; [| exact Hok].
  intros key unit'. cbn [fst knowledge_units]. rewrite lookup_insert.
  case_decide as Hkey; [| apply Hok].
  intros [= <-]. simpl. rewrite <- Hkey. by apply Hok.
Qed.

(** *** [find_relevant_knowledge] *)

Lemma elem_of_insert_by_quality unit sorted x :
  x ∈ insert_by_quality unit sorted <-> x = unit \/ x ∈ sorted.
Proof.
  induction sorted as [| other sorted IH]; simpl.
  - rewrite list_elem_of_singleton, elem_of_nil. naive_solver.
  - destruct (Qlt_le_dec _ _); rewrite !elem_of_cons; [rewrite IH |]; naive_solver.
Qed.

Lemma elem_of_sort_by_quality units x : x ∈ sort_by_quality units <-> x ∈ units.
Proof.
  induction units as [| unit units IH]; simpl; [done |].
  rewrite elem_of_insert_by_quality, elem_of_cons, IH. done.
Qed.

Lemma length_insert_by_quality unit sorted :
  length (insert_by_quality unit sorted) = S (length sorted).
Proof.
  induction sorted as [| other sorted IH]; simpl; [done |].
  destruct (Qlt_le_dec _ _); simpl; by rewrite ?IH.
Qed.

Lemma elem_of_find_relevant_knowledge self domain tag_list keywords unit :
  unit ∈ find_relevant_knowledge self domain tag_list keywords
  <-> exists x, x ∈ candidates self domain tag_list keywords
             /\ knowledge_units self !! x = Some unit.
Proof.
  unfold find_relevant_knowledge.
  rewrite elem_of_sort_by_quality, list_elem_of_omap.
  by setoid_rewrite elem_of_elements.
Qed.

Lemma find_relevant_knowledge_no_candidates self domain tag_list keywords :
  candidates self domain tag_list keywords = ∅ ->
  find_relevant_knowledge self domain tag_list keywords = [].
Proof.
  intros H. unfold find_relevant_knowledge. rewrite H, elements_empty. done.
Qed.

Lemma elem_of_ids_by_domain self domain x :
  x ∈ ids_by_domain self domain <-> x ∈ index_get (domain_index self) domain.
Proof. apply elem_of_list_to_set. Qed.

Lemma narrow_subseteq candidate_ids filter_ids :
  candidate_ids <> ∅ -> narrow candidate_ids filter_ids ⊆ candidate_ids.
Proof. intros H. unfold narrow. rewrite decide_False by done. set_solver. Qed.

Lemma candidates_after_tags_subseteq self domain tag_list :
  ids_by_domain self domain <> ∅ ->
  candidates_after_tags self domain tag_list ⊆ ids_by_domain self domain.
Proof.
  intros H. unfold candidates_after_tags.
  destruct (truthy tag_list); [done | by apply narrow_subseteq].
Qed.

Lemma candidates_subseteq self domain tag_list keywords :
  ids_by_domain self domain <> ∅ ->
  truthy keywords = [] \/ candidates_after_tags self domain tag_list <> ∅ ->
  candidates self domain tag_list keywords ⊆ ids_by_domain self domain.
Proof.
  intros Hdomain Hkeywords. unfold candidates.
  destruct (truthy keywords) as [| keyword more].
  - by apply candidates_after_tags_subseteq.
  - destruct Hkeywords as [? | Hne]; [done |].
    etrans; [by apply narrow_subseteq | by apply candidates_after_tags_subseteq].
Qed.

Lemma candidates_unfiltered self domain tag_list keywords :
  truthy tag_list = [] -> truthy keywords = [] ->
  candidates self domain tag_list keywords = ids_by_domain self domain.
Proof.
  intros Ht Hk. unfold candidates, candidates_after_tags. by rewrite Hk, Ht.
Qed.

Lemma find_relevant_knowledge_no_units self domain tag_list keywords :
  knowledge_units self = ∅ ->
  find_relevant_knowledge self domain tag_list keywords = [].
Proof.
  intros H. apply elem_of_nil_inv. intros unit.
  rewrite elem_of_find_relevant_knowledge, H.
  intros (x & _ & Hx). by rewrite lookup_empty in Hx.
Qed.

Lemma find_relevant_knowledge_empty_domain self requested tag_list keywords :
  truthy tag_list = [] -> truthy keywords = [] ->
  index_get (domain_index self) requested = [] ->
  find_relevant_knowledge self requested tag_list keywords = [].
Proof.
  intros Ht Hk Hnone. apply find_relevant_knowledge_no_candidates.
  rewrite candidates_unfiltered by done. unfold ids_by_domain. by rewrite Hnone.
Qed.

Lemma elem_of_ids_by_tags_from self tag_list (acc : gset string) x :
  x ∈ foldl (fun tag_ids tag => tag_ids ∪ list_to_set (index_get (tag_index self) tag))
        acc tag_list
  <-> x ∈ acc \/ exists tag, tag ∈ tag_list /\ x ∈ index_get (tag_index self) tag.
Proof. forget_unused.
  revert acc. induction tag_list as [| tag tag_list IH]; intros acc; simpl.
  - setoid_rewrite elem_of_nil. naive_solver.
  - rewrite IH, elem_of_union, elem_of_list_to_set. setoid_rewrite elem_of_cons.
    naive_solver.
Qed.

Lemma elem_of_ids_by_tags self tag_list x :
  x ∈ ids_by_tags self tag_list
  <-> exists tag, tag ∈ tag_list /\ x ∈ index_get (tag_index self) tag.
Proof. forget_unused.
  unfold ids_by_tags. rewrite elem_of_ids_by_tags_from. set_solver.
Qed.

Lemma elem_of_ids_by_keywords self keywords x :
  x ∈ ids_by_keywords self keywords
  <-> exists unit, knowledge_units self !! x = Some unit
                   /\ matches_keyword keywords unit = true.
Proof. forget_unused.
  unfold ids_by_keywords. rewrite elem_of_dom. unfold is_Some.
  setoid_rewrite map_lookup_filter_Some. simpl. naive_solver.
Qed.

Lemma elem_of_narrow candidate_ids filter_ids x :
  candidate_ids <> ∅ ->
  x ∈ narrow candidate_ids filter_ids <-> x ∈ candidate_ids /\ x ∈ filter_ids.
Proof. forget_unused. intros H. unfold narrow. rewrite decide_False by done. set_solver. Qed.

(** *** What [find_relevant_knowledge] returns (C3) *)

(** C3, as amended.  Every returned unit is filed under an id that is
    indexed under the requested domain (and has that domain where the indexes
    are exact) provided the domain has indexed ids and, when keywords are
    supplied, candidates remain after the tag filter.  With neither tags nor
    keywords, a domain with no indexed id gives the empty list; a store with
    no unit gives the empty list whatever tags and keywords are supplied.
    Otherwise a filter that meets an empty candidate set replaces it by its
    own matches: with tags and no id indexed under the domain, the units
    returned are the units of any domain that are indexed under one of the
    tags (and hold a keyword, when keywords are supplied as well and some id
    carries one of the tags); with keywords and no candidate left after the
    tag filter, they are the units of any domain that hold a keyword. *)
Theorem find_relevant_knowledge_within_domain self (requested : string)
    (tag_list keywords : option (list string)) :
  (ids_by_domain self requested <> ∅ ->
   truthy keywords = [] \/ candidates_after_tags self requested tag_list <> ∅ ->
   forall unit,
     unit ∈ find_relevant_knowledge self requested tag_list keywords ->
     (exists x, x ∈ index_get (domain_index self) requested
                /\ knowledge_units self !! x = Some unit)
     /\ (indexes_exact self -> domain unit = requested))
  /\ (truthy tag_list = [] -> truthy keywords = [] ->
      index_get (domain_index self) requested = [] ->
      find_relevant_knowledge self requested tag_list keywords = [])
  /\ (knowledge_units self = ∅ ->
      find_relevant_knowledge self requested tag_list keywords = [])
  /\ (index_get (domain_index self) requested = [] ->
      truthy tag_list <> [] ->
      truthy keywords = [] \/ ids_by_tags self (truthy tag_list) <> ∅ ->
      forall unit,
        unit ∈ find_relevant_knowledge self requested tag_list keywords
        <-> exists x tag,
              tag ∈ truthy tag_list
              /\ x ∈ index_get (tag_index self) tag
              /\ knowledge_units self !! x = Some unit
              /\ (truthy keywords = [] \/ matches_keyword (truthy keywords) unit = true))
  /\ (candidates_after_tags self requested tag_list = ∅ ->
      truthy keywords <> [] ->
      forall unit,
        unit ∈ find_relevant_knowledge self requested tag_list keywords
        <-> exists x,
              knowledge_units self !! x = Some unit
              /\ matches_keyword (truthy keywords) unit = true).
Proof. forget_unused.
  split; [| split; [| split; [| split]]].
  - intros Hdomain Hkeywords unit Hin.
    apply elem_of_find_relevant_knowledge in Hin as (x & Hx & Hunit).
    apply (candidates_subseteq _ _ _ _ Hdomain Hkeywords), elem_of_ids_by_domain in Hx.
    split; [eauto |]. intros [Hexact _].
    apply Hexact in Hx as (unit' & Hunit' & Hd). congruence.
  - apply find_relevant_knowledge_empty_domain.
  - apply find_relevant_knowledge_no_units.
  - intros Hnone Htags Hkeywords unit.
    rewrite elem_of_find_relevant_knowledge.
    assert (Hafter : candidates_after_tags self requested tag_list
                     = ids_by_tags self (truthy tag_list)).
    { unfold candidates_after_tags, ids_by_domain. rewrite Hnone.
      destruct (truthy tag_list) as [| tag more]; [done |].
      unfold narrow. by rewrite decide_True. }
    unfold candidates. rewrite Hafter.
    destruct (truthy keywords) as [| keyword more] eqn:Hk.
    + setoid_rewrite elem_of_ids_by_tags. naive_solver.
    + destruct Hkeywords as [? | Hne]; [done |].
      setoid_rewrite (elem_of_narrow _ _ _ Hne).
      setoid_rewrite elem_of_ids_by_tags. setoid_rewrite elem_of_ids_by_keywords.
      split.
      * intros (x & [(tag & Htag & Hx) (other & Hother & Hmatch)] & Hunit).
        assert (other = unit) as -> by congruence. naive_solver.
      * intros (x & tag & Htag & Hx & Hunit & [? | Hmatch]); [done |].
        exists x. naive_solver.
  - intros Hnone Hkeywords unit.
    rewrite elem_of_find_relevant_knowledge.
    unfold candidates. rewrite Hnone.
    destruct (truthy keywords) as [| keyword more]; [done |].
    unfold narrow. rewrite decide_True by done.
    setoid_rewrite elem_of_ids_by_keywords. split.
    + intros (x & (other & Hother & Hmatch) & Hunit).
      assert (other = unit) as -> by congruence. eauto.
    + intros (x & Hunit & Hmatch). eauto.
Qed.

(** *** Saving and loading *)

Lemma as_str_list_strings (l : list string) : as_str_list (JStr <$> l) = Ok l.
Proof.
  induction l as [| x l IH]; [done |].
  rewrite fmap_cons. cbn -[fmap]. by rewrite IH.
Qed.

Lemma kb_path_foldl_insert_unit units self :
  kb_path (foldl insert_unit self units) = kb_path self.
Proof. revert self. induction units as [| unit units IH]; intros self; simpl; [done |]. by rewrite IH. Qed.

Lemma lookup_foldl_insert_unit units self key :
  NoDup (id <$> units) ->
  (forall unit, unit ∈ units -> id unit = key ->
     knowledge_units (foldl insert_unit self units) !! key = Some unit)
  /\ ((forall unit, unit ∈ units -> id unit <> key) ->
      knowledge_units (foldl insert_unit self units) !! key = knowledge_units self !! key).
Proof. forget_unused.
  revert self. induction units as [| first units IH]; intros self Hnodup.
  - split; [by intros unit ?%elem_of_nil | done].
  - apply NoDup_cons in Hnodup as [Hfresh Hnodup].
    destruct (IH (insert_unit self first) Hnodup) as [IHin IHout].
    split; simpl.
    + intros unit [-> | Hin]%elem_of_cons Hid; [| by apply IHin].
      rewrite IHout.
      * rewrite lookup_insert_unit. by rewrite decide_True.
      * intros other Hother Hsame. apply Hfresh, list_elem_of_fmap.
        exists other. split; [congruence | done].
    + intros Hne. rewrite IHout.
      * rewrite lookup_insert_unit. rewrite decide_False; [done |].
        apply Hne, list_elem_of_here.
      * intros other Hother. apply Hne. by apply list_elem_of_further.
Qed.

Lemma elem_of_domain_index_foldl units self key x :
  x ∈ index_get (domain_index (foldl insert_unit self units)) key
  <-> x ∈ index_get (domain_index self) key
      \/ exists unit, unit ∈ units /\ domain unit = key /\ id unit = x.
Proof. forget_unused.
  revert self. induction units as [| first units IH]; intros self; simpl.
  - setoid_rewrite elem_of_nil. naive_solver.
  - rewrite IH, elem_of_domain_index_insert. setoid_rewrite elem_of_cons. naive_solver.
Qed.

Lemma elem_of_tag_index_foldl units self key x :
  x ∈ index_get (tag_index (foldl insert_unit self units)) key
  <-> x ∈ index_get (tag_index self) key
      \/ exists unit, unit ∈ units /\ key ∈ tags unit /\ id unit = x.
Proof. forget_unused.
  revert self. induction units as [| first units IH]; intros self; simpl.
  - setoid_rewrite elem_of_nil. naive_solver.
  - rewrite IH, elem_of_tag_index_insert. setoid_rewrite elem_of_cons. naive_solver.
Qed.

(** The units of a store whose units are filed under their own ids. *)
Lemma stored_units self :
  keys_ok self ->
  NoDup (id <$> (map_to_list (knowledge_units self)).*2)
  /\ (forall unit,
        unit ∈ (map_to_list (knowledge_units self)).*2
        <-> knowledge_units self !! id unit = Some unit).
Proof. forget_unused.
  intros Hok.
  assert (Hids : id <$> (map_to_list (knowledge_units self)).*2
                 = (map_to_list (knowledge_units self)).*1).
  { rewrite <- list_fmap_compose. apply list_fmap_ext.
    intros i [key unit] Hi%list_elem_of_lookup_2%elem_of_map_to_list. simpl.
    by apply Hok. }
  split.
  - rewrite Hids. apply NoDup_fst_map_to_list.
  - intros unit. rewrite list_elem_of_fmap. split.
    + intros ([key unit'] & -> & Hin%elem_of_map_to_list). simpl.
      by rewrite (Hok _ _ Hin).
    + intros Hin. exists (id unit, unit). split; [done |].
      by apply elem_of_map_to_list.
Qed.

(** *** The order and the content of the result of [find_relevant_knowledge] *)

Lemma insert_by_quality_perm unit sorted :
  insert_by_quality unit sorted ≡ₚ unit :: sorted.
Proof.
  induction sorted as [| other sorted IH]; simpl; [done |].
  destruct (Qlt_le_dec _ _); [| done]. rewrite IH. apply Permutation_swap.
Qed.

Lemma sort_by_quality_perm units : sort_by_quality units ≡ₚ units.
Proof.
  induction units as [| unit units IH]; simpl; [done |].
  by rewrite insert_by_quality_perm, IH.
Qed.

Lemma insert_by_quality_sorted unit sorted :
  StronglySorted better_first sorted ->
  StronglySorted better_first (insert_by_quality unit sorted).
Proof.
  induction sorted as [| other sorted IH]; intros Hsorted; simpl.
  - repeat constructor.
  - apply StronglySorted_inv in Hsorted as [Hrest Hall].
    destruct (Qlt_le_dec (quality_score unit) (quality_score other)) as [Hlt | Hle].
    + constructor; [by apply IH |].
      rewrite insert_by_quality_perm. constructor; [| done].
      unfold better_first. lra.
    + constructor; [by constructor |]. constructor; [done |].
      eapply Forall_impl; [exact Hall |]. unfold better_first. intros third. lra.
Qed.

Lemma sort_by_quality_sorted units : StronglySorted better_first (sort_by_quality units).
Proof.
  induction units as [| unit units IH]; simpl; [constructor |].
  by apply insert_by_quality_sorted.
Qed.

Lemma NoDup_ids_omap_lookup (units : gmap string KnowledgeUnit) (ids : list string) :
  (forall key unit, units !! key = Some unit -> id unit = key) ->
  NoDup ids -> NoDup (id <$> omap (fun unit_id => units !! unit_id) ids).
Proof.
  intros Hok. induction ids as [| x ids IH]; intros Hnodup; [constructor |].
  apply NoDup_cons in Hnodup as [Hx Hnodup]. simpl.
  destruct (units !! x) as [unit |] eqn:Hunit; [| by apply IH].
  rewrite fmap_cons. apply NoDup_cons. split; [| by apply IH].
  rewrite (Hok _ _ Hunit). intros Hin. apply Hx.
  apply list_elem_of_fmap in Hin as (other & -> & Hother).
  apply list_elem_of_omap in Hother as (y & Hy & Hlookup).
  by rewrite (Hok _ _ Hlookup).
Qed.

(** The result of [find_relevant_knowledge] is in descending order of
    quality score, and in a store that files each unit under its own id no
    unit is returned twice. *)
Theorem find_relevant_knowledge_sorted self (requested : string)
    (tag_list keywords : option (list string)) :
  StronglySorted better_first (find_relevant_knowledge self requested tag_list keywords)
  /\ (keys_ok self ->
      NoDup (id <$> find_relevant_knowledge self requested tag_list keywords)).
Proof.
  split; [apply sort_by_quality_sorted |].
  intros Hok. unfold find_relevant_knowledge. rewrite sort_by_quality_perm.
  apply NoDup_ids_omap_lookup; [exact Hok | apply NoDup_elements].
Qed.

(** When no filter meets an empty candidate set, in a store whose indexes
    agree with its units, [find_relevant_knowledge] returns exactly the
    stored units that have the requested domain, carry at least one of the
    tags (when tags are given) and hold one of the keywords in their content,
    case folded (when keywords are given). *)
Theorem find_relevant_knowledge_filters self (requested : string)
    (tag_list keywords : option (list string)) :
  keys_ok self ->
  indexes_exact self ->
  truthy tag_list = [] \/ ids_by_domain self requested <> ∅ ->
  truthy keywords = [] \/ candidates_after_tags self requested tag_list <> ∅ ->
  forall unit,
    unit ∈ find_relevant_knowledge self requested tag_list keywords
    <-> knowledge_units self !! id unit = Some unit
        /\ domain unit = requested
        /\ (truthy tag_list = []
            \/ exists tag, tag ∈ truthy tag_list /\ tag ∈ tags unit)
        /\ (truthy keywords = [] \/ matches_keyword (truthy keywords) unit = true).
Proof. forget_unused.
  intros Hok [Hdomain Htag] Htags Hkeywords unit.
  assert (Hafter : forall x,
             x ∈ candidates_after_tags self requested tag_list
             <-> x ∈ index_get (domain_index self) requested
                 /\ (truthy tag_list = []
                     \/ exists tag, tag ∈ truthy tag_list
                                    /\ x ∈ index_get (tag_index self) tag)).
  { intros x. unfold candidates_after_tags.
    destruct (truthy tag_list) as [| tag more] eqn:Ht.
    - rewrite elem_of_ids_by_domain. naive_solver.
    - destruct Htags as [? | Hne]; [done |].
      rewrite (elem_of_narrow _ _ _ Hne), elem_of_ids_by_domain, elem_of_ids_by_tags.
      naive_solver. }
  assert (Hall : forall x,
             x ∈ candidates self requested tag_list keywords
             <-> x ∈ candidates_after_tags self requested tag_list
                 /\ (truthy keywords = []
                     \/ exists other, knowledge_units self !! x = Some other
                                      /\ matches_keyword (truthy keywords) other = true)).
  { intros x. unfold candidates.
    destruct (truthy keywords) as [| keyword more] eqn:Hk.
    - naive_solver.
    - destruct Hkeywords as [? | Hne]; [done |].
      rewrite (elem_of_narrow _ _ _ Hne), elem_of_ids_by_keywords. naive_solver. }
  rewrite elem_of_find_relevant_knowledge. split.
  - intros (x & Hx & Hunit). pose proof (Hok _ _ Hunit) as Hid. subst x.
    apply Hall in Hx as [Hx Hkw]. apply Hafter in Hx as [Hd Htg].
    apply Hdomain in Hd as (other & Hother & Hd).
    assert (other = unit) as -> by congruence.
    split; [done |]. split; [done |]. split.
    + destruct Htg as [? | (tag & Hin & Htg)]; [by left | right].
      apply Htag in Htg as (other & Hother' & Hhas).
      assert (other = unit) as -> by congruence. eauto.
    + destruct Hkw as [? | (other & Hother' & Hm)]; [by left | right].
      by assert (other = unit) as -> by congruence.
  - intros (Hunit & Hd & Htg & Hkw). exists (id unit). split; [| done].
    apply Hall. split.
    + apply Hafter. split; [apply Hdomain; eauto |].
      destruct Htg as [? | (tag & Hin & Hhas)]; [by left | right].
      exists tag. split; [done |]. apply Htag. eauto.
    + destruct Hkw as [? | Hm]; [by left | right]. eauto.
Qed.

(** *** Stores the methods produce *)

Lemma lookup_update_knowledge_usage self unit_id now files key :
  knowledge_units (update_knowledge_usage self unit_id now files).1 !! key
  = match knowledge_units self !! unit_id with
    | Some unit =>
        if decide (unit_id = key)
        then Some {| id := id unit; content := content unit; domain := domain unit;
                     source_task_id := source_task_id unit;
                     creation_time := creation_time unit;
                     usage_count := usage_count unit + 1;
                     quality_score := quality_score unit; tags := tags unit |}
        else knowledge_units self !! key
    | None => knowledge_units self !! key
    end.
Proof.
  unfold update_knowledge_usage.
  destruct (knowledge_units self !! unit_id) as [unit |]; [| done].
  cbn [fst knowledge_units]. apply lookup_insert.
Qed.

Lemma indexes_update_knowledge_usage self unit_id now files :
  domain_index (update_knowledge_usage self unit_id now files).1 = domain_index self
  /\ tag_index (update_knowledge_usage self unit_id now files).1 = tag_index self
  /\ kb_path (update_knowledge_usage self unit_id now files).1 = kb_path self.
Proof.
  unfold update_knowledge_usage.
  by destruct (knowledge_units self !! unit_id).
Qed.

(** In every store the methods produce, each unit is filed under its own id,
    each id listed in an index is the id of a stored unit, and each stored
    unit is listed under its domain and under each of its tags: an index can
    hold entries of a replaced unit, but it misses none. *)
Theorem built_store_invariant self :
  built self ->
  keys_ok self
  /\ (forall key x,
        x ∈ index_get (domain_index self) key -> is_Some (knowledge_units self !! x))
  /\ (forall key x,
        x ∈ index_get (tag_index self) key -> is_Some (knowledge_units self !! x))
  /\ (forall x unit,
        knowledge_units self !! x = Some unit ->
        x ∈ index_get (domain_index self) (domain unit)
        /\ forall tag, tag ∈ tags unit -> x ∈ index_get (tag_index self) tag).
Proof.
  induction 1 as [path | self unit Hbuilt IH | self unit_id now files Hbuilt IH].
  - split; [apply keys_ok_empty |].
    split; [| split]; intros key x; unfold index_get; simpl; rewrite lookup_empty;
      simpl; try (by intros ?%elem_of_nil). by intros unit.
  - destruct IH as (Hok & Hdomain & Htag & Hlisted).
    split; [by apply keys_ok_insert |]. split; [| split].
    + intros key x. rewrite elem_of_domain_index_insert, lookup_insert_unit.
      intros [Hin | [_ ->]]; [| by rewrite decide_True].
      case_decide; [eauto | by eapply Hdomain].
    + intros key x. rewrite elem_of_tag_index_insert, lookup_insert_unit.
      intros [Hin | [_ ->]]; [| by rewrite decide_True].
      case_decide; [eauto | by eapply Htag].
    + intros x other. rewrite lookup_insert_unit.
      case_decide as Hx.
      * intros [= <-]. subst x. split.
        -- apply elem_of_domain_index_insert. by right.
        -- intros tag Hin. apply elem_of_tag_index_insert. by right.
      * intros Hother. destruct (Hlisted _ _ Hother) as [Hd Ht]. split.
        -- apply elem_of_domain_index_insert. by left.
        -- intros tag Hin. apply elem_of_tag_index_insert. left. by apply Ht.
  - destruct IH as (Hok & Hdomain & Htag & Hlisted).
    destruct (indexes_update_knowledge_usage self unit_id now files) as (Hd & Ht & _).
    split; [by apply keys_ok_update_usage |].
    rewrite Hd, Ht. split; [| split].
    + intros key x Hin. rewrite lookup_update_knowledge_usage.
      destruct (knowledge_units self !! unit_id); [| by eapply Hdomain].
      case_decide; [eauto | by eapply Hdomain].
    + intros key x Hin. rewrite lookup_update_knowledge_usage.
      destruct (knowledge_units self !! unit_id); [| by eapply Htag].
      case_decide; [eauto | by eapply Htag].
    + intros x other. rewrite lookup_update_knowledge_usage.
      destruct (knowledge_units self !! unit_id) as [unit |] eqn:Hunit; [| apply Hlisted].
      case_decide as Hx; [| apply Hlisted].
      intros [= <-]. subst x. simpl. by apply Hlisted.
Qed.

Lemma built_load_units entries self : built self -> built (load_units self entries).
Proof.
  revert self. induction entries as [| data entries IH]; intros self Hbuilt; simpl; [done |].
  destruct (parse_unit data); [| done]. apply IH. by constructor.
Qed.

(** Whatever the disk holds, the store that [__init__] loads is one the
    methods produce. *)
Lemma built_init path files : built (__init__ path files).
Proof.
  unfold __init__, load_knowledge_base. simpl.
  destruct (files !! path) as [[] |]; try apply built_empty.
  destruct (default (JList []) (dict_get "knowledge_units" d)); try apply built_empty.
  apply built_load_units, built_empty.
Qed.

(** *** Loading a snapshot with a bad entry *)

Lemma construction_raises_parse_unit data :
  construction_raises data -> raises (parse_unit data).
Proof.
  intros Hbad. destruct data as [| | | | | | fields]; try (by eexists).
  unfold parse_unit, getitem.
  destruct (dict_get "id" fields) as [raw_id |] eqn:Hid; [| by eexists]. simpl.
  destruct (as_str raw_id); [| by eexists]. simpl.
  destruct (dict_get "content" fields) as [raw_content |] eqn:Hcontent;
    [| by eexists]. simpl.
  destruct (as_str raw_content); [| by eexists]. simpl.
  destruct (dict_get "domain" fields) as [raw_domain |] eqn:Hdomain; [| by eexists].
  simpl. destruct (as_str raw_domain); [| by eexists]. simpl.
  destruct (dict_get "source_task_id" fields) as [raw_source |] eqn:Hsource;
    [| by eexists]. simpl.
  destruct (as_str raw_source); [| by eexists]. simpl.
  destruct (dict_get "creation_time" fields) as [raw_time |] eqn:Htime;
    [| by eexists]. simpl.
  destruct Hbad as [(key & Hkey & Hnone) | (value & Hvalue & Hraise)].
  - exfalso. repeat (apply elem_of_cons in Hkey as [-> | Hkey]; [congruence |]).
    by apply elem_of_nil in Hkey.
  - assert (value = raw_time) as -> by congruence.
    destruct raw_time; try (by eexists).
    destruct Hraise as [e He]. simpl. rewrite He. by eexists.
Qed.

(** [load_knowledge_base] leaves the store empty when there is no file or the
    file holds no JSON object; the entries that are read into units are
    loaded in order up to the first entry on which the constructor call
    raises, which is dropped with everything after it. *)
Theorem load_knowledge_base_stops_at_bad_entry (path : string) (files : disk) :
  (files !! path = None -> __init__ path files = empty_store path)
  /\ (forall content,
        files !! path = Some content ->
        (forall data, content <> JDict data) ->
        __init__ path files = empty_store path)
  /\ (forall self entries units bad rest,
        Forall2 (fun entry unit => parse_unit entry = Ok unit) entries units ->
        construction_raises bad ->
        load_units self (entries ++ bad :: rest) = foldl insert_unit self units).
Proof.
  split; [| split].
  - intros Hnone. unfold __init__, load_knowledge_base. simpl. by rewrite Hnone.
  - intros content Hsome Hnodict. unfold __init__, load_knowledge_base. simpl.
    rewrite Hsome. destruct content; try reflexivity. by destruct (Hnodict d).
  - intros self entries units bad rest Hgood [e Hbad]%construction_raises_parse_unit.
    revert self.
    induction Hgood as [| entry unit entries units Hentry Hgood IH]; intros self; simpl.
    + by rewrite Hbad.
    + rewrite Hentry. apply IH.
Qed.

Section RoundTrip.

Hypothesis fromisoformat_isoformat : forall t, fromisoformat (isoformat t) = Ok t.

Lemma parse_unit_unit_data unit : parse_unit (unit_data unit) = Ok unit.
Proof using fromisoformat_isoformat.
  unfold parse_unit, unit_data. simpl.
  rewrite fromisoformat_isoformat. simpl.
  rewrite as_str_list_strings. simpl. by destruct unit.
Qed.

Lemma load_units_unit_data units self :
  load_units self (unit_data <$> units) = foldl insert_unit self units.
Proof using fromisoformat_isoformat.
  revert self. induction units as [| unit units IH]; intros self; simpl; [done |].
  by rewrite parse_unit_unit_data, IH.
Qed.

Lemma init_after_save self now files :
  __init__ (kb_path self) (save_knowledge_base self now files)
  = foldl insert_unit (empty_store (kb_path self)) (map_to_list (knowledge_units self)).*2.
Proof using fromisoformat_isoformat.
  unfold __init__, load_knowledge_base, save_knowledge_base. cbn [kb_path].
  rewrite lookup_insert_eq. unfold snapshot. cbn -[fmap map_to_list load_units].
  apply load_units_unit_data.
Qed.

(** C7, as amended.  For a store whose units are filed under their own ids
    (every store built by adding units is one), loading a saved snapshot into
    a fresh store gives the same primary map, with every field of every unit
    equal, and indexes rebuilt from the loaded units: an id is under a domain
    or tag exactly when the loaded unit has it.  The rebuilt indexes have the
    membership of the indexes before saving whenever those were exact. *)
Theorem save_load_round_trip self (now : datetime) (files : disk) :
  keys_ok self ->
  let reloaded := __init__ (kb_path self) (save_knowledge_base self now files) in
  knowledge_units reloaded = knowledge_units self
  /\ kb_path reloaded = kb_path self
  /\ keys_ok reloaded
  /\ indexes_exact reloaded
  /\ (indexes_exact self ->
      (forall key x,
          x ∈ index_get (domain_index reloaded) key
          <-> x ∈ index_get (domain_index self) key)
      /\ (forall key x,
            x ∈ index_get (tag_index reloaded) key
            <-> x ∈ index_get (tag_index self) key)).
Proof using fromisoformat_isoformat.
  intros Hok. cbn zeta. rewrite init_after_save.
  destruct (stored_units self Hok) as [Hnodup Hstored].
  set (units := (map_to_list (knowledge_units self)).*2) in *.
  assert (Hunits : knowledge_units (foldl insert_unit (empty_store (kb_path self)) units)
                   = knowledge_units self).
  { apply map_eq. intros key.
    destruct (lookup_foldl_insert_unit units (empty_store (kb_path self)) key Hnodup)
      as [Hin Hout].
    destruct (knowledge_units self !! key) as [unit |] eqn:Hkey.
    - pose proof (Hok _ _ Hkey) as Hid. apply Hin; [| done].
      apply Hstored. by rewrite Hid.
    - rewrite Hout; [apply lookup_empty |].
      intros unit Hunit%Hstored Hid. congruence. }
  assert (Hexact : indexes_exact (foldl insert_unit (empty_store (kb_path self)) units)).
  { split; intros key x.
    - rewrite elem_of_domain_index_foldl, Hunits.
      unfold index_get at 1. simpl. rewrite lookup_empty. simpl. rewrite elem_of_nil.
      split.
      + intros [[] | (unit & Hin%Hstored & Hd & Hid)]. exists unit. by rewrite <- Hid.
      + intros (unit & Hkey & Hd). right. exists unit.
        pose proof (Hok _ _ Hkey) as Hid. split; [| done].
        apply Hstored. by rewrite Hid.
    - rewrite elem_of_tag_index_foldl, Hunits.
      unfold index_get at 1. simpl. rewrite lookup_empty. simpl. rewrite elem_of_nil.
      split.
      + intros [[] | (unit & Hin%Hstored & Hd & Hid)]. exists unit. by rewrite <- Hid.
      + intros (unit & Hkey & Hd). right. exists unit.
        pose proof (Hok _ _ Hkey) as Hid. split; [| done].
        apply Hstored. by rewrite Hid. }
  split; [exact Hunits |]. split; [by rewrite kb_path_foldl_insert_unit |].
  split; [| split; [exact Hexact |]].
  - intros key unit. rewrite Hunits. apply Hok.
  - intros [Hdomain Htag]. destruct Hexact as [Hdomain' Htag'].
    split; intros key x.
    + rewrite Hdomain', Hdomain, Hunits. done.
    + rewrite Htag', Htag, Hunits. done.
Qed.

(** *** Write-through *)

Lemma reload_units self now files :
  keys_ok self ->
  knowledge_units (__init__ (kb_path self) (save_knowledge_base self now files))
  = knowledge_units self.
Proof using fromisoformat_isoformat.
  intros Hok. rewrite init_after_save.
  destruct (stored_units self Hok) as [Hnodup Hstored].
  apply map_eq. intros key.
  destruct (lookup_foldl_insert_unit (map_to_list (knowledge_units self)).*2
              (empty_store (kb_path self)) key Hnodup) as [Hin Hout].
  destruct (knowledge_units self !! key) as [unit |] eqn:Hkey.
  - pose proof (Hok _ _ Hkey) as Hid. apply Hin; [| done].
    apply Hstored. by rewrite Hid.
  - rewrite Hout; [apply lookup_empty |].
    intros unit Hunit%Hstored Hid. congruence.
Qed.

(** After [add_knowledge_unit] with [save=True] on a store the methods
    produce, a [KnowledgeBase] constructed from the disk holds the same units
    as the store in memory, the added unit among them, and every other unit
    as before the call. *)
Theorem add_knowledge_unit_write_through self unit (now : datetime) (files : disk) :
  built self ->
  let after := add_knowledge_unit self unit true now files in
  let reloaded := __init__ (kb_path self) after.2 in
  knowledge_units reloaded = knowledge_units after.1
  /\ knowledge_units reloaded !! id unit = Some unit
  /\ (forall key, key <> id unit ->
        knowledge_units reloaded !! key = knowledge_units self !! key).
Proof using fromisoformat_isoformat.
  intros Hbuilt. cbn zeta. unfold add_knowledge_unit. cbn [fst snd].
  assert (Hunits : knowledge_units
                     (__init__ (kb_path self)
                        (save_knowledge_base (insert_unit self unit) now files))
                   = knowledge_units (insert_unit self unit)).
  { apply (reload_units (insert_unit self unit)).
    apply keys_ok_insert. by apply built_store_invariant. }
  split; [exact Hunits |]. rewrite Hunits. split.
  - rewrite lookup_insert_unit. by rewrite decide_True.
  - intros key Hne. rewrite lookup_insert_unit. by rewrite decide_False.
Qed.

(** [update_knowledge_usage] on a stored id adds 1 to the usage count of that
    unit, changes nothing else in it, and writes through: a [KnowledgeBase]
    constructed from the disk holds the unit with the new count.  On an id
    that is not stored, neither the store nor the disk changes. *)
Theorem update_knowledge_usage_write_through self (unit_id : string) (now : datetime)
    (files : disk) :
  built self ->
  let after := update_knowledge_usage self unit_id now files in
  let reloaded := __init__ (kb_path self) after.2 in
  (knowledge_units self !! unit_id = None -> after = (self, files))
  /\ (forall unit,
        knowledge_units self !! unit_id = Some unit ->
        knowledge_units reloaded = knowledge_units after.1
        /\ exists unit',
            knowledge_units reloaded !! unit_id = Some unit'
            /\ usage_count unit' = (usage_count unit + 1)%Z
            /\ id unit' = id unit
            /\ content unit' = content unit
            /\ domain unit' = domain unit
            /\ source_task_id unit' = source_task_id unit
            /\ creation_time unit' = creation_time unit
            /\ quality_score unit' = quality_score unit
            /\ tags unit' = tags unit).
Proof using fromisoformat_isoformat.
  intros Hbuilt. cbn zeta. split.
  - intros Hnone. unfold update_knowledge_usage. by rewrite Hnone.
  - intros unit Hunit.
    pose proof (built_usage self unit_id now files Hbuilt) as Hafter.
    apply built_store_invariant in Hafter as [Hok _].
    pose proof (lookup_update_knowledge_usage self unit_id now files unit_id) as Hlookup.
    rewrite Hunit, decide_True in Hlookup by done.
    revert Hok Hlookup. unfold update_knowledge_usage. rewrite Hunit. cbn [fst snd].
    intros Hok Hlookup.
    match goal with
    | |- context [save_knowledge_base ?s now files] =>
        pose proof (reload_units s now files Hok) as Hunits
    end.
    cbn [kb_path] in Hunits. rewrite Hunits.
    split; [reflexivity |]. eexists. split; [exact Hlookup |]. by repeat split.
Qed.

End RoundTrip.

End Store.

Arguments Build_KnowledgeUnit {datetime} _ _ _ _ _ _ _ _.
Arguments id {datetime} _.
Arguments content {datetime} _.
Arguments domain {datetime} _.
Arguments tags {datetime} _.
Arguments quality_score {datetime} _.
Arguments usage_count {datetime} _.
Arguments kb_path {datetime} _.
Arguments knowledge_units {datetime} _.
Arguments domain_index {datetime} _.
Arguments tag_index {datetime} _.
Arguments empty_store {datetime} _.
Arguments insert_unit {datetime} _ _.
Arguments find_relevant_knowledge {datetime} _ _ _ _ _.
Arguments ids_by_domain {datetime} _ _.
Arguments candidates_after_tags {datetime} _ _ _.
Arguments indexes_exact {datetime} _.
Arguments keys_ok {datetime} _.
Arguments __init__ {datetime} _ _ _.
Arguments save_knowledge_base {datetime} _ _ _ _.

(** *** A store with one unit *)

(** A unit of domain [finance] tagged [risk].  In the examples a [datetime]
    is its own ISO text, so [isoformat] is the identity and [fromisoformat]
    always succeeds. *)
Definition basel_unit : KnowledgeUnit string :=
  {| id := "task1_0_ab12cd34"; content := "Basel III raises capital ratios";
     domain := "finance"; source_task_id := "task1"; creation_time := "2024-01-15T10:30:00";
     usage_count := 0; quality_score := 4; tags := ["risk"; "banking"] |}.

Definition basel_store : KnowledgeBase string :=
  insert_unit (empty_store "kb.json") basel_unit.

Example contains_substring :
  contains "basel iii raises capital ratios" "capital" = true
  /\ contains "basel iii" "" = true
  /\ contains "basel iii" "legal" = false.
Proof. repeat split. Qed.

(** The sort is stable and puts the best unit first. *)
Example sort_by_quality_stable :
  id <$> sort_by_quality string
           [ {| id := "a"; content := ""; domain := "d"; source_task_id := "t";
                creation_time := ""; usage_count := 0; quality_score := 3; tags := [] |};
             {| id := "b"; content := ""; domain := "d"; source_task_id := "t";
                creation_time := ""; usage_count := 0; quality_score := 5; tags := [] |};
             {| id := "c"; content := ""; domain := "d"; source_task_id := "t";
                creation_time := ""; usage_count := 0; quality_score := 3; tags := [] |} ]
  = ["b"; "a"; "c"].
Proof. reflexivity. Qed.

(** C3, counterexample.  Nothing is indexed under [legal], yet asking for
    [legal] with the tag [risk] returns the [finance] unit: the empty domain
    candidate set is replaced by the tag matches. *)
Lemma find_relevant_knowledge_other_domain :
  index_get (domain_index basel_store) "legal" = []
  /\ find_relevant_knowledge (fun s => s) basel_store "legal" (Some ["risk"]) None
     = [basel_unit]
  /\ domain basel_unit <> "legal".
Proof. split; [reflexivity |]. split; [vm_compute; reflexivity | discriminate]. Qed.

Lemma indexes_exact_basel_store : indexes_exact basel_store.
Proof.
  apply indexes_exact_insert_fresh; [apply lookup_empty | apply indexes_exact_empty].
Qed.

Lemma find_relevant_knowledge_within_domain_finance :
  find_relevant_knowledge (fun s => s) basel_store "finance" (Some ["risk"]) None
  = [basel_unit]
  /\ (exists x, x ∈ index_get (domain_index basel_store) "finance"
                /\ knowledge_units basel_store !! x = Some basel_unit)
  /\ domain basel_unit = "finance".
Proof.
  assert (Hfound : find_relevant_knowledge (fun s => s) basel_store "finance"
                     (Some ["risk"]) None = [basel_unit])
    by (vm_compute; reflexivity).
  split; [exact Hfound |].
  assert (Hdomain : ids_by_domain basel_store "finance" <> ∅)
    by (vm_compute; discriminate).
  destruct (proj1 (find_relevant_knowledge_within_domain string (fun s => s) basel_store
                     "finance" (Some ["risk"]) None)
              Hdomain (or_introl eq_refl) basel_unit) as [Hindexed Hhas].
  - rewrite Hfound. apply list_elem_of_singleton. reflexivity.
  - split; [exact Hindexed | exact (Hhas indexes_exact_basel_store)].
Defined.

(** *** Saving and loading a store with a stale index entry (C7) *)

(** The unit of [basel_store] extracted again under the domain [legal] and
    without tags: same id, as the id is built from the task, the position and
    the content only. *)
Definition basel_unit_refiled : KnowledgeUnit string :=
  {| id := "task1_0_ab12cd34"; content := "Basel III raises capital ratios";
     domain := "legal"; source_task_id := "task1"; creation_time := "2024-01-16T09:00:00";
     usage_count := 0; quality_score := 4; tags := [] |}.

Definition refiled_store : KnowledgeBase string :=
  insert_unit basel_store basel_unit_refiled.

(** C5, counterexample.  The id of [basel_unit] is added a second time, with
    the unit refiled under [legal]: the number of units stays 1, but the id is
    now indexed under [legal] as well, where nothing was indexed before. *)
Lemma add_same_id_under_other_domain :
  id basel_unit_refiled = id basel_unit
  /\ size (knowledge_units
             (add_knowledge_unit string (fun t => t) (empty_store "kb.json") basel_unit
                true "2024-02-01T00:00:00" ∅).1) = 1
  /\ index_get
       (domain_index
          (add_knowledge_unit string (fun t => t) (empty_store "kb.json") basel_unit
             true "2024-02-01T00:00:00" ∅).1) "legal" = []
  /\ size (knowledge_units
             (add_knowledge_unit string (fun t => t)
                (add_knowledge_unit string (fun t => t) (empty_store "kb.json")
                   basel_unit true "2024-02-01T00:00:00" ∅).1
                basel_unit_refiled true "2024-02-02T00:00:00"
                (add_knowledge_unit string (fun t => t) (empty_store "kb.json")
                   basel_unit true "2024-02-01T00:00:00" ∅).2).1) = 1
  /\ index_get
       (domain_index
          (add_knowledge_unit string (fun t => t)
             (add_knowledge_unit string (fun t => t) (empty_store "kb.json")
                basel_unit true "2024-02-01T00:00:00" ∅).1
             basel_unit_refiled true "2024-02-02T00:00:00"
             (add_knowledge_unit string (fun t => t) (empty_store "kb.json")
                basel_unit true "2024-02-01T00:00:00" ∅).2).1) "legal"
     = ["task1_0_ab12cd34"].
Proof.
  split; [| split; [| split; [| split]]]; vm_compute; reflexivity.
Qed.

Lemma add_knowledge_unit_twice_refiled :
  id basel_unit_refiled = id basel_unit
  /\ size (knowledge_units refiled_store) = size (knowledge_units basel_store)
  /\ ~ (forall key x,
          x ∈ index_get (domain_index refiled_store) key
          <-> x ∈ index_get (domain_index basel_store) key)
  /\ (forall key x,
        x ∈ index_get (tag_index refiled_store) key
        <-> x ∈ index_get (tag_index basel_store) key).
Proof.
  destruct (add_knowledge_unit_twice string (fun t => t) (empty_store "kb.json")
              basel_unit basel_unit_refiled false false
              "2024-02-01T00:00:00" "2024-02-02T00:00:00" ∅ eq_refl)
    as (Hsize & _ & _ & _ & Hdomain & Htag & _).
  split; [reflexivity |]. split; [exact Hsize |]. split.
  - intros Hsame. apply Hdomain in Hsame. vm_compute in Hsame.
    apply elem_of_nil in Hsame. exact Hsame.
  - apply Htag. intros tag Hin. exfalso. exact (proj1 (elem_of_nil tag) Hin).
Defined.

(** C7, counterexample.  After the same id has been added under [finance]
    and then under [legal], the domain index still lists it under [finance];
    the store loaded from the saved snapshot does not. *)
Lemma reload_drops_stale_index_entry :
  keys_ok refiled_store
  /\ "task1_0_ab12cd34" ∈ index_get (domain_index refiled_store) "finance"
  /\ index_get
       (domain_index
          (__init__ Ok "kb.json"
             (save_knowledge_base (fun t => t) refiled_store "2024-02-01T00:00:00" ∅)))
       "finance" = [].
Proof.
  split; [| split].
  - apply keys_ok_insert, keys_ok_insert, keys_ok_empty.
  - vm_compute. apply list_elem_of_here.
  - vm_compute. reflexivity.
Qed.

Lemma save_load_round_trip_basel_store :
  let reloaded :=
    __init__ Ok "kb.json"
      (save_knowledge_base (fun t => t) basel_store "2024-02-01T00:00:00" ∅) in
  knowledge_units reloaded = knowledge_units basel_store
  /\ (forall key x,
        x ∈ index_get (domain_index reloaded) key
        <-> x ∈ index_get (domain_index basel_store) key)
  /\ (forall key x,
        x ∈ index_get (tag_index reloaded) key
        <-> x ∈ index_get (tag_index basel_store) key).
Proof.
  destruct (save_load_round_trip string (fun t => t) Ok (fun t => eq_refl)
              basel_store "2024-02-01T00:00:00" ∅
              (keys_ok_insert _ _ _ (keys_ok_empty _ "kb.json")))
    as (Hunits & _ & _ & _ & Hindexes).
  split; [exact Hunits |]. exact (Hindexes indexes_exact_basel_store).
Defined.

(** *** The store with one unit, continued *)

Lemma built_basel_store : built string (fun t => t) basel_store.
Proof. apply built_insert, built_empty. Qed.

Lemma find_relevant_knowledge_sorted_finance :
  StronglySorted (better_first string)
    (find_relevant_knowledge (fun s => s) refiled_store "finance" None None)
  /\ NoDup (id <$> find_relevant_knowledge (fun s => s) refiled_store "finance" None None).
Proof.
  destruct (find_relevant_knowledge_sorted string (fun s => s) refiled_store
              "finance" None None) as [Hsorted Hnodup].
  split; [exact Hsorted |]. apply Hnodup.
  apply keys_ok_insert, keys_ok_insert, keys_ok_empty.
Defined.

Lemma find_relevant_knowledge_filters_finance :
  basel_unit
  ∈ find_relevant_knowledge (fun s => s) basel_store "finance"
      (Some ["risk"; "tax"]) (Some ["capital"]).
Proof.
  apply (find_relevant_knowledge_filters string (fun s => s) basel_store "finance"
           (Some ["risk"; "tax"]) (Some ["capital"])).
  - apply keys_ok_insert, keys_ok_empty.
  - apply indexes_exact_basel_store.
  - right. vm_compute. discriminate.
  - right. vm_compute. discriminate.
  - split; [reflexivity |]. split; [reflexivity |]. split.
    + right. exists "risk". split; set_solver.
    + right. reflexivity.
Defined.

Lemma built_store_invariant_refiled :
  keys_ok refiled_store
  /\ "task1_0_ab12cd34" ∈ index_get (domain_index refiled_store) "legal"
  /\ "task1_0_ab12cd34" ∈ index_get (domain_index refiled_store) "finance".
Proof.
  destruct (built_store_invariant string (fun t => t) refiled_store
              (built_insert _ _ _ _ built_basel_store))
    as (Hok & _ & _ & Hlisted).
  split; [exact Hok |]. split.
  - apply (proj1 (Hlisted "task1_0_ab12cd34" basel_unit_refiled eq_refl)).
  - vm_compute. apply list_elem_of_here.
Defined.

Lemma load_knowledge_base_stops_at_entry_without_id :
  load_units string Ok (empty_store "kb.json")
    ([unit_data string (fun t => t) basel_unit]
       ++ JDict [ ("content", JStr "no id") ]
       :: [unit_data string (fun t => t) basel_unit_refiled])
  = basel_store.
Proof.
  apply (proj2 (proj2 (load_knowledge_base_stops_at_bad_entry string Ok "kb.json" ∅))
           (empty_store "kb.json") [unit_data string (fun t => t) basel_unit]
           [basel_unit]).
  - constructor; [reflexivity | constructor].
  - left. exists "id". split; [apply list_elem_of_here | reflexivity].
Defined.

Lemma add_knowledge_unit_write_through_basel :
  knowledge_units
    (__init__ Ok "kb.json"
       (add_knowledge_unit string (fun t => t) (empty_store "kb.json") basel_unit true
          "2024-02-01T00:00:00" ∅).2)
  !! "task1_0_ab12cd34" = Some basel_unit.
Proof.
  exact (proj1 (proj2 (add_knowledge_unit_write_through string (fun t => t) Ok
                         (fun t => eq_refl) (empty_store "kb.json") basel_unit
                         "2024-02-01T00:00:00" ∅ (built_empty _ _ "kb.json")))).
Defined.

Lemma update_knowledge_usage_write_through_basel :
  exists unit',
    knowledge_units
      (__init__ Ok "kb.json"
         (update_knowledge_usage string (fun t => t) basel_store "task1_0_ab12cd34"
            "2024-02-01T00:00:00" ∅).2)
    !! "task1_0_ab12cd34" = Some unit'
    /\ usage_count unit' = 1%Z.
Proof.
  destruct (proj2 (update_knowledge_usage_write_through string (fun t => t) Ok
                     (fun t => eq_refl) basel_store "task1_0_ab12cd34"
                     "2024-02-01T00:00:00" ∅ built_basel_store)
              basel_unit eq_refl)
    as (_ & unit' & Hlookup & Husage & _).
  exists unit'. split; [exact Hlookup | exact Husage].
Defined.

End KnowledgeBase.

(** ** [utils/strategic_evaluator.py]: sub-scoring and consistency *)

Module StrategicEvaluator.
Import Py.

(** [re.search(r'\{[^}]+\}', text)], the matched text.  A match starts at an
    opening brace that is followed by at least one character other than a
    closing brace, and runs to the first closing brace after it. *)
Fixpoint up_to_closing_brace (text : string) : option string :=
  match text with
  | EmptyString => None
  | String c rest =>
      if Ascii.eqb c "}"%char then Some "}"
      else option_map (String c) (up_to_closing_brace rest)
  end.

Fixpoint search_braces (text : string) : option string :=
  match text with
  | EmptyString => None
  | String c rest =>
      if Ascii.eqb c "{"%char then
        match rest with
        | EmptyString => None
        | String c' rest' =>
            if Ascii.eqb c' "}"%char then search_braces rest
            else option_map (fun tail => String c (String c' tail)) (up_to_closing_brace rest')
        end
      else search_braces rest
  end.

(** The answer of [ai_client.generate]: it raises, or returns the message
    content, which may be [None]. *)
Definition response : Type := outcome (option string).

(** The keys of the two score dicts. *)
Definition task_capability_keys : list string :=
  [ "multi_step_reasoning_score"; "domain_expertise_score";
    "synthesis_capability_score"; "independence_score" ].

Definition knowledge_capability_keys : list string :=
  [ "knowledge_extraction_score"; "knowledge_organization_score";
    "knowledge_reuse_potential"; "knowledge_quality_score" ].

(** The dict returned after the [except] clause: every score 3.0. *)
Definition default_scores (keys : list string) : list (string * Q) :=
  (fun key => (key, 3%Q)) <$> keys.

(** [scores[key]] on a returned dict. *)
Fixpoint score (key : string) (scores : list (string * Q)) : option Q :=
  match scores with
  | [] => None
  | (k, v) :: scores' => if String.eqb k key then Some v else score key scores'
  end.

(** ASCII instances of [str.lower] and [str.split] for the examples. *)
Definition ascii_lower_char (c : ascii) : ascii :=
  let n := nat_of_ascii c in
  if (65 <=? n)%nat && (n <=? 90)%nat then ascii_of_nat (n + 32) else c.

Fixpoint ascii_lower (text : string) : string :=
  match text with
  | EmptyString => EmptyString
  | String c rest => String (ascii_lower_char c) (ascii_lower rest)
  end.

Fixpoint split_from (word text : string) : list string :=
  match text with
  | EmptyString => if String.eqb word "" then [] else [word]
  | String c rest =>
      if Ascii.eqb c " "%char
      then (if String.eqb word "" then split_from "" rest else word :: split_from "" rest)
      else split_from (word +:+ String c "") rest
  end.

Definition ascii_split (text : string) : list string := split_from "" text.

Section Evaluator.

(** [json.loads] and [float] applied to a string are Python's, and so are
    [str.lower] and [str.split]; [datetime] is as in the knowledge base. *)
Variable json_loads : string -> outcome json.
Variable float_of_str : string -> outcome Q.
Variable datetime : Type.
Variable lower : string -> string.
Variable split : string -> list string.

(** [float(x)]. *)
Definition to_float (x : json) : outcome Q :=
  match x with
  | JInt z => Ok (inject_Z z)
  | JFloat q => Ok q
  | JBool b => Ok (if b then 1 else 0)%Q
  | JStr s => float_of_str s
  | _ => Raise "TypeError"
  end.

(** The dict literal [{key: float(result.get(key, 3.0)), ...}], entry by
    entry. *)
Fixpoint read_scores (result : dict) (keys : list string) : outcome (list (string * Q)) :=
  match keys with
  | [] => Ok []
  | key :: keys' =>
      value ← to_float (default (JFloat 3) (dict_get key result));
      rest ← read_scores result keys';
      Ok ((key, value) :: rest)
  end.

(** The [try] block: [Ok None] when it ends without returning (no match),
    [Raise] when any call in it raises. *)
Definition try_scores (keys : list string) (answer : response)
    : outcome (option (list (string * Q))) :=
  content ← answer;
  text ← match content with
         | Some text => Ok text
         | None => Raise "TypeError"
         end;
  match search_braces text with
  | Some matched =>
      result ← json_loads matched;
      fields ← match result with
               | JDict fields => Ok fields
               | _ => Raise "AttributeError"
               end;
      scores ← read_scores fields keys;
      Ok (Some scores)
  | None => Ok None
  end.

(** The [try] block, the [except] clause that only logs, and the default
    dict after them. *)
Definition sub_scores (keys : list string) (answer : response) : list (string * Q) :=
  match try_scores keys answer with
  | Ok (Some scores) => scores
  | Ok None => default_scores keys
  | Raise _ => default_scores keys
  end.

(** [evaluate_complex_task_capability], given the answer of the service to
    [evaluation_prompt]. *)
Definition evaluate_complex_task_capability (answer : response) : list (string * Q) :=
  sub_scores task_capability_keys answer.

(** [evaluate_knowledge_capabilities], given the answer of the service to
    [knowledge_evaluation_prompt]. *)
Definition evaluate_knowledge_capabilities (answer : response) : list (string * Q) :=
  sub_scores knowledge_capability_keys answer.

(** What the specification asks of a sub-scoring step [f] with score keys
    [keys]: a complete dict whatever the service answers, and 3.0 for every
    score the answer does not provide. *)
Definition neutral_default_policy (keys : list string)
    (f : response -> list (string * Q)) : Prop :=
  forall answer : response,
    (f answer).*1 = keys
    /\ (forall key, key ∈ keys -> exists value, score key (f answer) = Some value)
    /\ (raises answer -> f answer = default_scores keys)
    /\ (answer = Ok None -> f answer = default_scores keys)
    /\ (forall text,
          answer = Ok (Some text) ->
          (search_braces text = None -> f answer = default_scores keys)
          /\ (forall matched,
                search_braces text = Some matched ->
                (raises (json_loads matched) -> f answer = default_scores keys)
                /\ (forall result,
                      json_loads matched = Ok result ->
                      (forall fields, result <> JDict fields) ->
                      f answer = default_scores keys)
                /\ (forall fields key,
                      json_loads matched = Ok (JDict fields) ->
                      key ∈ keys ->
                      dict_get key fields = None ->
                      score key (f answer) = Some 3%Q))).

(** [set(text.lower().split())]. *)
Definition words (text : string) : gset string :=
  list_to_set (split (lower text)).

(** [len(s)] of a set as a float operand. *)
Definition len (s : gset string) : Q := inject_Z (Z.of_nat (size s)).

(** One turn of the inner loop of [calculate_knowledge_consistency]:
    [max_similarity] after [existing_unit] has been compared. *)
Definition compare_with (new_unit : KnowledgeBase.KnowledgeUnit datetime)
    (max_similarity : Q) (existing_unit : KnowledgeBase.KnowledgeUnit datetime) : Q :=
  let new_words := words (KnowledgeBase.content new_unit) in
  let existing_words := words (KnowledgeBase.content existing_unit) in
  if bool_decide (new_words <> ∅) && bool_decide (existing_words <> ∅) then
    let intersection := len (new_words ∩ existing_words) in
    let union := len (new_words ∪ existing_words) in
    let similarity := if Qlt_le_dec 0 union then (intersection / union)%Q else 0%Q in
    py_max max_similarity similarity
  else max_similarity.

(** The inner loop: the score appended for [new_unit]. *)
Definition max_similarity (existing_units : list (KnowledgeBase.KnowledgeUnit datetime))
    (new_unit : KnowledgeBase.KnowledgeUnit datetime) : Q :=
  foldl (compare_with new_unit) 0%Q (take 10 existing_units).

(** [sum(scores)]. *)
Definition sum (scores : list Q) : Q := foldl Qplus 0%Q scores.

(** [calculate_knowledge_consistency(new_units, domain)]. *)
Definition calculate_knowledge_consistency
    (knowledge_base : KnowledgeBase.KnowledgeBase datetime)
    (new_units : list (KnowledgeBase.KnowledgeUnit datetime)) (domain : string) : Q :=
  match new_units with
  | [] => 1%Q
  | _ :: _ =>
      let existing_units :=
        KnowledgeBase.find_relevant_knowledge lower knowledge_base domain None None in
      match existing_units with
      | [] => 1%Q
      | _ :: _ =>
          let consistency_scores := max_similarity existing_units <$> new_units in
          (sum consistency_scores / inject_Z (Z.of_nat (length consistency_scores)))%Q
      end
  end.

(** *** The specification's wording of the consistency score *)

(** Jaccard similarity of two token sets. *)
Definition jaccard (a b : gset string) : Q := (len (a ∩ b) / len (a ∪ b))%Q.

(** [m] is the maximum of the values [values]. *)
Definition is_maximum (m : Q) (values : list Q) : Prop :=
  (exists value, value ∈ values /\ (value == m)%Q)
  /\ (forall value, value ∈ values -> (value <= m)%Q).

(** The mean of a list of values. *)
Definition mean (values : list Q) : Q :=
  (foldr Qplus 0 values / inject_Z (Z.of_nat (length values)))%Q.

(** The similarities of [new_unit] against the top 10 of [existing_units]. *)
Definition similarities (existing_units : list (KnowledgeBase.KnowledgeUnit datetime))
    (new_unit : KnowledgeBase.KnowledgeUnit datetime) : list Q :=
  (fun existing_unit =>
     jaccard (words (KnowledgeBase.content new_unit))
             (words (KnowledgeBase.content existing_unit)))
    <$> take 10 existing_units.

(** *** The payload pattern on sample answers *)

Example search_braces_first_group :
  search_braces "Scores: {a: 1} and {b: 2}" = Some "{a: 1}".
Proof. reflexivity. Qed.

Example search_braces_skips_empty_group : search_braces "{}{x}" = Some "{x}".
Proof. reflexivity. Qed.

Example search_braces_no_group :
  search_braces "no payload" = None /\ search_braces "{unclosed" = None
  /\ search_braces "{}" = None.
Proof. repeat split. Qed.

Example ascii_split_words :
  ascii_split (ascii_lower "  Basel III  raises ") = ["basel"; "iii"; "raises"].
Proof. reflexivity. Qed.

(** *** Sub-scoring falls back to 3.0 (C8) *)

Lemma default_scores_keys keys : (default_scores keys).*1 = keys.
Proof.
  unfold default_scores. rewrite <- list_fmap_compose.
  induction keys as [| key keys IH]; [done |]. rewrite fmap_cons. by f_equal.
Qed.

Lemma score_default_scores keys key :
  key ∈ keys -> score key (default_scores keys) = Some 3%Q.
Proof.
  induction keys as [| first keys IH]; [by intros ?%elem_of_nil |].
  intros Hin. unfold default_scores. rewrite fmap_cons. simpl.
  destruct (String.eqb_spec first key) as [| Hne]; [done |].
  apply elem_of_cons in Hin as [-> | Hin]; [done | by apply IH].
Qed.

Lemma score_present (scores : list (string * Q)) key :
  key ∈ scores.*1 -> exists value, score key scores = Some value.
Proof.
  induction scores as [| [k v] scores IH]; [by intros ?%elem_of_nil |].
  rewrite fmap_cons. simpl. intros Hin.
  destruct (String.eqb_spec k key) as [| Hne]; [by eauto |].
  apply elem_of_cons in Hin as [-> | Hin]; [done | by apply IH].
Qed.

Lemma read_scores_keys fields keys scores :
  read_scores fields keys = Ok scores -> scores.*1 = keys.
Proof.
  revert scores. induction keys as [| key keys IH]; intros scores; simpl.
  - by intros [= <-].
  - intros H. bind_inv H. injection H as <-.
    rewrite fmap_cons. simpl. f_equal. by apply IH.
Qed.

Lemma read_scores_missing fields keys scores key :
  read_scores fields keys = Ok scores ->
  key ∈ keys ->
  dict_get key fields = None ->
  score key scores = Some 3%Q.
Proof.
  revert scores. induction keys as [| first keys IH]; intros scores; simpl.
  - by intros _ ?%elem_of_nil.
  - intros H Hin Hmissing. bind_inv H. injection H as <-. simpl.
    destruct (String.eqb_spec first key) as [-> | Hne].
    + rewrite Hmissing in Hv. simpl in Hv. by injection Hv as <-.
    + apply elem_of_cons in Hin as [-> | Hin]; [done | by eapply IH].
Qed.

Lemma sub_scores_policy keys : neutral_default_policy keys (sub_scores keys).
Proof.
  intros answer.
  assert (Hkeys : (sub_scores keys answer).*1 = keys).
  { unfold sub_scores. destruct (try_scores keys answer) as [[scores |] | e] eqn:Htry;
      try apply default_scores_keys.
    unfold try_scores in Htry. bind_inv Htry.
    destruct (search_braces v0); [| discriminate].
    bind_inv Htry. injection Htry as <-. by eapply read_scores_keys. }
  split; [exact Hkeys |]. split; [| split; [| split]].
  - intros key Hin. apply score_present. by rewrite Hkeys.
  - intros [e ->]. reflexivity.
  - intros ->. reflexivity.
  - intros text ->. unfold sub_scores, try_scores. simpl. split.
    + intros ->. reflexivity.
    + intros matched ->. split; [| split].
      * intros [e ->]. reflexivity.
      * intros result -> Hnodict. simpl. destruct result; try reflexivity.
        by destruct (Hnodict d).
      * intros fields key -> Hin Hmissing. simpl.
        destruct (read_scores fields keys) as [scores | e] eqn:Hread; simpl.
        -- by eapply read_scores_missing.
        -- by apply score_default_scores.
Qed.

(** C8.  Both sub-scoring steps return a dict with their four keys whatever
    the service answers.  A service error, an answer without content, an
    answer with no brace-delimited payload, a payload that [json.loads]
    rejects or that is no object all give 3.0 for every score; a parsed
    object gives 3.0 for every score key it lacks. *)
Theorem sub_scoring_substitutes_neutral_default :
  neutral_default_policy task_capability_keys evaluate_complex_task_capability
  /\ neutral_default_policy knowledge_capability_keys evaluate_knowledge_capabilities.
Proof. split; apply sub_scores_policy. Qed.

(** *** Similarities and their maximum *)

Lemma ratio_unit_interval (n m : nat) :
  n <= m -> (0 <= inject_Z (Z.of_nat n) / inject_Z (Z.of_nat m) <= 1)%Q.
Proof.
  intros Hle. destruct m as [| m].
  - assert (n = 0) as -> by lia. split; discriminate.
  - assert (Hm : (0 < inject_Z (Z.of_nat (S m)))%Q).
    { rewrite <- (Zlt_Qlt 0). lia. }
    assert (Hn : (0 <= inject_Z (Z.of_nat n))%Q).
    { rewrite <- (Zle_Qle 0). lia. }
    assert (Hnm : (inject_Z (Z.of_nat n) <= inject_Z (Z.of_nat (S m)))%Q).
    { rewrite <- Zle_Qle. lia. }
    split.
    + apply Qle_shift_div_l; [exact Hm | lra].
    + apply Qle_shift_div_r; [exact Hm | lra].
Qed.

Lemma jaccard_unit_interval (a b : gset string) : (0 <= jaccard a b <= 1)%Q.
Proof. forget_unused.
  unfold jaccard, len. apply ratio_unit_interval, subseteq_size. set_solver.
Qed.

Lemma jaccard_empty (a b : gset string) : a = ∅ \/ b = ∅ -> (jaccard a b == 0)%Q.
Proof.
  intros Hempty. unfold jaccard, len.
  assert (a ∩ b = ∅) as -> by (destruct Hempty as [-> | ->]; set_solver).
  rewrite size_empty. reflexivity.
Qed.

Lemma len_positive (a : gset string) : a <> ∅ -> (0 < len a)%Q.
Proof.
  intros Hne. unfold len. rewrite <- (Zlt_Qlt 0).
  assert (size a <> 0) by (by intros ?%size_empty_inv%leibniz_equiv). lia.
Qed.

(** One comparison keeps the larger of the running maximum and the Jaccard
    similarity of the two token sets. *)
Lemma compare_with_jaccard new_unit acc existing_unit :
  (0 <= acc)%Q ->
  let j := jaccard (words (KnowledgeBase.content new_unit))
                   (words (KnowledgeBase.content existing_unit)) in
  let r := compare_with new_unit acc existing_unit in
  ((r == acc)%Q \/ (r == j)%Q) /\ (acc <= r)%Q /\ (j <= r)%Q.
Proof.
  intros Hacc. cbn zeta. unfold compare_with.
  set (a := words (KnowledgeBase.content new_unit)).
  set (b := words (KnowledgeBase.content existing_unit)).
  destruct (decide (a <> ∅)) as [Ha | Ha]; [destruct (decide (b <> ∅)) as [Hb | Hb] |].
  - rewrite !bool_decide_eq_true_2 by done. simpl.
    assert (Hunion : (0 < len (a ∪ b))%Q) by (apply len_positive; set_solver).
    destruct (Qlt_le_dec 0 (len (a ∪ b))) as [_ | Hle]; [| lra].
    fold (jaccard a b). unfold py_max.
    destruct (Qlt_le_dec acc (jaccard a b)); split; try (right; reflexivity);
      try (left; reflexivity); lra.
  - rewrite (bool_decide_eq_false_2 (b <> ∅)) by done. rewrite andb_false_r.
    assert (b = ∅) as Hb' by (destruct (decide (b = ∅)); [done | by destruct Hb]).
    pose proof (jaccard_empty a b (or_intror Hb')) as Hj.
    split; [left; reflexivity | lra].
  - rewrite (bool_decide_eq_false_2 (a <> ∅)) by done. simpl.
    assert (a = ∅) as Ha' by (destruct (decide (a = ∅)); [done | by destruct Ha]).
    pose proof (jaccard_empty a b (or_introl Ha')) as Hj.
    split; [left; reflexivity | lra].
Qed.

Lemma foldl_compare_with new_unit existing_units acc :
  (0 <= acc)%Q ->
  let js := (fun existing_unit =>
               jaccard (words (KnowledgeBase.content new_unit))
                       (words (KnowledgeBase.content existing_unit)))
              <$> existing_units in
  let r := foldl (compare_with new_unit) acc existing_units in
  ((r == acc)%Q \/ exists j, j ∈ js /\ (j == r)%Q)
  /\ (acc <= r)%Q
  /\ (forall j, j ∈ js -> (j <= r)%Q).
Proof.
  cbn zeta. revert acc.
  induction existing_units as [| existing_unit existing_units IH]; intros acc Hacc.
  - simpl. split; [left; reflexivity |]. split; [lra |]. by intros j ?%elem_of_nil.
  - destruct (compare_with_jaccard new_unit acc existing_unit Hacc)
      as (Hstep & Hge & Hj).
    cbn zeta in Hstep, Hge, Hj.
    assert (Hacc' : (0 <= compare_with new_unit acc existing_unit)%Q) by lra.
    destruct (IH _ Hacc') as (Hrest & Hge' & Hjs).
    rewrite fmap_cons. simpl. split; [| split].
    + destruct Hrest as [Hsame | (j & Hin & Heq)].
      * destruct Hstep as [Hkept | Hnew].
        -- left. lra.
        -- right. eexists. split; [apply list_elem_of_here |]. lra.
      * right. exists j. split; [by apply list_elem_of_further | done].
    + lra.
    + intros j [-> | Hin]%elem_of_cons; [lra | by apply Hjs].
Qed.

Lemma max_similarity_is_maximum existing_units new_unit :
  existing_units <> [] ->
  is_maximum (max_similarity existing_units new_unit)
             (similarities existing_units new_unit).
Proof.
  intros Hne. unfold max_similarity, similarities.
  destruct (foldl_compare_with new_unit (take 10 existing_units) 0%Q)
    as (Hattained & _ & Hupper); [lra |].
  cbn zeta in Hattained, Hupper. split; [| exact Hupper].
  destruct Hattained as [Hzero | Hsome]; [| exact Hsome].
  destruct existing_units as [| first rest]; [done |].
  change (take 10 (first :: rest)) with (first :: take 9 rest) in *.
  rewrite fmap_cons in *. eexists. split; [apply list_elem_of_here |].
  pose proof (Hupper _ (list_elem_of_here _ _)) as Hle.
  pose proof (jaccard_unit_interval (words (KnowledgeBase.content new_unit))
                (words (KnowledgeBase.content first))) as [Hge _].
  lra.
Qed.

Lemma max_similarity_unit_interval existing_units new_unit :
  (0 <= max_similarity existing_units new_unit <= 1)%Q.
Proof.
  unfold max_similarity.
  destruct (foldl_compare_with new_unit (take 10 existing_units) 0%Q)
    as (Hattained & Hge & _); [lra |].
  cbn zeta in Hattained, Hge. split; [exact Hge |].
  destruct Hattained as [Hzero | (j & Hin & Heq)]; [lra |].
  apply list_elem_of_fmap in Hin as (existing_unit & -> & _).
  pose proof (jaccard_unit_interval (words (KnowledgeBase.content new_unit))
                (words (KnowledgeBase.content existing_unit))) as [_ Hle].
  lra.
Qed.

(** *** Sums and means *)

Lemma foldl_Qplus (values : list Q) acc :
  (foldl Qplus acc values == acc + foldr Qplus 0 values)%Q.
Proof.
  revert acc. induction values as [| value values IH]; intros acc; simpl; [lra |].
  rewrite IH. lra.
Qed.

Lemma sum_bounds (values : list Q) :
  (forall value, value ∈ values -> (0 <= value <= 1)%Q) ->
  (0 <= foldr Qplus 0 values <= inject_Z (Z.of_nat (length values)))%Q.
Proof.
  induction values as [| value values IH]; intros Hall.
  - simpl. split; [lra | discriminate].
  - destruct (Hall value (list_elem_of_here _ _)) as [H0 H1].
    destruct IH as [IH0 IH1].
    { intros other Hin. apply Hall. by apply list_elem_of_further. }
    change (length (value :: values)) with (S (length values)).
    rewrite Nat2Z.inj_succ. unfold Z.succ. rewrite inject_Z_plus. simpl foldr.
    change (inject_Z 1) with 1%Q. lra.
Qed.

Lemma mean_unit_interval (values : list Q) :
  values <> [] ->
  (forall value, value ∈ values -> (0 <= value <= 1)%Q) ->
  (0 <= mean values <= 1)%Q.
Proof.
  intros Hne Hall. destruct (sum_bounds values Hall) as [H0 H1]. unfold mean.
  assert (Hlen : (0 < inject_Z (Z.of_nat (length values)))%Q).
  { rewrite <- (Zlt_Qlt 0). destruct values; [done | simpl; lia]. }
  split.
  - apply Qle_shift_div_l; [exact Hlen | lra].
  - apply Qle_shift_div_r; [exact Hlen | lra].
Qed.

Lemma sum_over_length_is_mean (values : list Q) :
  (sum values / inject_Z (Z.of_nat (length values)) == mean values)%Q.
Proof. unfold sum, mean. rewrite foldl_Qplus, Qplus_0_l. reflexivity. Qed.

(** *** The consistency score (C6) *)

(** The score by cases: 1 for no new unit and for no existing unit, else the
    mean of the maxima. *)
Lemma calculate_knowledge_consistency_cases
    (knowledge_base : KnowledgeBase.KnowledgeBase datetime)
    (new_units : list (KnowledgeBase.KnowledgeUnit datetime)) (domain : string) :
  let result := calculate_knowledge_consistency knowledge_base new_units domain in
  let existing_units :=
    KnowledgeBase.find_relevant_knowledge lower knowledge_base domain None None in
  (0 <= result <= 1)%Q
  /\ (new_units = [] -> result = 1%Q)
  /\ (existing_units = [] -> result = 1%Q)
  /\ (KnowledgeBase.index_get (KnowledgeBase.domain_index knowledge_base) domain = [] ->
      result = 1%Q)
  /\ (new_units <> [] -> existing_units <> [] ->
      (result == mean (max_similarity existing_units <$> new_units))%Q
      /\ forall new_unit,
          new_unit ∈ new_units ->
          is_maximum (max_similarity existing_units new_unit)
                     (similarities existing_units new_unit)).
Proof.
  cbn zeta. unfold calculate_knowledge_consistency.
  set (existing_units :=
         KnowledgeBase.find_relevant_knowledge lower knowledge_base domain None None).
  assert (Hnone : KnowledgeBase.index_get (KnowledgeBase.domain_index knowledge_base) domain
                  = [] -> existing_units = []).
  { apply KnowledgeBase.find_relevant_knowledge_empty_domain; reflexivity. }
  destruct new_units as [| new_unit new_units].
  { split; [split; discriminate |]. repeat split; try done. }
  destruct existing_units as [| first rest] eqn:Hexisting.
  { split; [split; discriminate |]. repeat split; try done. }
  set (scores := max_similarity (first :: rest) <$> new_unit :: new_units).
  assert (Hscores : forall value, value ∈ scores -> (0 <= value <= 1)%Q).
  { intros value (unit & -> & _)%list_elem_of_fmap. apply max_similarity_unit_interval. }
  assert (Hne : scores <> []) by (unfold scores; rewrite fmap_cons; discriminate).
  pose proof (sum_over_length_is_mean scores) as Hmean.
  pose proof (mean_unit_interval scores Hne Hscores) as Hbounds.
  split; [lra |]. split; [done |]. split; [done |].
  split; [intros Hd; by specialize (Hnone Hd) |].
  intros _ _. split; [exact Hmean |].
  intros unit _. by apply max_similarity_is_maximum.
Qed.

(** C6, as amended.  [calculate_knowledge_consistency] lies in [0,1]; it is
    exactly 1 for an empty list of new units and exactly 1 when no id is
    indexed under the domain or none is found for it; where the indexes agree
    with the units, that is the case when no stored unit has the domain.  The
    existing units are the units filed under the ids that are indexed under
    the domain, in descending order of quality score; the first ten of them
    are compared, and no unit left out has a better quality score than a unit
    compared.  With new and existing units, the score is the mean, over the
    new units, of the maximum Jaccard similarity of the unit's token set
    against the token sets of the units compared. *)
Theorem calculate_knowledge_consistency_mean
    (knowledge_base : KnowledgeBase.KnowledgeBase datetime)
    (new_units : list (KnowledgeBase.KnowledgeUnit datetime)) (domain : string) :
  let result := calculate_knowledge_consistency knowledge_base new_units domain in
  let existing_units :=
    KnowledgeBase.find_relevant_knowledge lower knowledge_base domain None None in
  (0 <= result <= 1)%Q
  /\ (new_units = [] -> result = 1%Q)
  /\ (existing_units = [] -> result = 1%Q)
  /\ (KnowledgeBase.index_get (KnowledgeBase.domain_index knowledge_base) domain = [] ->
      result = 1%Q)
  /\ (KnowledgeBase.indexes_exact knowledge_base ->
      (forall key unit,
         KnowledgeBase.knowledge_units knowledge_base !! key = Some unit ->
         KnowledgeBase.domain unit <> domain) ->
      result = 1%Q)
  /\ (forall unit,
        unit ∈ existing_units
        <-> exists x,
              x ∈ KnowledgeBase.index_get (KnowledgeBase.domain_index knowledge_base) domain
              /\ KnowledgeBase.knowledge_units knowledge_base !! x = Some unit)
  /\ StronglySorted (KnowledgeBase.better_first datetime) existing_units
  /\ length (take 10 existing_units) = Nat.min 10 (length existing_units)
  /\ (forall compared left_out,
        compared ∈ take 10 existing_units ->
        left_out ∈ drop 10 existing_units ->
        (KnowledgeBase.quality_score left_out <= KnowledgeBase.quality_score compared)%Q)
  /\ (new_units <> [] -> existing_units <> [] ->
      (result == mean (max_similarity existing_units <$> new_units))%Q
      /\ forall new_unit,
          new_unit ∈ new_units ->
          is_maximum (max_similarity existing_units new_unit)
                     (similarities existing_units new_unit)).
Proof.
  destruct (calculate_knowledge_consistency_cases knowledge_base new_units domain)
    as (Hbounds & Hnew & Hexisting & Hindex & Hmean).
  cbn zeta.
  set (existing_units :=
         KnowledgeBase.find_relevant_knowledge lower knowledge_base domain None None) in *.
  assert (Hsorted : StronglySorted (KnowledgeBase.better_first datetime) existing_units)
    by apply KnowledgeBase.sort_by_quality_sorted.
  split; [exact Hbounds |]. split; [exact Hnew |]. split; [exact Hexisting |].
  split; [exact Hindex |]. split; [| split; [| split; [exact Hsorted | split; [| split]]]].
  - intros [Hexact _] Hno. apply Hindex. apply elem_of_nil_inv. intros x Hx.
    apply Hexact in Hx as (unit & Hunit & Hd). by eapply Hno.
  - intros unit. unfold existing_units.
    rewrite KnowledgeBase.elem_of_find_relevant_knowledge.
    rewrite KnowledgeBase.candidates_unfiltered by done.
    by setoid_rewrite KnowledgeBase.elem_of_ids_by_domain.
  - apply length_take.
  - intros compared left_out Hcompared Hleft.
    rewrite <- (take_drop 10 existing_units) in Hsorted.
    exact (StronglySorted_app_1_elem_of _ _ _ _ _ Hsorted Hcompared Hleft).
  - exact Hmean.
Qed.

End Evaluator.

(** *** Examples *)

(** A new unit that shares four of six words with the unit of
    [KnowledgeBase.basel_store]. *)
Definition liquidity_unit : KnowledgeBase.KnowledgeUnit string :=
  {| KnowledgeBase.id := "task2_0_77aa00ff";
     KnowledgeBase.content := "Basel III raises liquidity ratios";
     KnowledgeBase.domain := "finance"; KnowledgeBase.source_task_id := "task2";
     KnowledgeBase.creation_time := "2024-03-01T08:00:00";
     KnowledgeBase.usage_count := 0; KnowledgeBase.quality_score := 0;
     KnowledgeBase.tags := [] |}.

Lemma calculate_knowledge_consistency_two_thirds :
  (calculate_knowledge_consistency string ascii_lower ascii_split
     KnowledgeBase.basel_store [liquidity_unit] "finance" == 2 # 3)%Q
  /\ (0 <= calculate_knowledge_consistency string ascii_lower ascii_split
            KnowledgeBase.basel_store [liquidity_unit] "finance" <= 1)%Q
  /\ calculate_knowledge_consistency string ascii_lower ascii_split
       KnowledgeBase.basel_store [liquidity_unit] "legal" = 1%Q.
Proof.
  split; [vm_compute; reflexivity |]. split.
  - exact (proj1 (calculate_knowledge_consistency_mean string ascii_lower ascii_split
                    KnowledgeBase.basel_store [liquidity_unit] "finance")).
  - exact (proj1 (proj2 (proj2 (proj2
             (calculate_knowledge_consistency_mean string ascii_lower ascii_split
                KnowledgeBase.basel_store [liquidity_unit] "legal")))) eq_refl).
Defined.

(** C6, counterexample.  In [KnowledgeBase.refiled_store], a store that two
    calls of [add_knowledge_unit] produce, the only unit has the domain
    [legal], so the domain [finance] has no prior knowledge; its id is still
    indexed under [finance], the unit is compared, and the consistency of
    [liquidity_unit] with [finance] is 2/3 and not 1. *)
Lemma consistency_against_refiled_unit :
  KnowledgeBase.built string (fun t => t) KnowledgeBase.refiled_store
  /\ (forall key unit,
        KnowledgeBase.knowledge_units KnowledgeBase.refiled_store !! key = Some unit ->
        KnowledgeBase.domain unit = "legal")
  /\ (calculate_knowledge_consistency string ascii_lower ascii_split
        KnowledgeBase.refiled_store [liquidity_unit] "finance" == 2 # 3)%Q
  /\ ~ (calculate_knowledge_consistency string ascii_lower ascii_split
          KnowledgeBase.refiled_store [liquidity_unit] "finance" == 1)%Q.
Proof.
  split; [| split; [| split]].
  - apply KnowledgeBase.built_insert, KnowledgeBase.built_basel_store.
  - intros key unit Hunit.
    unfold KnowledgeBase.refiled_store, KnowledgeBase.basel_store,
      KnowledgeBase.empty_store in Hunit.
    cbn [KnowledgeBase.knowledge_units KnowledgeBase.insert_unit] in Hunit.
    apply lookup_insert_Some in Hunit as [[_ <-] | [Hne Hunit]]; [reflexivity |].
    apply lookup_insert_Some in Hunit as [[Heq _] | [_ Hunit]]; [destruct (Hne Heq) |].
    by rewrite lookup_empty in Hunit.
  - vm_compute. reflexivity.
  - vm_compute. discriminate.
Qed.

(** A stand-in for [json.loads] that knows one payload, an object with the
    reasoning score only, and a [float] that rejects every string. *)
Definition loads_partial (text : string) : outcome json :=
  if String.eqb text "{partial}"
  then Ok (JDict [ ("multi_step_reasoning_score", JFloat 4) ])
  else Raise "JSONDecodeError".

Definition float_rejects (text : string) : outcome Q := Raise "ValueError".

Lemma sub_scoring_partial_payload :
  evaluate_complex_task_capability loads_partial float_rejects
    (Ok (Some "Scores: {partial} as requested"))
  = [ ("multi_step_reasoning_score", 4%Q); ("domain_expertise_score", 3%Q);
      ("synthesis_capability_score", 3%Q); ("independence_score", 3%Q) ]
  /\ score "independence_score"
       (evaluate_complex_task_capability loads_partial float_rejects
          (Ok (Some "Scores: {partial} as requested"))) = Some 3%Q
  /\ evaluate_knowledge_capabilities loads_partial float_rejects (Raise "Exception")
     = default_scores knowledge_capability_keys.
Proof.
  split; [reflexivity |]. split.
  - destruct (proj1 (sub_scoring_substitutes_neutral_default loads_partial float_rejects)
                (Ok (Some "Scores: {partial} as requested")))
      as (_ & _ & _ & _ & Hparsed).
    destruct (Hparsed _ eq_refl) as [_ Hmatch].
    destruct (Hmatch "{partial}" eq_refl) as (_ & _ & Hmissing).
    apply (Hmissing [ ("multi_step_reasoning_score", JFloat 4) ]).
    + reflexivity.
    + unfold task_capability_keys. set_solver.
    + reflexivity.
  - destruct (proj2 (sub_scoring_substitutes_neutral_default loads_partial float_rejects)
                (Raise "Exception"))
      as (_ & _ & Hraise & _).
    apply Hraise. by exists "Exception".
Defined.

End StrategicEvaluator.

(** ** [utils/strategic_evaluator.py]: [evaluate_strategic_value] *)

Module StrategicValue.
Import Py.

(** The dataclass [StrategicMetrics]. *)
Record StrategicMetrics : Type := {
  task_id : string;
  task_title : string;
  task_complexity_level : Z;
  multi_step_reasoning_score : Q;
  domain_expertise_score : Q;
  synthesis_capability_score : Q;
  independence_score : Q;
  knowledge_extraction_score : Q;
  knowledge_organization_score : Q;
  knowledge_reuse_potential : Q;
  knowledge_quality_score : Q;
  task_duration_minutes : Q;
  created_knowledge_units : Z;
  reused_knowledge_units : Z;
  knowledge_consistency_score : Q;
  overall_strategic_score : Q
}.

(** [scores[key]] on a score dict. *)
Definition subscript (scores : list (string * Q)) (key : string) : outcome Q :=
  match StrategicEvaluator.score key scores with
  | Some value => Ok value
  | None => Raise "KeyError"
  end.

Section Evaluation.

Variable json_loads : string -> outcome json.
Variable float_of_str : string -> outcome Q.
Variable datetime : Type.
Variable isoformat : datetime -> string.
Variable lower : string -> string.
Variable split : string -> list string.

(** The loop [for unit in knowledge_units: add_knowledge_unit(unit)]; every
    call saves, and [clock k] is what [datetime.now()] reads at the save
    number [k]. *)
Fixpoint add_units (knowledge_base : KnowledgeBase.KnowledgeBase datetime)
    (knowledge_units : list (KnowledgeBase.KnowledgeUnit datetime))
    (clock : nat -> datetime) (files : gmap string json)
    : KnowledgeBase.KnowledgeBase datetime * gmap string json :=
  match knowledge_units with
  | [] => (knowledge_base, files)
  | unit :: rest =>
      let added :=
        KnowledgeBase.add_knowledge_unit datetime isoformat knowledge_base unit true
          (clock 0) files in
      add_units added.1 rest (fun k => clock (S k)) added.2
  end.

(** [evaluate_strategic_value].  The three calls of the service are given by
    what they return: the answer to the capability prompt, the list that
    [extract_knowledge_units] returns, and the answer to the knowledge
    prompt; the task content and the agent output occur in the prompts
    only.  [extract_knowledge_units] passes the [tags] of the service's
    answer on as they are, and the update loop is outside any [try]: the
    units given here are extracted units whose tags are lists of strings.
    On tags of another type the source raises [TypeError] in the loop or
    stores a value that the typed records do not hold; such runs are outside
    this definition, and the statements below are about the runs that
    return. *)
Definition evaluate_strategic_value
    (knowledge_base : KnowledgeBase.KnowledgeBase datetime) (files : gmap string json)
    (task_id task_title : string) (task_duration_minutes : Q)
    (domain : string) (complexity_level : Z)
    (capability_answer : StrategicEvaluator.response)
    (knowledge_units : list (KnowledgeBase.KnowledgeUnit datetime))
    (knowledge_answer : StrategicEvaluator.response)
    (clock : nat -> datetime)
    : outcome (StrategicMetrics * KnowledgeBase.KnowledgeBase datetime * gmap string json) :=
  let complex_task_scores :=
    StrategicEvaluator.evaluate_complex_task_capability json_loads float_of_str
      capability_answer in
  let knowledge_scores :=
    StrategicEvaluator.evaluate_knowledge_capabilities json_loads float_of_str
      knowledge_answer in
  let knowledge_consistency :=
    StrategicEvaluator.calculate_knowledge_consistency datetime lower split
      knowledge_base knowledge_units domain in
  let relevant_existing :=
    KnowledgeBase.find_relevant_knowledge lower knowledge_base domain None None in
  let reused_count := Z.min (Z.of_nat (length relevant_existing)) 5 in
  let updated := add_units knowledge_base knowledge_units clock files in
  reasoning ← subscript complex_task_scores "multi_step_reasoning_score";
  expertise ← subscript complex_task_scores "domain_expertise_score";
  synthesis ← subscript complex_task_scores "synthesis_capability_score";
  independence ← subscript complex_task_scores "independence_score";
  extraction ← subscript knowledge_scores "knowledge_extraction_score";
  organization ← subscript knowledge_scores "knowledge_organization_score";
  reuse ← subscript knowledge_scores "knowledge_reuse_potential";
  let overall_score :=
    (reasoning * (25 # 100) + expertise * (20 # 100) + synthesis * (20 # 100)
     + independence * (15 # 100) + extraction * (10 # 100)
     + organization * (5 # 100) + reuse * (5 # 100))%Q in
  quality ← subscript knowledge_scores "knowledge_quality_score";
  Ok ({| task_id := task_id;
         task_title := task_title;
         task_complexity_level := complexity_level;
         multi_step_reasoning_score := reasoning;
         domain_expertise_score := expertise;
         synthesis_capability_score := synthesis;
         independence_score := independence;
         knowledge_extraction_score := extraction;
         knowledge_organization_score := organization;
         knowledge_reuse_potential := reuse;
         knowledge_quality_score := quality;
         task_duration_minutes := task_duration_minutes;
         created_knowledge_units := Z.of_nat (length knowledge_units);
         reused_knowledge_units := reused_count;
         knowledge_consistency_score := knowledge_consistency;
         overall_strategic_score := overall_score |},
      updated.1, updated.2).

(** *** The store after the update loop *)

Lemma add_units_store units knowledge_base clock files :
  (add_units knowledge_base units clock files).1
  = foldl KnowledgeBase.insert_unit knowledge_base units.
Proof.
  revert knowledge_base clock files.
  induction units as [| unit units IH]; intros knowledge_base clock files; simpl; [done |].
  by rewrite IH.
Qed.

Lemma add_units_files units knowledge_base clock files :
  units <> [] ->
  (add_units knowledge_base units clock files).2
  !! KnowledgeBase.kb_path knowledge_base
  = Some (KnowledgeBase.snapshot datetime isoformat
            (add_units knowledge_base units clock files).1
            (clock (length units - 1))).
Proof.
  revert knowledge_base clock files.
  induction units as [| unit units IH]; intros knowledge_base clock files Hne; [done |].
  destruct units as [| next units].
  - simpl. unfold KnowledgeBase.save_knowledge_base. simpl. by rewrite lookup_insert_eq.
  - change (add_units knowledge_base (unit :: next :: units) clock files)
      with (add_units (KnowledgeBase.insert_unit knowledge_base unit) (next :: units)
              (fun k => clock (S k))
              (KnowledgeBase.save_knowledge_base isoformat
                 (KnowledgeBase.insert_unit knowledge_base unit) (clock 0) files)).
    replace (length (unit :: next :: units) - 1)
      with (S (length (next :: units) - 1)) by (simpl; lia).
    exact (IH (KnowledgeBase.insert_unit knowledge_base unit) (fun k => clock (S k))
             _ ltac:(done)).
Qed.

Lemma subscript_sub_scores keys answer key :
  key ∈ keys ->
  exists value,
    subscript (StrategicEvaluator.sub_scores json_loads float_of_str keys answer) key
    = Ok value.
Proof.
  intros Hin.
  destruct (StrategicEvaluator.sub_scores_policy json_loads float_of_str keys answer)
    as (_ & Hpresent & _).
  destruct (Hpresent key Hin) as [value Hvalue].
  exists value. unfold subscript. by rewrite Hvalue.
Qed.

(** *** The overall strategic score *)

(** In the metrics that [evaluate_strategic_value] returns, the overall score
    is the weighted sum of seven of the eight sub-scores with the weights
    0.25, 0.20, 0.20, 0.15, 0.10, 0.05 and 0.05; the knowledge quality score
    has no part in it.  When an assessment call raises, its four sub-scores
    are 3; when both raise, the overall score is 3. *)
Theorem evaluate_strategic_value_overall
    (knowledge_base : KnowledgeBase.KnowledgeBase datetime) (files : gmap string json)
    (task_id task_title : string) (task_duration_minutes : Q)
    (domain : string) (complexity_level : Z)
    (capability_answer : StrategicEvaluator.response)
    (knowledge_units : list (KnowledgeBase.KnowledgeUnit datetime))
    (knowledge_answer : StrategicEvaluator.response) (clock : nat -> datetime)
    metrics knowledge_base' files' :
  evaluate_strategic_value knowledge_base files task_id task_title
    task_duration_minutes domain complexity_level capability_answer knowledge_units
    knowledge_answer clock
  = Ok (metrics, knowledge_base', files') ->
  overall_strategic_score metrics
  = (multi_step_reasoning_score metrics * (25 # 100)
     + domain_expertise_score metrics * (20 # 100)
     + synthesis_capability_score metrics * (20 # 100)
     + independence_score metrics * (15 # 100)
     + knowledge_extraction_score metrics * (10 # 100)
     + knowledge_organization_score metrics * (5 # 100)
     + knowledge_reuse_potential metrics * (5 # 100))%Q
  /\ (raises capability_answer ->
      multi_step_reasoning_score metrics = 3%Q
      /\ domain_expertise_score metrics = 3%Q
      /\ synthesis_capability_score metrics = 3%Q
      /\ independence_score metrics = 3%Q)
  /\ (raises knowledge_answer ->
      knowledge_extraction_score metrics = 3%Q
      /\ knowledge_organization_score metrics = 3%Q
      /\ knowledge_reuse_potential metrics = 3%Q
      /\ knowledge_quality_score metrics = 3%Q)
  /\ (raises capability_answer -> raises knowledge_answer ->
      (overall_strategic_score metrics == 3)%Q).
Proof.
  intros Heval.
  unfold evaluate_strategic_value, StrategicEvaluator.evaluate_complex_task_capability,
    StrategicEvaluator.evaluate_knowledge_capabilities in Heval.
  cbn zeta in Heval. bind_inv Heval. injection Heval as <- _ _. simpl.
  rename v into c1, v0 into c2, v1 into c3, v2 into c4, v3 into k1, v4 into k2,
    v5 into k3, v6 into k4.
  split; [reflexivity |].
  assert (Hcap : raises capability_answer ->
                 c1 = 3%Q /\ c2 = 3%Q /\ c3 = 3%Q /\ c4 = 3%Q).
  { intros [e ->]. cbv in Hv, Hv0, Hv1, Hv2. by simplify_eq. }
  assert (Hkn : raises knowledge_answer ->
                k1 = 3%Q /\ k2 = 3%Q /\ k3 = 3%Q /\ k4 = 3%Q).
  { intros [e ->]. cbv in Hv3, Hv4, Hv5, Hv6. by simplify_eq. }
  split; [exact Hcap |]. split; [exact Hkn |].
  intros Hc Hk. destruct (Hcap Hc) as (-> & -> & -> & ->).
  destruct (Hkn Hk) as (-> & -> & -> & ->). reflexivity.
Qed.

(** *** Knowledge counts and the updated store *)

(** The metrics count the extracted units as created and at most five of the
    existing units of the domain as reused; the consistency score is taken
    against the store as it was before the extracted units are added, so in
    a domain with nothing indexed the score is 1 and nothing is reused,
    whatever was extracted. *)
Theorem evaluate_strategic_value_counts
    (knowledge_base : KnowledgeBase.KnowledgeBase datetime) (files : gmap string json)
    (task_id task_title : string) (task_duration_minutes : Q)
    (domain : string) (complexity_level : Z)
    (capability_answer : StrategicEvaluator.response)
    (knowledge_units : list (KnowledgeBase.KnowledgeUnit datetime))
    (knowledge_answer : StrategicEvaluator.response) (clock : nat -> datetime)
    metrics knowledge_base' files' :
  evaluate_strategic_value knowledge_base files task_id task_title
    task_duration_minutes domain complexity_level capability_answer knowledge_units
    knowledge_answer clock
  = Ok (metrics, knowledge_base', files') ->
  created_knowledge_units metrics = Z.of_nat (length knowledge_units)
  /\ reused_knowledge_units metrics
     = Z.min (Z.of_nat (length (KnowledgeBase.find_relevant_knowledge lower
                                  knowledge_base domain None None))) 5
  /\ (0 <= reused_knowledge_units metrics <= 5)%Z
  /\ knowledge_consistency_score metrics
     = StrategicEvaluator.calculate_knowledge_consistency datetime lower split
         knowledge_base knowledge_units domain
  /\ (KnowledgeBase.index_get (KnowledgeBase.domain_index knowledge_base) domain = [] ->
      reused_knowledge_units metrics = 0%Z
      /\ knowledge_consistency_score metrics = 1%Q).
Proof.
  intros Heval. unfold evaluate_strategic_value in Heval. cbn zeta in Heval.
  bind_inv Heval. injection Heval as <- _ _. simpl.
  split; [reflexivity |]. split; [reflexivity |]. split; [lia |].
  split; [reflexivity |]. intros Hnone.
  pose proof (KnowledgeBase.find_relevant_knowledge_empty_domain datetime lower
                knowledge_base domain None None eq_refl eq_refl Hnone) as Hempty.
  rewrite Hempty. split; [reflexivity |].
  unfold StrategicEvaluator.calculate_knowledge_consistency.
  destruct knowledge_units; [reflexivity |]. by rewrite Hempty.
Qed.

(** The store returned is the store given with the extracted units added in
    order.  Every extracted id is stored afterwards, under the unit given
    when the extracted ids are distinct, and no other id changes; with
    nothing extracted neither store nor disk changes, otherwise the file
    holds the snapshot of the returned store. *)
Theorem evaluate_strategic_value_store
    (knowledge_base : KnowledgeBase.KnowledgeBase datetime) (files : gmap string json)
    (task_id task_title : string) (task_duration_minutes : Q)
    (domain : string) (complexity_level : Z)
    (capability_answer : StrategicEvaluator.response)
    (knowledge_units : list (KnowledgeBase.KnowledgeUnit datetime))
    (knowledge_answer : StrategicEvaluator.response) (clock : nat -> datetime)
    metrics knowledge_base' files' :
  evaluate_strategic_value knowledge_base files task_id task_title
    task_duration_minutes domain complexity_level capability_answer knowledge_units
    knowledge_answer clock
  = Ok (metrics, knowledge_base', files') ->
  knowledge_base' = foldl KnowledgeBase.insert_unit knowledge_base knowledge_units
  /\ (forall unit, unit ∈ knowledge_units ->
        is_Some (KnowledgeBase.knowledge_units knowledge_base' !! KnowledgeBase.id unit))
  /\ (NoDup (KnowledgeBase.id <$> knowledge_units) ->
      forall unit, unit ∈ knowledge_units ->
        KnowledgeBase.knowledge_units knowledge_base' !! KnowledgeBase.id unit
        = Some unit)
  /\ (forall key,
        key ∉ KnowledgeBase.id <$> knowledge_units ->
        KnowledgeBase.knowledge_units knowledge_base' !! key
        = KnowledgeBase.knowledge_units knowledge_base !! key)
  /\ (knowledge_units = [] -> knowledge_base' = knowledge_base /\ files' = files)
  /\ (knowledge_units <> [] ->
      files' !! KnowledgeBase.kb_path knowledge_base
      = Some (KnowledgeBase.snapshot datetime isoformat knowledge_base'
                (clock (length knowledge_units - 1)))).
Proof.
  intros Heval. unfold evaluate_strategic_value in Heval. cbn zeta in Heval.
  bind_inv Heval. injection Heval as _ <- <-.
  rewrite add_units_store.
  assert (Hstored : forall (units : list (KnowledgeBase.KnowledgeUnit datetime))
                           base unit,
             unit ∈ units ->
             is_Some (KnowledgeBase.knowledge_units
                        (foldl KnowledgeBase.insert_unit base units)
                      !! KnowledgeBase.id unit)).
  { clear. intros units. induction units as [| first units IH] using rev_ind;
      intros base unit Hin; [by apply elem_of_nil in Hin |].
    rewrite foldl_snoc, KnowledgeBase.lookup_insert_unit.
    case_decide; [eauto |].
    apply elem_of_app in Hin as [Hin | Hin%list_elem_of_singleton]; [by apply IH | ].
    by subst. }
  assert (Hother : forall (units : list (KnowledgeBase.KnowledgeUnit datetime))
                          base key,
             key ∉ KnowledgeBase.id <$> units ->
             KnowledgeBase.knowledge_units (foldl KnowledgeBase.insert_unit base units)
             !! key = KnowledgeBase.knowledge_units base !! key).
  { clear. intros units. induction units as [| first units IH]; intros base key Hnot;
      [done |].
    rewrite fmap_cons, not_elem_of_cons in Hnot. destruct Hnot as [Hne Hnot].
    simpl. rewrite IH by done. rewrite KnowledgeBase.lookup_insert_unit.
    by rewrite decide_False. }
  split; [reflexivity |]. split; [by apply Hstored |]. split.
  { intros Hnodup unit Hin.
    by apply (KnowledgeBase.lookup_foldl_insert_unit datetime knowledge_units
                knowledge_base (KnowledgeBase.id unit) Hnodup). }
  split; [by apply Hother |]. split.
  - intros ->. by split.
  - intros Hne. rewrite <- add_units_store with (clock := clock) (files := files).
    by apply add_units_files.
Qed.

End Evaluation.

(** *** Examples *)

(** The task of [StrategicEvaluator.liquidity_unit], evaluated on
    [KnowledgeBase.basel_store] with a service that raises on both
    assessment calls. *)
Definition failed_service_run (domain : string)
    : outcome (StrategicMetrics * KnowledgeBase.KnowledgeBase string * gmap string json) :=
  evaluate_strategic_value StrategicEvaluator.loads_partial
    StrategicEvaluator.float_rejects string (fun t => t)
    StrategicEvaluator.ascii_lower StrategicEvaluator.ascii_split
    KnowledgeBase.basel_store ∅ "task2" "Liquidity rules" 12 domain 3
    (Raise "Exception") [StrategicEvaluator.liquidity_unit] (Raise "Exception")
    (fun _ => "2024-03-01T08:00:05").

Lemma evaluate_strategic_value_overall_failed_service :
  exists metrics knowledge_base' files',
    failed_service_run "finance" = Ok (metrics, knowledge_base', files')
    /\ (overall_strategic_score metrics == 3)%Q
    /\ knowledge_quality_score metrics = 3%Q.
Proof.
  destruct (failed_service_run "finance") as [[[metrics knowledge_base'] files'] | e]
    eqn:Heval; [| vm_compute in Heval; discriminate Heval].
  exists metrics, knowledge_base', files'. split; [reflexivity |].
  destruct (evaluate_strategic_value_overall _ _ _ _ _ _ _ _ _ _ _ _ _ _ _ _ _ _ _ _
              Heval) as (_ & _ & Hknowledge & Hoverall).
  split.
  - apply Hoverall; by exists "Exception".
  - apply Hknowledge. by exists "Exception".
Defined.

Lemma evaluate_strategic_value_counts_first_in_domain :
  exists metrics knowledge_base' files',
    failed_service_run "legal" = Ok (metrics, knowledge_base', files')
    /\ created_knowledge_units metrics = 1%Z
    /\ reused_knowledge_units metrics = 0%Z
    /\ knowledge_consistency_score metrics = 1%Q.
Proof.
  destruct (failed_service_run "legal") as [[[metrics knowledge_base'] files'] | e]
    eqn:Heval; [| vm_compute in Heval; discriminate Heval].
  exists metrics, knowledge_base', files'. split; [reflexivity |].
  destruct (evaluate_strategic_value_counts _ _ _ _ _ _ _ _ _ _ _ _ _ _ _ _ _ _ _ _
              Heval) as (Hcreated & _ & _ & _ & Hfirst).
  split; [exact Hcreated |]. apply Hfirst. reflexivity.
Defined.

Lemma evaluate_strategic_value_store_liquidity :
  exists metrics knowledge_base' files',
    failed_service_run "finance" = Ok (metrics, knowledge_base', files')
    /\ KnowledgeBase.knowledge_units knowledge_base' !! "task2_0_77aa00ff"
       = Some StrategicEvaluator.liquidity_unit
    /\ KnowledgeBase.knowledge_units knowledge_base' !! "task1_0_ab12cd34"
       = Some KnowledgeBase.basel_unit.
Proof.
  destruct (failed_service_run "finance") as [[[metrics knowledge_base'] files'] | e]
    eqn:Heval; [| vm_compute in Heval; discriminate Heval].
  exists metrics, knowledge_base', files'. split; [reflexivity |].
  destruct (evaluate_strategic_value_store _ _ _ _ _ _ _ _ _ _ _ _ _ _ _ _ _ _ _ _
              Heval) as (_ & _ & Hgiven & Hother & _).
  split.
  - apply (Hgiven ltac:(apply NoDup_singleton) StrategicEvaluator.liquidity_unit).
    apply list_elem_of_here.
  - rewrite Hother; [reflexivity |]. simpl. set_solver.
Defined.

End StrategicValue.

(** ** [poet_benchmark.py]: the efficiency and strategic dimension scores *)

Module DimensionScores.
Import Py.

(** [a / b] where [b] may be zero. *)
Definition divide (a b : Q) : outcome Q :=
  if Qeq_bool b 0 then Raise "ZeroDivisionError" else Ok (a / b)%Q.

(** [a * b] where [a] or [b] may be [None]. *)
Definition multiply (a b : option Q) : outcome Q :=
  match a, b with
  | Some x, Some y => Ok (x * y)%Q
  | _, _ => Raise "TypeError"
  end.

(** [x and x > 0] on an optional float: [None] and 0.0 are false. *)
Definition positive (x : option Q) : option Q :=
  match x with
  | Some value => if Qlt_le_dec 0 value then Some value else None
  | None => None
  end.

(** [calculate_efficiency_score(metrics)]. *)
Definition calculate_efficiency_score (self : POETBenchmark.POETBenchmark)
    (metrics : EfficiencyEvaluator.EfficiencyMetrics) : outcome Q :=
  weights ← getitem (JDict (POETBenchmark.config self)) "efficiency_weights";
  let time_efficiency :=
    match positive (EfficiencyEvaluator.m_expert_time_hours metrics) with
    | Some expert_time_hours =>
        let ai_time_hours :=
          (EfficiencyEvaluator.completion_time_seconds metrics / 3600)%Q in
        py_max 0 (1 - ai_time_hours / expert_time_hours)%Q
    | None => (1 # 2)%Q
    end in
  cost_efficiency ←
    match positive (EfficiencyEvaluator.cost_saving_usd metrics) with
    | Some cost_saving_usd =>
        expert_cost ← multiply (EfficiencyEvaluator.m_expert_time_hours metrics)
                               (EfficiencyEvaluator.m_expert_hourly_rate_usd metrics);
        ratio ← divide cost_saving_usd expert_cost;
        Ok (py_min 1 ratio)
    | None => Ok 0%Q
    end;
  let automation_efficiency := default 0%Q (EfficiencyEvaluator.automation_rate metrics) in
  w_time ← getitem weights "time_weight";
  time_part ← times time_efficiency w_time;
  w_cost ← getitem weights "cost_weight";
  cost_part ← times cost_efficiency w_cost;
  w_automation ← getitem weights "automation_weight";
  automation_part ← times automation_efficiency w_automation;
  let efficiency_score := (time_part + cost_part + automation_part)%Q in
  Ok (py_min 1 (py_max 0 efficiency_score)).

(** [calculate_strategic_score(metrics)]. *)
Definition calculate_strategic_score (self : POETBenchmark.POETBenchmark)
    (metrics : StrategicValue.StrategicMetrics) : outcome Q :=
  weights ← getitem (JDict (POETBenchmark.config self)) "strategic_weights";
  let task_capability :=
    ((StrategicValue.multi_step_reasoning_score metrics
      + StrategicValue.domain_expertise_score metrics
      + StrategicValue.synthesis_capability_score metrics
      + StrategicValue.independence_score metrics) / 20)%Q in
  let knowledge_capability :=
    ((StrategicValue.knowledge_extraction_score metrics
      + StrategicValue.knowledge_organization_score metrics
      + StrategicValue.knowledge_reuse_potential metrics
      + StrategicValue.knowledge_quality_score metrics) / 20)%Q in
  w_task ← getitem weights "task_capability";
  task_part ← times task_capability w_task;
  w_knowledge ← getitem weights "knowledge_capability";
  knowledge_part ← times knowledge_capability w_knowledge;
  let strategic_score := (task_part + knowledge_part)%Q in
  Ok (py_min 1 (py_max 0 strategic_score)).

(** *** Reading the sub-weights (for the statements below) *)

Definition efficiency_weights (cfg : dict) : outcome (Q * Q * Q) :=
  weights ← getitem (JDict cfg) "efficiency_weights";
  w_time ← getitem weights "time_weight";
  t ← as_number w_time;
  w_cost ← getitem weights "cost_weight";
  c ← as_number w_cost;
  w_automation ← getitem weights "automation_weight";
  a ← as_number w_automation;
  Ok (t, c, a).

Definition strategic_weights (cfg : dict) : outcome (Q * Q) :=
  weights ← getitem (JDict cfg) "strategic_weights";
  w_task ← getitem weights "task_capability";
  t ← as_number w_task;
  w_knowledge ← getitem weights "knowledge_capability";
  k ← as_number w_knowledge;
  Ok (t, k).

(** *** The efficiency score of finished tasks *)

Lemma clamped_unit_interval x : (0 <= py_min 1 (py_max 0 x) <= 1)%Q.
Proof.
  split.
  - apply py_min_glb; [lra | apply py_max_ge_l].
  - apply py_min_le_l.
Qed.

Lemma times_number a x w : as_number x = Ok w -> times a x = Ok (a * w)%Q.
Proof. intros H. unfold times. by rewrite H. Qed.

(** For the metrics that [end_task] returns, with token counts and prices
    that are not negative and numeric efficiency weights,
    [calculate_efficiency_score] returns a score in [0,1]: the division by
    the expert cost is reached only when that cost is positive. *)
Theorem calculate_efficiency_score_after_end_task self evaluator (success : bool)
    (now : Q) metrics evaluator' (w_t w_c w_a : Q) :
  EfficiencyEvaluator.end_task evaluator success now = Ok (metrics, evaluator') ->
  efficiency_weights (POETBenchmark.config self) = Ok (w_t, w_c, w_a) ->
  (0 <= EfficiencyEvaluator.token_usage_input evaluator)%Z ->
  (0 <= EfficiencyEvaluator.token_usage_output evaluator)%Z ->
  (0 <= EfficiencyEvaluator.token_cost_per_1k_input evaluator)%Q ->
  (0 <= EfficiencyEvaluator.token_cost_per_1k_output evaluator)%Q ->
  exists score,
    calculate_efficiency_score self metrics = Ok score /\ (0 <= score <= 1)%Q.
Proof.
  intros Hend Hw Hin Hout Hpin Hpout.
  unfold EfficiencyEvaluator.end_task in Hend.
  destruct (EfficiencyEvaluator.current_task_id evaluator) as [id |]; [| discriminate].
  destruct (EfficiencyEvaluator.start_time evaluator) as [started |]; [| discriminate].
  destruct (EfficiencyEvaluator.current_task_title evaluator) as [title |];
    [| discriminate].
  injection Hend as <- _.
  unfold efficiency_weights in Hw. bind_inv Hw. injection Hw as <- <- <-.
  unfold calculate_efficiency_score. rewrite Hv. simpl.
  set (expert_cost := (EfficiencyEvaluator.expert_time_hours evaluator
                       * EfficiencyEvaluator.expert_hourly_rate_usd evaluator)%Q).
  assert (Hcost : exists cost_efficiency,
             match positive (Some (EfficiencyEvaluator._calculate_cost_saving evaluator
                                     (now - started)))
             with
             | Some cost_saving_usd =>
                 ratio ← divide cost_saving_usd expert_cost; Ok (py_min 1 ratio)
             | None => Ok 0%Q
             end = Ok cost_efficiency).
  { unfold positive.
    destruct (Qlt_le_dec 0 _) as [Hpos | _]; [| eauto].
    unfold EfficiencyEvaluator._calculate_cost_saving,
      EfficiencyEvaluator._calculate_cost in Hpos. fold expert_cost in Hpos.
    assert (H1 : (0 <= inject_Z (EfficiencyEvaluator.token_usage_input evaluator)
                       / 1000)%Q).
    { apply Qle_shift_div_l; [reflexivity |]. rewrite Qmult_0_l.
      by rewrite <- (Zle_Qle 0). }
    assert (H2 : (0 <= inject_Z (EfficiencyEvaluator.token_usage_output evaluator)
                       / 1000)%Q).
    { apply Qle_shift_div_l; [reflexivity |]. rewrite Qmult_0_l.
      by rewrite <- (Zle_Qle 0). }
    assert (Hexpert : (0 < expert_cost)%Q).
    { revert Hpos. unfold py_max. destruct (Qlt_le_dec 0 _); [nra | lra]. }
    unfold divide. destruct (Qeq_bool expert_cost 0) eqn:E.
    - apply Qeq_bool_iff in E. lra.
    - simpl. eauto. }
  destruct Hcost as [cost_efficiency Hcost]. unfold positive in Hcost.
  rewrite Hcost. simpl.
  rewrite Hv0. simpl. rewrite (times_number _ _ _ Hv1). simpl.
  rewrite Hv2. simpl. rewrite (times_number _ _ _ Hv3). simpl.
  rewrite Hv4. simpl. rewrite (times_number _ _ _ Hv5). simpl.
  eexists. split; [reflexivity | apply clamped_unit_interval].
Qed.

(** An evaluator one hour into a task with a two-hour baseline. *)
Definition sample_evaluator : EfficiencyEvaluator.EfficiencyEvaluator :=
  {| EfficiencyEvaluator.expert_time_hours := 2%Q;
     EfficiencyEvaluator.expert_hourly_rate_usd := 100%Q;
     EfficiencyEvaluator.token_cost_per_1k_input := (15 # 10000)%Q;
     EfficiencyEvaluator.token_cost_per_1k_output := (6 # 1000)%Q;
     EfficiencyEvaluator.current_task_id := Some "t1";
     EfficiencyEvaluator.current_task_title := Some "first";
     EfficiencyEvaluator.start_time := Some 10%Q;
     EfficiencyEvaluator.token_usage_input := 1000%Z;
     EfficiencyEvaluator.token_usage_output := 500%Z;
     EfficiencyEvaluator.error_count := 0%Z |}.

Lemma calculate_efficiency_score_after_sample_task :
  exists metrics evaluator' score,
    EfficiencyEvaluator.end_task sample_evaluator true 3610%Q = Ok (metrics, evaluator')
    /\ calculate_efficiency_score (POETBenchmark.constructed None "sk-test") metrics
       = Ok score
    /\ (0 <= score <= 1)%Q.
Proof.
  destruct (EfficiencyEvaluator.end_task sample_evaluator true 3610%Q)
    as [[metrics evaluator'] | e] eqn:Hend; [| discriminate Hend].
  destruct (calculate_efficiency_score_after_end_task
              (POETBenchmark.constructed None "sk-test") sample_evaluator
              true 3610%Q metrics evaluator' (40 # 100)%Q (30 # 100)%Q (30 # 100)%Q
              Hend eq_refl)
    as (score & Hscore & Hbounds); try discriminate.
  exists metrics, evaluator', score.
  split; [reflexivity |]. split; [exact Hscore | exact Hbounds].
Defined.

(** Metrics that claim a cost saving with an expert time of zero make the
    division raise. *)
Example calculate_efficiency_score_zero_expert_cost :
  calculate_efficiency_score (POETBenchmark.constructed None "sk-test")
    {| EfficiencyEvaluator.task_id := "t1"; EfficiencyEvaluator.task_title := "";
       EfficiencyEvaluator.m_start_time := 0%Q; EfficiencyEvaluator.end_time := 60%Q;
       EfficiencyEvaluator.completion_time_seconds := 60%Q;
       EfficiencyEvaluator.input_tokens := 0%Z; EfficiencyEvaluator.output_tokens := 0%Z;
       EfficiencyEvaluator.total_tokens := 0%Z;
       EfficiencyEvaluator.estimated_cost_usd := 0%Q;
       EfficiencyEvaluator.m_expert_time_hours := Some 0%Q;
       EfficiencyEvaluator.m_expert_hourly_rate_usd := Some 100%Q;
       EfficiencyEvaluator.automation_rate := Some 1%Q;
       EfficiencyEvaluator.cost_saving_usd := Some 5%Q;
       EfficiencyEvaluator.task_success := true;
       EfficiencyEvaluator.m_error_count := 0%Z |}
  = Raise "ZeroDivisionError".
Proof. reflexivity. Qed.

(** *** The strategic score *)

(** With numeric sub-weights [calculate_strategic_score] returns a score in
    [0,1] for any sub-scores.  When the eight sub-scores lie in [0,5] and the
    two sub-weights are non-negative and sum to 1, the score is the weighted
    sum of the two capability means, each divided by 5, with no clamping. *)
Theorem calculate_strategic_score_bounds self metrics (w_t w_k : Q) :
  strategic_weights (POETBenchmark.config self) = Ok (w_t, w_k) ->
  let task_capability :=
    ((StrategicValue.multi_step_reasoning_score metrics
      + StrategicValue.domain_expertise_score metrics
      + StrategicValue.synthesis_capability_score metrics
      + StrategicValue.independence_score metrics) / 20)%Q in
  let knowledge_capability :=
    ((StrategicValue.knowledge_extraction_score metrics
      + StrategicValue.knowledge_organization_score metrics
      + StrategicValue.knowledge_reuse_potential metrics
      + StrategicValue.knowledge_quality_score metrics) / 20)%Q in
  exists score,
    calculate_strategic_score self metrics = Ok score
    /\ (0 <= score <= 1)%Q
    /\ ((0 <= task_capability <= 1)%Q -> (0 <= knowledge_capability <= 1)%Q ->
        (0 <= w_t)%Q -> (0 <= w_k)%Q -> (w_t + w_k == 1)%Q ->
        (score == task_capability * w_t + knowledge_capability * w_k)%Q).
Proof.
  intros Hw. cbn zeta. unfold strategic_weights in Hw. bind_inv Hw.
  injection Hw as <- <-.
  unfold calculate_strategic_score. rewrite Hv. simpl.
  rewrite Hv0. simpl. rewrite (times_number _ _ _ Hv1). simpl.
  rewrite Hv2. simpl. rewrite (times_number _ _ _ Hv3). simpl.
  eexists. split; [reflexivity |]. split; [apply clamped_unit_interval |].
  intros [Ht0 Ht1] [Hk0 Hk1] Hwt Hwk Hsum.
  match goal with |- (py_min 1 (py_max 0 ?x) == _)%Q => set (raw := x) end.
  assert (Hraw : (0 <= raw <= 1)%Q) by (unfold raw; split; nra).
  unfold py_min, py_max.
  destruct (Qlt_le_dec 0 raw); [destruct (Qlt_le_dec raw 1) | destruct (Qlt_le_dec 0 1)];
    unfold raw in *; lra.
Qed.

(** Metrics with mixed sub-scores. *)
Definition sample_strategic_metrics : StrategicValue.StrategicMetrics :=
  {| StrategicValue.task_id := "t1"; StrategicValue.task_title := "first";
     StrategicValue.task_complexity_level := 3%Z;
     StrategicValue.multi_step_reasoning_score := 4%Q;
     StrategicValue.domain_expertise_score := 3%Q;
     StrategicValue.synthesis_capability_score := 5%Q;
     StrategicValue.independence_score := 2%Q;
     StrategicValue.knowledge_extraction_score := 3%Q;
     StrategicValue.knowledge_organization_score := 3%Q;
     StrategicValue.knowledge_reuse_potential := 4%Q;
     StrategicValue.knowledge_quality_score := 1%Q;
     StrategicValue.task_duration_minutes := 60%Q;
     StrategicValue.created_knowledge_units := 2%Z;
     StrategicValue.reused_knowledge_units := 1%Z;
     StrategicValue.knowledge_consistency_score := (1 # 2)%Q;
     StrategicValue.overall_strategic_score := (7 # 2)%Q |}.

Lemma calculate_strategic_score_bounds_sample :
  exists score,
    calculate_strategic_score (POETBenchmark.constructed None "sk-test")
      sample_strategic_metrics = Ok score
    /\ (0 <= score <= 1)%Q
    /\ (score == (14 / 20) * (60 # 100) + (11 / 20) * (40 # 100))%Q.
Proof.
  destruct (calculate_strategic_score_bounds (POETBenchmark.constructed None "sk-test")
              sample_strategic_metrics (60 # 100)%Q (40 # 100)%Q eq_refl)
    as (score & Hscore & Hbounds & Hexact).
  exists score. split; [exact Hscore |]. split; [exact Hbounds |].
  rewrite Hexact; [reflexivity | | | | | ]; try (split; discriminate); try discriminate.
Defined.

Section FailedService.

Variable json_loads : string -> outcome json.
Variable float_of_str : string -> outcome Q.
Variable datetime : Type.
Variable isoformat : datetime -> string.
Variable lower : string -> string.
Variable split : string -> list string.

(** When both assessment calls of [evaluate_strategic_value] raise, the
    strategic score of the returned metrics under the default configuration
    is 0.6. *)
Theorem strategic_score_of_failed_service
    (knowledge_base : KnowledgeBase.KnowledgeBase datetime) (files : gmap string json)
    (task_id task_title : string) (task_duration_minutes : Q)
    (domain : string) (complexity_level : Z)
    (capability_error knowledge_error : string)
    (knowledge_units : list (KnowledgeBase.KnowledgeUnit datetime))
    (clock : nat -> datetime) (key : string) :
  exists metrics knowledge_base' files' score,
    StrategicValue.evaluate_strategic_value json_loads float_of_str datetime isoformat
      lower split knowledge_base files task_id task_title task_duration_minutes domain
      complexity_level (Raise capability_error) knowledge_units (Raise knowledge_error)
      clock
    = Ok (metrics, knowledge_base', files')
    /\ calculate_strategic_score (POETBenchmark.constructed None key) metrics = Ok score
    /\ (score == 6 # 10)%Q.
Proof.
  eexists. eexists. eexists. eexists. split; [reflexivity |].
  split; [reflexivity |]. vm_compute. reflexivity.
Qed.

End FailedService.

End DimensionScores.

(** ** [poet_benchmark.py]: the ranking and the domain table of the report *)

Module POETReport.
Import Py.

(** The dataclass [POETMetrics]. *)
Record POETMetrics : Type := {
  task_id : string;
  task_title : string;
  model_name : string;
  query_content : string;
  agent_output : string;
  domain : string;
  complexity_level : Z;
  efficiency_metrics : EfficiencyEvaluator.EfficiencyMetrics;
  race_score : Q;
  fact_citation_accuracy : Q;
  fact_effective_citations : Z;
  strategic_metrics : StrategicValue.StrategicMetrics;
  overall_poet_score : Q;
  poet_value_breakdown : list (string * Q);
  evaluation_timestamp : string;
  evaluation_duration_seconds : Q
}.

(** [sorted(results, key=lambda x: x.overall_poet_score, reverse=True)]: a
    stable sort, best first. *)
Fixpoint insert_by_score (task : POETMetrics) (sorted : list POETMetrics)
    : list POETMetrics :=
  match sorted with
  | [] => [task]
  | other :: sorted' =>
      if Qlt_le_dec (overall_poet_score task) (overall_poet_score other)
      then other :: insert_by_score task sorted'
      else task :: other :: sorted'
  end.

Definition sorted_by_score (results : list POETMetrics) : list POETMetrics :=
  foldr insert_by_score [] results.

(** [top_tasks] of [generate_poet_report]. *)
Definition top_tasks (results : list POETMetrics) : list POETMetrics :=
  take 10 (sorted_by_score results).

(** An entry of [report["top_performing_tasks"]]. *)
Record top_task : Type := {
  top_task_id : string;
  poet_score : Q;
  top_domain : string;
  complexity : Z
}.

Definition top_performing_tasks (results : list POETMetrics) : list top_task :=
  (fun task =>
     {| top_task_id := task_id task; poet_score := overall_poet_score task;
        top_domain := domain task; complexity := complexity_level task |})
    <$> top_tasks results.

(** [domain_stats]: a [defaultdict(list)] filled by the loop over the
    results. *)
Definition domain_stats (results : list POETMetrics) : gmap string (list Q) :=
  foldl (fun stats result =>
           <[domain result :=
               default [] (stats !! domain result) ++ [overall_poet_score result]]> stats)
        ∅ results.

Section Floats.

(** The mean of a domain is a sum and a quotient of floats.  Both round, and
    how the built-in [sum] rounds depends on the interpreter, so the two
    operations are parameters here: [sum scores] is [sum(scores)] and
    [truediv a b] is [a / b] for a divisor that is not zero. *)
Variable sum : list Q -> Q.
Variable truediv : Q -> Q -> Q.

(** [a / b]. *)
Definition divide (a b : Q) : outcome Q :=
  if Qeq_bool b 0 then Raise "ZeroDivisionError" else Ok (truediv a b).

(** [max(scores)] and [min(scores)]: comparisons only; both raise on an empty
    list. *)
Definition max_of (scores : list Q) : outcome Q :=
  match scores with
  | [] => Raise "ValueError"
  | first :: rest => Ok (foldl py_max first rest)
  end.

Definition min_of (scores : list Q) : outcome Q :=
  match scores with
  | [] => Raise "ValueError"
  | first :: rest => Ok (foldl py_min first rest)
  end.

(** An entry of [report["domain_analysis"]]. *)
Record domain_entry : Type := {
  task_count : Z;
  avg_poet_score : Q;
  max_poet_score : Q;
  min_poet_score : Q
}.

Definition domain_entry_of (scores : list Q) : outcome domain_entry :=
  let count := Z.of_nat (length scores) in
  avg ← divide (sum scores) (inject_Z count);
  highest ← max_of scores;
  lowest ← min_of scores;
  Ok {| task_count := count; avg_poet_score := avg;
        max_poet_score := highest; min_poet_score := lowest |}.

(** [report["domain_analysis"]], entry by entry. *)
Definition domain_analysis (results : list POETMetrics)
    : gmap string (outcome domain_entry) :=
  domain_entry_of <$> domain_stats results.

(** The order of the ranking. *)
Definition ranked_before (first second : POETMetrics) : Prop :=
  (overall_poet_score second <= overall_poet_score first)%Q.

(** The scores of the results of one domain, in the order of the results. *)
Definition scores_of (name : string) (results : list POETMetrics) : list Q :=
  overall_poet_score <$> filter (fun result => domain result = name) results.

(** *** The ranking *)

Lemma insert_by_score_perm task sorted :
  insert_by_score task sorted ≡ₚ task :: sorted.
Proof.
  induction sorted as [| other sorted IH]; simpl; [done |].
  destruct (Qlt_le_dec _ _); [| done]. rewrite IH. apply Permutation_swap.
Qed.

Lemma sorted_by_score_perm results : sorted_by_score results ≡ₚ results.
Proof.
  induction results as [| task results IH]; simpl; [done |].
  by rewrite insert_by_score_perm, IH.
Qed.

Lemma insert_by_score_sorted task sorted :
  StronglySorted ranked_before sorted ->
  StronglySorted ranked_before (insert_by_score task sorted).
Proof.
  induction sorted as [| other sorted IH]; intros Hsorted; simpl.
  - repeat constructor.
  - apply StronglySorted_inv in Hsorted as [Hrest Hall].
    destruct (Qlt_le_dec (overall_poet_score task) (overall_poet_score other))
      as [Hlt | Hle].
    + constructor; [by apply IH |].
      rewrite insert_by_score_perm. constructor; [| done].
      unfold ranked_before. lra.
    + constructor; [by constructor |]. constructor; [done |].
      eapply Forall_impl; [exact Hall |]. unfold ranked_before. intros third. lra.
Qed.

Lemma sorted_by_score_sorted results :
  StronglySorted ranked_before (sorted_by_score results).
Proof.
  induction results as [| task results IH]; simpl; [constructor |].
  by apply insert_by_score_sorted.
Qed.

Lemma StronglySorted_split {A : Type} (R : A -> A -> Prop) (front back : list A) :
  StronglySorted R (front ++ back) ->
  StronglySorted R front /\ forall x y, x ∈ front -> y ∈ back -> R x y.
Proof.
  induction front as [| a front IH]; simpl; intros Hsorted.
  - split; [constructor |]. intros x y Hx. by apply elem_of_nil in Hx.
  - apply StronglySorted_inv in Hsorted as [Hrest Hall].
    destruct (IH Hrest) as [Hfront Hcross].
    apply Forall_app in Hall as [Hahead Hback]. split.
    + by constructor.
    + intros x y Hx Hy. apply elem_of_cons in Hx as [-> | Hx]; [| by apply Hcross].
      by apply (proj1 (Forall_forall _ _) Hback).
Qed.

(** [generate_poet_report] lists [min(len(results), 10)] tasks, best
    score first, each with the id, score, domain and complexity of one
    result; the results it leaves out score no more than any task it lists. *)
Theorem top_performing_tasks_ranking (results : list POETMetrics) :
  length (top_performing_tasks results) = Nat.min 10 (length results) /\
  StronglySorted (fun first second => (poet_score second <= poet_score first)%Q)
    (top_performing_tasks results) /\
  exists left_out : list POETMetrics,
    top_tasks results ++ left_out ≡ₚ results /\
    (top_task_id <$> top_performing_tasks results) = (task_id <$> top_tasks results) /\
    (poet_score <$> top_performing_tasks results)
      = (overall_poet_score <$> top_tasks results) /\
    forall entry task,
      entry ∈ top_performing_tasks results -> task ∈ left_out ->
      (overall_poet_score task <= poet_score entry)%Q.
Proof.
  pose proof (sorted_by_score_sorted results) as Hsorted.
  rewrite <- (take_drop 10 (sorted_by_score results)) in Hsorted.
  apply StronglySorted_split in Hsorted as [Htop Hcross].
  unfold top_performing_tasks, top_tasks. repeat split.
  - rewrite length_fmap, length_take.
    by rewrite (Permutation_length (sorted_by_score_perm results)).
  - eapply StronglySorted_fmap; [| exact Htop]. by intros first second.
  - exists (drop 10 (sorted_by_score results)). repeat split.
    + rewrite take_drop. apply sorted_by_score_perm.
    + by rewrite <- list_fmap_compose.
    + by rewrite <- list_fmap_compose.
    + intros entry task Hentry Htask.
      apply list_elem_of_fmap in Hentry as (listed & -> & Hlisted). simpl.
      exact (Hcross listed task Hlisted Htask).
Qed.

(** *** The domain table *)

Lemma domain_stats_from (stats : gmap string (list Q)) results name :
  foldl (fun stats result =>
           <[domain result :=
               default [] (stats !! domain result) ++ [overall_poet_score result]]> stats)
        stats results !! name
  = match scores_of name results with
    | [] => stats !! name
    | scores => Some (default [] (stats !! name) ++ scores)
    end.
Proof.
  revert stats. induction results as [| result results IH]; intros stats; [done |].
  simpl. rewrite IH. unfold scores_of.
  destruct (decide (domain result = name)) as [<- | Hne].
  - rewrite filter_cons_True by done. rewrite fmap_cons, lookup_insert_eq. simpl.
    destruct (overall_poet_score <$> filter _ results); [done |].
    by rewrite <- app_assoc.
  - rewrite filter_cons_False by done. by rewrite lookup_insert_ne.
Qed.

Lemma domain_stats_lookup results name :
  domain_stats results !! name
  = match scores_of name results with [] => None | scores => Some scores end.
Proof.
  unfold domain_stats. rewrite domain_stats_from, lookup_empty.
  by destruct (scores_of name results).
Qed.

Lemma foldl_py_max rest : forall first,
  foldl py_max first rest ∈ first :: rest /\
  forall score, score ∈ first :: rest -> (score <= foldl py_max first rest)%Q.
Proof.
  induction rest as [| next rest IH]; intros first; simpl.
  - split; [apply list_elem_of_here |].
    intros score Hscore. apply list_elem_of_singleton in Hscore as ->. lra.
  - destruct (IH (py_max first next)) as [Hin Hub]. split.
    + apply elem_of_cons in Hin as [-> | Hin]; [| by do 2 apply list_elem_of_further].
      unfold py_max. destruct (Qlt_le_dec first next).
      * apply list_elem_of_further, list_elem_of_here.
      * apply list_elem_of_here.
    + intros score Hscore.
      assert (py_max first next <= foldl py_max (py_max first next) rest)%Q as Hacc
        by (apply Hub, list_elem_of_here).
      pose proof (py_max_ge_l first next). pose proof (py_max_ge_r first next).
      apply elem_of_cons in Hscore as [-> | Hscore]; [lra |].
      apply elem_of_cons in Hscore as [-> | Hscore]; [lra |].
      by apply Hub, list_elem_of_further.
Qed.

Lemma foldl_py_min rest : forall first,
  foldl py_min first rest ∈ first :: rest /\
  forall score, score ∈ first :: rest -> (foldl py_min first rest <= score)%Q.
Proof.
  induction rest as [| next rest IH]; intros first; simpl.
  - split; [apply list_elem_of_here |].
    intros score Hscore. apply list_elem_of_singleton in Hscore as ->. lra.
  - destruct (IH (py_min first next)) as [Hin Hlb]. split.
    + apply elem_of_cons in Hin as [-> | Hin]; [| by do 2 apply list_elem_of_further].
      unfold py_min. destruct (Qlt_le_dec next first).
      * apply list_elem_of_further, list_elem_of_here.
      * apply list_elem_of_here.
    + intros score Hscore.
      assert (foldl py_min (py_min first next) rest <= py_min first next)%Q as Hacc
        by (apply Hlb, list_elem_of_here).
      pose proof (py_min_le_l first next). pose proof (py_min_le_r first next).
      apply elem_of_cons in Hscore as [-> | Hscore]; [lra |].
      apply elem_of_cons in Hscore as [-> | Hscore]; [lra |].
      by apply Hlb, list_elem_of_further.
Qed.

(** For a domain that has results, [generate_poet_report] files one entry:
    the number of the results of the domain, and the largest and the
    smallest of their scores, each the score of one of these results. *)
Theorem domain_analysis_entry (results : list POETMetrics) (name : string)
    (task : POETMetrics) :
  task ∈ results -> domain task = name ->
  exists entry,
    domain_analysis results !! name = Some (Ok entry) /\
    task_count entry = Z.of_nat (length (scores_of name results)) /\
    (0 < task_count entry)%Z /\
    max_poet_score entry ∈ scores_of name results /\
    min_poet_score entry ∈ scores_of name results /\
    (forall score, score ∈ scores_of name results ->
       (min_poet_score entry <= score <= max_poet_score entry)%Q) /\
    (min_poet_score entry <= overall_poet_score task <= max_poet_score entry)%Q.
Proof.
  intros Hin Hname.
  assert (overall_poet_score task ∈ scores_of name results) as Hscore.
  { unfold scores_of. apply list_elem_of_fmap. exists task. split; [done |].
    by apply list_elem_of_filter. }
  unfold domain_analysis. rewrite lookup_fmap, domain_stats_lookup.
  destruct (scores_of name results) as [| first rest] eqn:Hscores.
  { by apply elem_of_nil in Hscore. }
  destruct (foldl_py_max rest first) as [Hmax_in Hmax].
  destruct (foldl_py_min rest first) as [Hmin_in Hmin].
  set (count := inject_Z (Z.of_nat (length (first :: rest)))).
  assert (1 <= count)%Q as Hcount.
  { unfold count. change 1%Q with (inject_Z 1). rewrite <- Zle_Qle. simpl length. lia. }
  assert (Qeq_bool count 0 = false) as Hnonzero.
  { destruct (Qeq_bool count 0) eqn:Heq; [| done].
    apply Qeq_bool_eq in Heq. lra. }
  simpl. unfold domain_entry_of, divide. fold count.
  rewrite Hnonzero. simpl.
  eexists. split; [reflexivity |]. simpl.
  split; [reflexivity |]. split; [lia |]. split; [exact Hmax_in |].
  split; [exact Hmin_in |]. split.
  - intros score Hin'. split; [by apply Hmin | by apply Hmax].
  - split; [by apply Hmin | by apply Hmax].
Qed.

(** The domain table of [generate_poet_report] has exactly the domains
    of the results, and none of its entries raises: neither the division by
    the count nor [max] or [min] ever meets an empty list. *)
Theorem domain_analysis_domains (results : list POETMetrics) (name : string) :
  (is_Some (domain_analysis results !! name) <-> name ∈ domain <$> results) /\
  forall error, domain_analysis results !! name <> Some (Raise error).
Proof.
  unfold domain_analysis. rewrite lookup_fmap, domain_stats_lookup.
  destruct (scores_of name results) as [| first rest] eqn:Hscores.
  - split; [| done]. simpl. split; [by intros [? ?] |].
    intros Hname. apply list_elem_of_fmap in Hname as (task & -> & Htask).
    assert (overall_poet_score task ∈ scores_of (domain task) results) as Hscore.
    { unfold scores_of. apply list_elem_of_fmap. exists task. split; [done |].
      by apply list_elem_of_filter. }
    rewrite Hscores in Hscore. by apply elem_of_nil in Hscore.
  - assert (first ∈ scores_of name results) as Hfirst
      by (rewrite Hscores; apply list_elem_of_here).
    unfold scores_of in Hfirst.
    apply list_elem_of_fmap in Hfirst as (task & _ & Htask).
    apply list_elem_of_filter in Htask as [Hname Htask].
    split.
    + split; [| by eauto]. intros _. apply list_elem_of_fmap. by exists task.
    + intros error. simpl. unfold domain_entry_of, divide.
      set (count := inject_Z (Z.of_nat (length (first :: rest)))).
      assert (Qeq_bool count 0 = false) as ->; [| simpl; congruence].
      destruct (Qeq_bool count 0) eqn:Heq; [| done].
      apply Qeq_bool_eq in Heq.
      assert (1 <= count)%Q.
      { unfold count. change 1%Q with (inject_Z 1). rewrite <- Zle_Qle. simpl length. lia. }
      lra.
Qed.

End Floats.

End POETReport.

(** A run over three tasks of two domains. *)
Definition sample_result (name field : string) (value : Q) : POETReport.POETMetrics :=
  {| POETReport.task_id := name;
     POETReport.task_title := name;
     POETReport.model_name := "model";
     POETReport.query_content := "";
     POETReport.agent_output := "";
     POETReport.domain := field;
     POETReport.complexity_level := 3;
     POETReport.efficiency_metrics :=
       EfficiencyEvaluator.Build_EfficiencyMetrics
         name name 0 60 60 1200 600 1800 (27 / 5000) (Some 1) (Some 100)
         (Some (59 / 60)) (Some (499973 / 5000)) true 0;
     POETReport.race_score := 7 / 10;
     POETReport.fact_citation_accuracy := 4 / 5;
     POETReport.fact_effective_citations := 12;
     POETReport.strategic_metrics := DimensionScores.sample_strategic_metrics;
     POETReport.overall_poet_score := value;
     POETReport.poet_value_breakdown := [];
     POETReport.evaluation_timestamp := "2025-01-01T00:00:00";
     POETReport.evaluation_duration_seconds := 60 |}%Q.

Definition sample_results : list POETReport.POETMetrics :=
  [sample_result "task_1" "finance" (3 / 5);
   sample_result "task_2" "law" (9 / 10);
   sample_result "task_3" "finance" (4 / 5)]%Q.

Lemma domain_analysis_entry_finance :
  sample_result "task_3" "finance" (4 / 5) ∈ sample_results /\
  exists entry,
    POETReport.domain_analysis (foldl Qplus 0%Q) Qdiv sample_results !! "finance"
    = Some (Py.Ok entry) /\
    POETReport.task_count entry = 2%Z /\
    (POETReport.max_poet_score entry == 4 / 5)%Q /\
    (POETReport.min_poet_score entry == 3 / 5)%Q /\
    (POETReport.min_poet_score entry <= 4 / 5 <= POETReport.max_poet_score entry)%Q.
Proof.
  assert (sample_result "task_3" "finance" (4 / 5) ∈ sample_results) as Hin.
  { unfold sample_results. do 2 apply list_elem_of_further. apply list_elem_of_here. }
  split; [exact Hin |].
  destruct (POETReport.domain_analysis_entry (foldl Qplus 0%Q) Qdiv sample_results
              "finance" _ Hin eq_refl)
    as (entry & Hentry & _ & _ & _ & _ & _ & Hbounds).
  exists entry. split; [exact Hentry |].
  split; [| split; [| split; [| exact Hbounds]]];
    vm_compute in Hentry; injection Hentry as <-; by vm_compute.
Defined.
